(** * tar_data_collection: a shallow embedding of the data-collection script

    The script [tar_data_collection.py] is sequential glue around a few pure
    computations: chunking, date filtering, sorting by index, first-occurrence
    deduplication, the curated relevance table and fixed-format emission.
    Those computations are embedded here as functions; what the script takes
    from the file system (directory listings, parsed XML, CSV rows, file
    lines, the cells of the sheet) is passed in as data, and what it writes
    (files, console) is returned as data.  Python exceptions are results of
    type [result]. *)

From Stdlib Require Import ZArith QArith Lia Ascii String List Sorting.Sorted Permutation.
From stdpp Require Import base option list strings pretty gmap sorting.

Local Open Scope Z_scope.

(** ** Python exceptions *)

(** The classes of the exceptions the script can raise.  [ValueError] also
    stands for its subclass [UnicodeEncodeError]. *)
Inductive exn : Type :=
| IndexError
| KeyError
| ValueError
| TypeError
| AttributeError
| AssertionError.

Inductive result (A : Type) : Type :=
| Ok (a : A)
| Raise (e : exn).

Arguments Ok {A} a.
Arguments Raise {A} e.

Global Instance result_ret : MRet result := fun A a => Ok a.

Global Instance result_bind : MBind result := fun A B k r =>
  match r with
  | Ok a => k a
  | Raise e => Raise e
  end.

(** [for x in xs: body], where the body threads a state and may raise. *)
Fixpoint for_each {A S : Type} (body : S -> A -> result S) (xs : list A) (s : S)
  : result S :=
  match xs with
  | [] => Ok s
  | x :: xs' => s' ← body s x; for_each body xs' s'
  end.

(** ** Python built-ins used by the script *)

Module Py.

(** [range(start, stop, step)]: a zero step raises [ValueError]; the number
    of items is computed as CPython does. *)
Definition range_len (start stop step : Z) : nat :=
  if 0 <? step then
    if start <? stop then Z.to_nat ((stop - start - 1) / step + 1) else 0%nat
  else
    if stop <? start then Z.to_nat ((start - stop - 1) / (- step) + 1) else 0%nat.

Definition range (start stop step : Z) : result (list Z) :=
  if step =? 0 then Raise ValueError
  else Ok (map (fun k => start + Z.of_nat k * step)
               (seq 0 (range_len start stop step))).

(** A slice bound: negative bounds count from the end, and all bounds are
    clamped to [0, len]. *)
Definition clamp (len i : Z) : nat :=
  Z.to_nat (if i <? 0 then Z.max (i + len) 0 else Z.min i len).

(** [arr[lo:hi]] *)
Definition slice {A : Type} (arr : list A) (lo hi : Z) : list A :=
  let len := Z.of_nat (length arr) in
  let l := clamp len lo in
  let h := clamp len hi in
  take (h - l) (drop l arr).

(** *** Strings

    A string is a list of characters; a character is a code point below
    256. *)

Definition ord (a : ascii) : Z := Z.of_N (N_of_ascii a).

(** The whitespace removed by [str.strip()] on a byte string. *)
Definition isspace (a : ascii) : bool :=
  let n := ord a in
  ((9 <=? n) && (n <=? 13)) || (n =? 32).

(** The whitespace removed by [unicode.strip()], among code points below
    256. *)
Definition uisspace (a : ascii) : bool :=
  let n := ord a in
  ((9 <=? n) && (n <=? 13)) || ((28 <=? n) && (n <=? 32))
  || (n =? 133) || (n =? 160).

Fixpoint lstrip (sp : ascii -> bool) (s : string) : string :=
  match s with
  | String a s' => if sp a then lstrip sp s' else s
  | EmptyString => EmptyString
  end.

(** A character goes when it and all that follows it is whitespace. *)
Fixpoint rstrip (sp : ascii -> bool) (s : string) : string :=
  match s with
  | String a s' =>
      match rstrip sp s' with
      | EmptyString => if sp a then EmptyString else String a EmptyString
      | t => String a t
      end
  | EmptyString => EmptyString
  end.

Definition strip_with (sp : ascii -> bool) (s : string) : string :=
  rstrip sp (lstrip sp s).

(** [s.strip()] for a byte string and for a unicode string. *)
Definition strip : string -> string := strip_with isspace.
Definition ustrip : string -> string := strip_with uisspace.

(** The text has ASCII characters only. *)
Fixpoint is_ascii (s : string) : bool :=
  match s with
  | String a s' => (ord a <? 128) && is_ascii s'
  | EmptyString => true
  end.

(** The characters at which [unicode.splitlines] ends a line, among code
    points below 256. *)
Definition is_linebreak (a : ascii) : bool :=
  let n := ord a in
  ((10 <=? n) && (n <=? 13)) || ((28 <=? n) && (n <=? 30)) || (n =? 133).

(** A carriage return followed by a line feed: the two end one line. *)
Definition is_crlf (a : ascii) (s : string) : bool :=
  match s with
  | String b _ => (ord a =? 13) && (ord b =? 10)
  | EmptyString => false
  end.

(** [s.splitlines(True)] on a unicode string: the lines of [s], each with
    its line end.  [cur] is the line being read. *)
Fixpoint splitlines_from (cur s : string) : list string :=
  match s with
  | String a s' =>
      let cur := cur +:+ String a EmptyString in
      if is_linebreak a && negb (is_crlf a s')
      then cur :: splitlines_from EmptyString s'
      else splitlines_from cur s'
  | EmptyString =>
      match cur with
      | EmptyString => []
      | _ => [cur]
      end
  end.

Definition splitlines (s : string) : list string :=
  splitlines_from EmptyString s.

(** [sep.join(l)] *)
Definition join (sep : string) (l : list string) : string := String.concat sep l.

(** ['%-ws' % s]: left-justified in a field of [w] characters. *)
Definition ljust (w : nat) (s : string) : string :=
  s +:+ String.concat EmptyString (replicate (w - String.length s) " ").

(** *** Regular expressions *)

(** The value of a character matched by [\d] (no [re.UNICODE]: 0-9 only). *)
Definition digit (a : ascii) : option Z :=
  let n := ord a in
  if (48 <=? n) && (n <=? 57) then Some (n - 48) else None.

Definition is_digit (a : ascii) : bool :=
  match digit a with Some _ => true | None => false end.

(** [re.findall(r'\d+', s)]: the maximal runs of digits, left to right.
    [run] is the run being read. *)
Definition flush (run : string) : list string :=
  match run with
  | EmptyString => []
  | _ => [run]
  end.

Fixpoint findall_digits_from (run : string) (s : string) : list string :=
  match s with
  | String a s' =>
      if is_digit a then findall_digits_from (run +:+ String a EmptyString) s'
      else flush run ++ findall_digits_from EmptyString s'
  | EmptyString => flush run
  end.

Definition findall_digits (s : string) : list string :=
  findall_digits_from EmptyString s.

(** The longest prefix of digits. *)
Fixpoint digits_prefix (s : string) : string :=
  match s with
  | String a s' => if is_digit a then String a (digits_prefix s') else EmptyString
  | EmptyString => EmptyString
  end.

(** [CD\d+] matched at the head of [s]. *)
Definition match_CD (s : string) : option string :=
  match s with
  | String "C" (String "D" s') =>
      match digits_prefix s' with
      | EmptyString => None
      | ds => Some ("CD" +:+ ds)
      end
  | _ => None
  end.

(** [re.findall(r'CD\d+', s)[0]]: the leftmost match, [IndexError] when
    there is none. *)
Fixpoint findall_CD_0 (s : string) : result string :=
  match match_CD s with
  | Some m => Ok m
  | None =>
      match s with
      | String _ s' => findall_CD_0 s'
      | EmptyString => Raise IndexError
      end
  end.

(** [int(s)] for a string [s] of digits, as [\d+] matches. *)
Fixpoint int_from (acc : Z) (s : string) : Z :=
  match s with
  | String a s' => int_from (10 * acc + default 0 (digit a)) s'
  | EmptyString => acc
  end.

Definition int (s : string) : Z := int_from 0 s.

(** [l[0]] *)
Definition item0 {A : Type} (l : list A) : result A :=
  match l with
  | x :: _ => Ok x
  | [] => Raise IndexError
  end.

(** *** Sorting

    [l.sort(key=key)]: ascending by key, and stable: items with equal keys
    keep their order. *)
Fixpoint insert_by {A : Type} (key : A -> Z) (x : A) (l : list A) : list A :=
  match l with
  | [] => [x]
  | y :: l' => if key x <=? key y then x :: l else y :: insert_by key x l'
  end.

Definition sort_by {A : Type} (key : A -> Z) (l : list A) : list A :=
  foldr (insert_by key) [] l.

End Py.

(** ** Chunking *)

(** [return [arr[i:i+n] for i in range(0, len(arr), n)]] *)
Definition chunks_by_element {A : Type} (arr : list A) (n : Z) : result (list (list A)) :=
  r ← Py.range 0 (Z.of_nat (length arr)) n;
  Ok (map (fun i => Py.slice arr i (i + n)) r).

Definition DOWNLOAD_NUM_PER_TIME : Z := 500.


(** ** Dates: [datetime.datetime.strptime(s, "%Y%m%d")] *)

Module Datetime.

(** A [datetime] built from a date only: its time of day is midnight. *)
Record datetime : Type := mk_datetime { year : Z; month : Z; day : Z }.

Global Instance datetime_eq_dec : EqDecision datetime.
Proof. solve_decision. Defined.

(** [a < b] on datetimes: by year, then month, then day. *)
Definition ltb (a b : datetime) : bool :=
  (year a <? year b)
  || ((year a =? year b)
      && ((month a <? month b)
          || ((month a =? month b) && (day a <? day b)))).

Definition is_leap (y : Z) : bool :=
  (y mod 4 =? 0) && (negb (y mod 100 =? 0) || (y mod 400 =? 0)).

Definition days_in_month (y m : Z) : Z :=
  if m =? 2 then (if is_leap y then 29 else 28)
  else if (m =? 4) || (m =? 6) || (m =? 9) || (m =? 11) then 30
  else 31.

(** The dates the [datetime] constructor accepts. *)
Definition valid (y m d : Z) : bool :=
  (1 <=? y) && (y <=? 9999) && (1 <=? m) && (m <=? 12)
  && (1 <=? d) && (d <=? days_in_month y m).

(** A digit between [lo] and [hi]. *)
Definition digit_in (lo hi : Z) (a : ascii) : option Z :=
  match Py.digit a with
  | Some d => if (lo <=? d) && (d <=? hi) then Some d else None
  | None => None
  end.

(** One alternative of a directive's pattern, tried at the head of [s]:
    the value read and what is left of [s]. *)
Definition two (p q : ascii -> option Z) (s : string) : list (Z * string) :=
  match s with
  | String a (String b r) =>
      match p a, q b with
      | Some x, Some y => [(10 * x + y, r)]
      | _, _ => []
      end
  | _ => []
  end.

Definition one (p : ascii -> option Z) (s : string) : list (Z * string) :=
  match s with
  | String a r =>
      match p a with
      | Some x => [(x, r)]
      | None => []
      end
  | EmptyString => []
  end.

Definition space_one (p : ascii -> option Z) (s : string) : list (Z * string) :=
  match s with
  | String " " r => one p r
  | _ => []
  end.

(** [%m] is [1[0-2]|0[1-9]|[1-9]], its alternatives tried in this order. *)
Definition directive_m (s : string) : list (Z * string) :=
  two (digit_in 1 1) (digit_in 0 2) s
  ++ two (digit_in 0 0) (digit_in 1 9) s
  ++ one (digit_in 1 9) s.

(** [%d] is [3[0-1]|[1-2]\d|0[1-9]|[1-9]| [1-9]]. *)
Definition directive_d (s : string) : list (Z * string) :=
  two (digit_in 3 3) (digit_in 0 1) s
  ++ two (digit_in 1 2) (digit_in 0 9) s
  ++ two (digit_in 0 0) (digit_in 1 9) s
  ++ one (digit_in 1 9) s
  ++ space_one (digit_in 1 9) s.

(** [%Y] is [\d\d\d\d]. *)
Definition directive_Y (s : string) : list (Z * string) :=
  match s with
  | String a (String b (String c (String d r))) =>
      match Py.digit a, Py.digit b, Py.digit c, Py.digit d with
      | Some x, Some y, Some z, Some w => [(1000 * x + 100 * y + 10 * z + w, r)]
      | _, _, _, _ => []
      end
  | _ => []
  end.

(** The matches of the pattern of ["%Y%m%d"] at the head of [s], in the
    order in which a backtracking matcher finds them; [re.match] returns
    the first. *)
Definition matches_Ymd (s : string) : list (Z * Z * Z * string) :=
  '(y, r1) ← directive_Y s;
  '(m, r2) ← directive_m r1;
  '(d, r3) ← directive_d r2;
  [(y, m, d, r3)].

(** [ValueError] when the pattern does not match, when the match leaves
    part of the string unconverted, or when the date does not exist. *)
Definition strptime_Ymd (s : string) : result datetime :=
  match matches_Ymd s with
  | [] => Raise ValueError
  | (y, m, d, rest) :: _ =>
      match rest with
      | EmptyString =>
          if valid y m d then Ok (mk_datetime y m d) else Raise ValueError
      | _ => Raise ValueError
      end
  end.

End Datetime.

(** ** XML documents: the part of [xml.dom.minidom] the script uses *)

Module Dom.

#[warnings="-register-all"] Inductive node : Type :=
| Text (data : string)
| Element (tagName : string) (attributes : list (string * string))
          (childNodes : list node)
| Other.  (* a comment, a CDATA section, a processing instruction *)

Definition has_tag (name : string) (n : node) : bool :=
  match n with
  | Element t _ _ => bool_decide (t = name)
  | _ => false
  end.

(** [parent.getElementsByTagName(name)], for a [name] other than ["*"]:
    the descendants of [parent] that are elements of that name, in
    document order. *)
Fixpoint getElementsByTagName (name : string) (parent : node) : list node :=
  match parent with
  | Element _ _ cs =>
      (fix helper (ns : list node) : list node :=
         match ns with
         | [] => []
         | n :: ns' =>
             (if has_tag name n then [n] else [])
             ++ getElementsByTagName name n ++ helper ns'
         end) cs
  | _ => []
  end.

(** [n.getAttribute(name)]: the empty string when there is no such
    attribute. *)
Definition getAttribute (name : string) (n : node) : string :=
  match n with
  | Element _ attrs _ =>
      match list_find (fun '(k, _) => k = name) attrs with
      | Some (_, (_, v)) => v
      | None => EmptyString
      end
  | _ => EmptyString
  end.

Definition childNodes (n : node) : list node :=
  match n with
  | Element _ _ cs => cs
  | _ => []
  end.

(** The data of a node when it is a text node. *)
Definition text_data (n : node) : list string :=
  match n with
  | Text d => [d]
  | _ => []
  end.

End Dom.

(** [get_tag_text(root, tagname)]: the text nodes directly under the first
    element named [tagname] below [root], concatenated. *)
Definition get_tag_text (root : Dom.node) (tagname : string) : result string :=
  node ← Py.item0 (Dom.getElementsByTagName tagname root);
  Ok (foldl (fun rc n =>
               match n with
               | Dom.Text data => rc +:+ data
               | _ => rc
               end) EmptyString (Dom.childNodes node)).

(** The newline character. *)
Definition nl : string := String "010"%char EmptyString.

(** ** Query Loader: what [read_ovid_search_file] returns

    [dict_review] maps a topic id to the four entries the loader stores for
    it.  It is a [defaultdict(dict)]: looking up an entry of a topic that is
    not there raises [KeyError]. *)

Record review : Type := mk_review {
  review_doi : string;
  url : string;
  query : string;
  date : string
}.

Definition getitem {V : Type} (d : gmap string V) (k : string) : result V :=
  match d !! k with
  | Some v => Ok v
  | None => Raise KeyError
  end.

(** ** Query Loader: [read_ovid_search_file] *)

(** [s.split(sep)] for a separator of one character; [cur] is the piece
    being read. *)
Fixpoint split_from (sep : ascii) (cur s : string) : list string :=
  match s with
  | String a s' =>
      if decide (a = sep) then cur :: split_from sep EmptyString s'
      else split_from sep (cur +:+ String a EmptyString) s'
  | EmptyString => [cur]
  end.

Definition str_split (sep : ascii) (s : string) : list string :=
  split_from sep EmptyString s.

(** The value of a cell of the sheet, as [openpyxl] gives it. *)
Inductive cell : Type :=
| Blank              (* [None]: the cell is empty *)
| Str (s : string)   (* text *)
| Num (n : Z)        (* a whole number *)
| Float (q : Q)      (* a number with a fraction *)
| Boolean (b : bool)
| Date.              (* a date or a time *)

(** The cells of a row of the sheet that the loader reads: columns A, B, D
    and F. *)
Record sheet_row : Type := mk_sheet_row {
  cell_A : cell;
  cell_B : cell;
  cell_D : cell;
  cell_F : cell
}.

(** [value.strip()]: only text has the method. *)
Definition cell_strip (value : cell) : result string :=
  match value with
  | Str s => Ok (Py.ustrip s)
  | _ => Raise AttributeError
  end.

(** [re.findall(r'CD\d+', value)[0]]: [re] takes text only. *)
Definition cell_findall_CD_0 (value : cell) : result string :=
  match value with
  | Str s => Py.findall_CD_0 s
  | _ => Raise TypeError
  end.

(** [int(value)].  What [int] makes of a text is Python's business and
    not the script's: it is given by [int_text], the number read in the
    text, or [None] when [int] raises [ValueError].  A fraction is cut off
    towards zero; an empty cell and a date have no integer value. *)
Definition cell_int (int_text : string -> option Z) (value : cell) : result Z :=
  match value with
  | Str s =>
      match int_text s with
      | Some n => Ok n
      | None => Raise ValueError
      end
  | Num n => Ok n
  | Float q => Ok (Z.quot (Qnum q) (Z.pos (Qden q)))
  | Boolean b => Ok (if b then 1 else 0)
  | Blank | Date => Raise TypeError
  end.

(** [[line.strip() for line in ori_query.split('\n') if line.strip() != '']] *)
Definition query_lines (ori_query : string) : list string :=
  Py.ustrip <$> filter (fun line => Py.ustrip line <> EmptyString)
                  (str_split "010" ori_query).

(** The body of the loop over the rows, up to the assignments to
    [dict_review[topic_id]]: the topic id and the four entries stored for
    it. *)
Definition sheet_entry (int_text : string -> option Z) (row : sheet_row)
  : result (string * review) :=
  ori_query ← cell_strip (cell_D row);
  let list_ori_query := query_lines ori_query in
  let query := Py.join nl list_ori_query in
  let date_limit := cell_F row in
  let link := cell_B row in
  topic_id ← cell_int int_text (cell_A row);
  let topic_id := pretty topic_id in
  review_doi ← cell_findall_CD_0 link;
  url ← cell_strip link;
  date ← cell_strip date_limit;
  Ok (topic_id, mk_review (Py.ustrip review_doi) url (Py.ustrip query) date).

(** The body of the loop over the rows. *)
Definition read_sheet_row (int_text : string -> option Z) (sheet : Z -> sheet_row)
    (dict_review : gmap string review) (i : Z) : result (gmap string review) :=
  '(topic_id, rv) ← sheet_entry int_text (sheet i);
  Ok (<[topic_id := rv]> dict_review).

(** [sheet] gives the cells of each row of ['Sheet1'] by row number. *)
Definition read_ovid_search_file (int_text : string -> option Z)
    (sheet : Z -> sheet_row) : result (gmap string review) :=
  rows ← Py.range 2 53 1;
  for_each (read_sheet_row int_text sheet) rows ∅.

(** ** PID Extractor: [extract_pid] *)

(** The loop over the [F] elements of a record.  Its state is the pair of
    [ui] and [test_date]; [test_date] is [None] while it is still the empty
    string it is initialised with. *)
Definition scan_field (st : string * option Datetime.datetime) (f : Dom.node)
  : result (string * option Datetime.datetime) :=
  let '(ui, test_date) := st in
  ui ← (if decide (Dom.getAttribute "L" f = "Unique Identifier")
        then get_tag_text f "D" else Ok ui);
  test_date ← (if decide (Dom.getAttribute "L" f = "Date Created")
               then test_date ← get_tag_text f "D";
                    test_date ← Datetime.strptime_Ymd test_date;
                    Ok (Some test_date)
               else Ok test_date);
  Ok (ui, test_date).

(** The values of [inx], [ui] and [test_date] when the filter is reached. *)
Definition scan_record (r : Dom.node)
  : result (Z * string * option Datetime.datetime) :=
  inx ← Py.item0 (Py.findall_digits (Dom.getAttribute "index" r));
  let inx := Py.int inx in
  '(ui, test_date) ← for_each scan_field (Dom.getElementsByTagName "F" r)
                        (EmptyString, None);
  Ok (inx, ui, test_date).

(** [test_date < end_date and test_date > start_date].  Ordering a string
    against a datetime raises [TypeError]. *)
Definition date_filter (start_date end_date : Datetime.datetime)
    (test_date : option Datetime.datetime) : result bool :=
  match test_date with
  | Some test_date =>
      Ok (Datetime.ltb test_date end_date && Datetime.ltb start_date test_date)
  | None => Raise TypeError
  end.

(** The body of the loop over the records of a file. *)
Definition extract_record (start_date end_date : Datetime.datetime)
    (list_ret : list (Z * string)) (r : Dom.node) : result (list (Z * string)) :=
  '(inx, ui, test_date) ← scan_record r;
  keep ← date_filter start_date end_date test_date;
  Ok (if keep : bool then list_ret ++ [(inx, ui)] else list_ret).

(** [start_date, end_date = re.findall(r'\d+', date_range)], both parsed. *)
Definition date_window (date_range : string)
  : result (Datetime.datetime * Datetime.datetime) :=
  match Py.findall_digits date_range with
  | [start_date; end_date] =>
      start_date ← Datetime.strptime_Ymd start_date;
      end_date ← Datetime.strptime_Ymd end_date;
      Ok (start_date, end_date)
  | _ => Raise ValueError
  end.

(** The body of the loop over the files of a topic; [root] is the document
    element of the parsed file. *)
Definition extract_file (dict_review : gmap string review) (topic_id : string)
    (list_ret : list (Z * string)) (root : Dom.node) : result (list (Z * string)) :=
  rv ← getitem dict_review topic_id;
  '(start_date, end_date) ← date_window (date rv);
  for_each (extract_record start_date end_date)
           (Dom.getElementsByTagName "record" root) list_ret.

(** [list_ret] before it is sorted. *)
Definition collect_topic (dict_review : gmap string review) (topic_id : string)
    (files : list Dom.node) : result (list (Z * string)) :=
  for_each (extract_file dict_review topic_id) files [].

(** The identifiers written for a topic, in the order written. *)
Definition extract_topic (dict_review : gmap string review) (topic_id : string)
    (files : list Dom.node) : result (list string) :=
  list_ret ← collect_topic dict_review topic_id files;
  let list_ret := Py.sort_by fst list_ret in
  Ok (map snd list_ret).

(** What [f.write('{}\n'.format(ui))] writes, identifier by identifier,
    when it writes them all. *)
Definition pid_lines (uis : list string) : list string :=
  map (fun ui => ui +:+ nl) uis.

(** ['{}\n'.format(ui)]: the identifier is unicode text and the format a
    byte string, so that the identifier is encoded as ASCII, which raises
    [UnicodeEncodeError] when it has a character that is not. *)
Definition pid_line (ui : string) : result string :=
  if Py.is_ascii ui then Ok (ui +:+ nl) else Raise ValueError.

(** The loop that writes the identifiers: [f] is what has been written. *)
Definition write_pids (uis : list string) : result (list string) :=
  for_each (fun f ui => line ← pid_line ui; Ok (f ++ [line])) uis [].

(** The body of the loop over the topic directories. *)
Definition extract_dir (dict_review : gmap string review)
    (pids : gmap string (list string)) (d : string * list Dom.node)
  : result (gmap string (list string)) :=
  let '(topic_id, files) := d in
  uis ← extract_topic dict_review topic_id files;
  f ← write_pids uis;
  Ok (<[topic_id := f]> pids).

(** [sheet] is the sheet of the Query Loader, [download] lists the topic
    directories with the parsed files of each; [pids] is the
    identifier-list directory, a file name mapped to what was written to
    the file. *)
Definition extract_pid (int_text : string -> option Z) (sheet : Z -> sheet_row)
    (download : list (string * list Dom.node))
    (pids : gmap string (list string)) : result (gmap string (list string)) :=
  dict_review ← read_ovid_search_file int_text sheet;
  for_each (extract_dir dict_review) download pids.

(** ** Curated relevance table: [read_clef_rel] *)

(** A row as [csv.DictReader] yields it: the field names of the header
    mapped to the cells of the line, [None] for a cell that a short line
    does not have. *)
Abbreviation csv_row := (gmap string (option string)).

(** What the branches on [qrel_type] and on the row's label end in. *)
Inductive branch : Type :=
| Store (ref_type : Z)
| Continue
| Break.

(** [label] is the cell of the row under [ref_type]. *)
Definition ref_type_of (qrel_type : string) (label : option string) : branch :=
  if decide ("abs" = qrel_type) then
    if decide (Some "included" = label) then Store 1
    else if decide (Some "excluded" = label) then Store 1
    else Continue
  else if decide ("doc" = qrel_type) then
    if decide (Some "included" = label) then Store 1
    else if decide (Some "excluded" = label) then Store 0
    else Continue
  else Break.

(** [re.findall(r'CD\d+', row['review_doi'])[0].strip()] *)
Definition row_review_doi (row : csv_row) : result string :=
  cell ← getitem row "review_doi";
  review_doi ← match cell with
               | Some s => Py.findall_CD_0 s
               | None => Raise TypeError
               end;
  Ok (Py.strip review_doi).

(** [row['pubmed_id'].strip()] *)
Definition row_pubmed_id (row : csv_row) : result string :=
  cell ← getitem row "pubmed_id";
  match cell with
  | Some s => Ok (Py.strip s)
  | None => Raise AttributeError
  end.

(** [row['ref_type']], which is read for the two judgment kinds only. *)
Definition row_ref_type (qrel_type : string) (row : csv_row) : result (option string) :=
  if decide ("abs" = qrel_type) then getitem row "ref_type"
  else if decide ("doc" = qrel_type) then getitem row "ref_type"
  else Ok None.

(** [dict_rel[review_doi][pubmed_id] = ref_type] on a [defaultdict(dict)]. *)
Definition setitem2 (dict_rel : gmap string (gmap string Z))
    (review_doi pubmed_id : string) (ref_type : Z) : gmap string (gmap string Z) :=
  <[review_doi := <[pubmed_id := ref_type]> (default ∅ (dict_rel !! review_doi))]> dict_rel.

(** [dict_rel[review_doi].get(pubmed_id)] *)
Definition get2 (dict_rel : gmap string (gmap string Z))
    (review_doi pubmed_id : string) : option Z :=
  default ∅ (dict_rel !! review_doi) !! pubmed_id.

Fixpoint read_rows (qrel_type : string) (rows : list csv_row)
    (dict_rel : gmap string (gmap string Z)) : result (gmap string (gmap string Z)) :=
  match rows with
  | [] => Ok dict_rel
  | row :: rows' =>
      review_doi ← row_review_doi row;
      pubmed_id ← row_pubmed_id row;
      label ← row_ref_type qrel_type row;
      match ref_type_of qrel_type label with
      | Store ref_type =>
          read_rows qrel_type rows' (setitem2 dict_rel review_doi pubmed_id ref_type)
      | Continue => read_rows qrel_type rows' dict_rel
      | Break => Ok dict_rel
      end
  end.

(** [rows] is what the reader of the curated table yields. *)
Definition read_clef_rel (qrel_type : string) (rows : list csv_row)
  : result (gmap string (gmap string Z)) :=
  read_rows qrel_type rows ∅.

(** ** Titles: [batch_download_title] and [read_title] *)

(** [s.split(sep)] for a separator of several characters: its occurrences
    are found from the left and do not overlap.  [skip] counts the
    characters of an occurrence that are still to be passed over, [cur] is
    the piece being read. *)
Fixpoint split_by_from (sep : string) (skip : nat) (cur s : string) : list string :=
  match s with
  | String a s' =>
      match skip with
      | S k => split_by_from sep k cur s'
      | O =>
          if String.prefix sep s
          then cur :: split_by_from sep (String.length sep - 1) EmptyString s'
          else split_by_from sep O (cur +:+ String a EmptyString) s'
      end
  | EmptyString => [cur]
  end.

Definition split_by (sep s : string) : list string :=
  split_by_from sep O EmptyString s.

(** [a, b = l]: a list that does not have two items raises [ValueError]. *)
Definition unpack2 {A : Type} (l : list A) : result (A * A) :=
  match l with
  | [a; b] => Ok (a, b)
  | _ => Raise ValueError
  end.

(** ['%s ||| %s \n' % (topic_id, title)], the line [batch_download_title]
    writes for a topic. *)
Definition title_line (topic_id title : string) : string :=
  topic_id +:+ " ||| " +:+ title +:+ " " +:+ nl.

(** The body of the loop of [read_title] over the lines of the file. *)
Definition read_title_line (dict_title : gmap string string) (line : string)
  : result (gmap string string) :=
  '(topic_id, title) ← unpack2 (split_by "|||" line);
  Ok (<[Py.ustrip topic_id := Py.ustrip title]> dict_title).

(** [lines] is what the iteration over the file of titles yields. *)
Definition read_title (lines : list string) : result (gmap string string) :=
  for_each read_title_line lines ∅.

(** ** Release Builder: [make_release_file] *)

(** Reading an identifier-list file: [lines] are the lines of the file as
    iteration over it yields them.  The state is the pair of [list_boolean]
    and [local]. *)
Definition read_pid_line (st : list string * list string) (l : string)
  : list string * list string :=
  let '(list_boolean, local) := st in
  if decide (Py.ustrip l ∈ local) then st
  else (list_boolean ++ [Py.ustrip l], local ++ [Py.ustrip l]).

Definition read_pids (lines : list string) : list string :=
  (foldl read_pid_line ([], []) lines).1.

(** A judgment: review id, iteration marker, document id, relevance flag. *)
Definition judgment : Type := string * Z * string * Z.

(** [(review_doi, 0, item.strip(), dict_rel[review_doi].get(item.strip(), 0))] *)
Definition judgment_of (dict_rel : gmap string (gmap string Z))
    (review_doi item : string) : judgment :=
  (review_doi, 0, Py.ustrip item,
   default 0 (get2 dict_rel review_doi (Py.ustrip item))).

(** ['%-12s %-2d %-12s %-2s \n' % j] *)
Definition judgment_line (j : judgment) : string :=
  let '(review_doi, iteration, item, rel) := j in
  Py.ljust 12 review_doi +:+ " " +:+ Py.ljust 2 (pretty iteration) +:+ " "
  +:+ Py.ljust 12 item +:+ " " +:+ Py.ljust 2 (pretty rel) +:+ " " +:+ nl.

Definition judgments (dict_rel : gmap string (gmap string Z))
    (review_doi : string) (list_boolean : list string) : list judgment :=
  map (judgment_of dict_rel review_doi) list_boolean.

(** The writes to a topic description file. *)
Definition topic_lines (review_doi title query : string)
    (list_boolean : list string) : list string :=
  ["Topic: " +:+ review_doi +:+ " " +:+ nl +:+ nl;
   "Title: " +:+ title +:+ " " +:+ nl +:+ nl;
   "Query: " +:+ nl +:+ query +:+ " " +:+ nl +:+ nl;
   "Pids: " +:+ nl]
  ++ map (fun pid => "    " +:+ pid +:+ " " +:+ nl) list_boolean.

(** The three output directories: a file name mapped to what was written to
    the file. *)
Record release : Type := mk_release {
  ABS_QREL_DIR : gmap string (list string);
  DOC_QREL_DIR : gmap string (list string);
  TOPIC_DIR : gmap string (list string)
}.

(** The body of the loop over the identifier-list files. *)
Definition release_topic (qrel_type : string)
    (dict_rel : gmap string (gmap string Z))
    (dict_review : gmap string review) (dict_title : gmap string string)
    (out : release) (pid_file : string * list string) : result release :=
  let '(topic_id, lines) := pid_file in
  if decide (topic_id ∈ dom dict_review) then
    let list_boolean := read_pids lines in
    rv ← getitem dict_review topic_id;
    let review_doi := review_doi rv in
    title ← getitem dict_title topic_id;
    let query := query rv in
    let out :=
      if decide ("abs" = qrel_type) then
        mk_release
          (<[topic_id := map judgment_line (judgments dict_rel review_doi list_boolean)]>
             (ABS_QREL_DIR out))
          (DOC_QREL_DIR out) (TOPIC_DIR out)
      else out in
    let out :=
      if decide ("doc" = qrel_type) then
        mk_release (ABS_QREL_DIR out)
          (<[topic_id := map judgment_line (judgments dict_rel review_doi list_boolean)]>
             (DOC_QREL_DIR out))
          (TOPIC_DIR out)
      else if decide ("topic" = qrel_type) then
        mk_release (ABS_QREL_DIR out) (DOC_QREL_DIR out)
          (<[topic_id := topic_lines review_doi title query list_boolean]>
             (TOPIC_DIR out))
      else out in
    Ok out
  else Raise AssertionError.

(** [rows] is the curated table, [sheet] the sheet of the Query Loader,
    [title_lines] the lines of the file of titles, and [pid_files] lists the
    identifier-list directory: each file name with the lines of the file. *)
Definition make_release_file (int_text : string -> option Z) (qrel_type : string)
    (rows : list csv_row) (sheet : Z -> sheet_row) (title_lines : list string)
    (pid_files : list (string * list string)) (out : release) : result release :=
  dict_rel ← read_clef_rel qrel_type rows;
  dict_review ← read_ovid_search_file int_text sheet;
  dict_title ← read_title title_lines;
  for_each (release_topic qrel_type dict_rel dict_review dict_title) pid_files out.

(** ** Abstract Fetcher: the [id] parameter of each request of
    [download_abstract] for a topic *)

Definition abstract_requests (lines : list string) : result (list string) :=
  blocks ← chunks_by_element (read_pids lines) 500;
  Ok (map (Py.join ",") blocks).

(** ** TREC-style Formatter: [trec_format_abstract] *)

(** The body of the [try] block: the value [abstract] ends with. *)
Definition abstract_of (Article : Dom.node) : result string :=
  let abstract_nodes := Dom.getElementsByTagName "AbstractText" Article in
  let abstract :=
    abstract_node ← abstract_nodes;
    node ← Dom.childNodes abstract_node;
    Dom.text_data node in
  Ok (Py.join nl abstract).

(** The five writes of a record. *)
Definition trec_doc (pid title abstract : string) : list string :=
  ["<DOC>" +:+ nl;
   "<DOCNO>" +:+ pid +:+ "</DOCNO>" +:+ nl;
   "<TITLE>" +:+ title +:+ "</TITLE>" +:+ nl;
   "<TEXT>" +:+ abstract +:+ "</TEXT>" +:+ nl;
   "</DOC>" +:+ nl +:+ nl].

(** The three fields of a citation, and what handling the [try] block
    prints.  When the block raises, [abstract] is still the list it was
    bound to at the start of the block, which is formatted as a list. *)
Definition citation (r : Dom.node) : result (string * string * string * list string) :=
  MedlineCitation ← Py.item0 (Dom.getElementsByTagName "MedlineCitation" r);
  pid ← get_tag_text MedlineCitation "PMID";
  Article ← Py.item0 (Dom.getElementsByTagName "Article" MedlineCitation);
  title ← get_tag_text Article "ArticleTitle";
  match abstract_of Article with
  | Ok abstract => Ok (pid, title, abstract, [])
  | Raise _ => Ok (pid, title, "[]", ["AbstractText field does not exist for "])
  end.

(** The body of the loop over the citations of a response file.  The state
    is what has been written to the output file and to the console. *)
Definition format_citation (st : list string * list string) (r : Dom.node)
  : result (list string * list string) :=
  let '(f, console) := st in
  '(pid, title, abstract, printed) ← citation r;
  Ok (f ++ trec_doc pid title abstract, console ++ printed).

(** One response file: the writes to its output file and to the console. *)
Definition trec_format_file (root : Dom.node) : result (list string * list string) :=
  for_each format_citation (Dom.getElementsByTagName "PubmedArticle" root) ([], []).

(** ** Documents for examples

    A record of an export file,
    [<record index=..><F L="Unique Identifier"><D>ui</D></F>
    <F L="Date Created"><D>date</D></F></record>], an export file, and a
    citation of a response file. *)

Definition field (L D : string) : Dom.node :=
  Dom.Element "F" [("L", L)] [Dom.Element "D" [] [Dom.Text D]].

Definition record_xml (index ui created : string) : Dom.node :=
  Dom.Element "record" [("index", index)]
    [field "Unique Identifier" ui; field "Date Created" created].

Definition records_xml (records : list Dom.node) : Dom.node :=
  Dom.Element "records" [] records.

Definition article_xml (pid title : string) (abstracts : list Dom.node) : Dom.node :=
  Dom.Element "PubmedArticle" []
    [Dom.Element "MedlineCitation" []
       [Dom.Element "PMID" [] [Dom.Text pid];
        Dom.Element "Article" []
          (Dom.Element "ArticleTitle" [] [Dom.Text title] :: abstracts)]].

Definition one_review (topic_id doi date_range : string) : gmap string review :=
  {[ topic_id := mk_review doi "http://example.org" "query" date_range ]}.

(** A sheet all of whose rows are about the topic [topic_id], and what the
    Query Loader returns for it. *)
Definition one_sheet (topic_id : Z) (doi date_range : string) : Z -> sheet_row :=
  fun _ => mk_sheet_row (Num topic_id) (Str ("http://example.org/" +:+ doi))
             (Str "query") (Str date_range).

Definition sheet_review (topic_id doi date_range : string) : gmap string review :=
  {[ topic_id := mk_review doi ("http://example.org/" +:+ doi) "query" date_range ]}.

(** No text is read as a number. *)
Definition no_int_text : string -> option Z := fun _ => None.

(** A full row of the curated table. *)
Definition mk_rel_row (review_doi pubmed_id ref_type : string) : csv_row :=
  {[ "review_doi" := Some review_doi; "pubmed_id" := Some pubmed_id;
     "ref_type" := Some ref_type ]}.

(** ** Definitions used to state and prove the properties *)

(** The chunks of [arr], counted in natural numbers: [c] chunks of [m]
    elements each, the last one possibly shorter. *)
Definition pieces {A : Type} (m : nat) (arr : list A) (c : nat) : list (list A) :=
  map (fun k => take m (drop (k * m) arr)) (seq 0 c).

(** [c] is the number of chunks of [m] elements a list of [len] elements
    falls into. *)
Definition covers (m len c : nat) : Prop :=
  (c = 0 /\ len = 0)%nat \/ (0 < c /\ (c - 1) * m < len <= c * m)%nat.

(** [a] is strictly before [b]. *)
Definition date_lt (a b : Datetime.datetime) : Prop :=
  Datetime.year a < Datetime.year b
  \/ (Datetime.year a = Datetime.year b
      /\ (Datetime.month a < Datetime.month b
          \/ (Datetime.month a = Datetime.month b
              /\ Datetime.day a < Datetime.day b))).

(** The number a date reads as when written [YYYYMMDD]. *)
Definition date_stamp (a : Datetime.datetime) : Z :=
  10000 * Datetime.year a + 100 * Datetime.month a + Datetime.day a.

Definition date_valid (a : Datetime.datetime) : Prop :=
  Datetime.valid (Datetime.year a) (Datetime.month a) (Datetime.day a) = true.

(** [test_date] is strictly inside the window. *)
Definition inside (start_date end_date test_date : Datetime.datetime) : Prop :=
  date_lt start_date test_date /\ date_lt test_date end_date.

Global Instance date_lt_dec a b : Decision (date_lt a b).
Proof. unfold date_lt. apply _. Defined.

Global Instance inside_dec s e t : Decision (inside s e t).
Proof. unfold inside. apply _. Defined.

(** Keeping the first occurrence of each element, in the order in which
    the elements are first seen. *)
Fixpoint first_occurrences (l : list string) : list string :=
  match l with
  | [] => []
  | x :: l' => x :: filter (fun y => y <> x) (first_occurrences l')
  end.

(** Ascending by key. *)
Definition key_le {A : Type} (key : A -> Z) (a b : A) : Prop := key a <= key b.

(** The record [r] is read with the index and the identifier of [p] and
    with a creation date strictly inside the window. *)
Definition survivor (start_date end_date : Datetime.datetime) (r : Dom.node)
    (p : Z * string) : Prop :=
  exists test_date,
    scan_record r = Ok (p.1, p.2, Some test_date)
    /\ inside start_date end_date test_date.

(** [p] comes from a record of one of the files of the topic, and that
    record's creation date is strictly inside the topic's window. *)
Definition survives (dict_review : gmap string review) (topic_id : string)
    (files : list Dom.node) (p : Z * string) : Prop :=
  exists rv start_date end_date root r,
    dict_review !! topic_id = Some rv
    /\ date_window (date rv) = Ok (start_date, end_date)
    /\ root ∈ files
    /\ r ∈ Dom.getElementsByTagName "record" root
    /\ survivor start_date end_date r p.

(** Writing the files of [bs], a list of names and contents, in order. *)
Definition write_all {V : Type} (bs : list (string * V)) (m : gmap string V)
  : gmap string V :=
  foldl (fun m b => <[b.1 := b.2]> m) m bs.

(** The judgment directory a judgment kind writes to. *)
Definition qrel_dir (qrel_type : string) (out : release) : gmap string (list string) :=
  if decide ("abs" = qrel_type) then ABS_QREL_DIR out else DOC_QREL_DIR out.

(** The judgments of a topic's file, one for each line of the file. *)
Definition qrel_file (dict_rel : gmap string (gmap string Z)) (rv : review)
    (lines : list string) : list judgment :=
  judgments dict_rel (review_doi rv) (read_pids lines).

(** The relevance flag of a judgment. *)
Definition flag (j : judgment) : Z := j.2.

(** Every flag the table holds satisfies [P]. *)
Definition flags_in (P : Z -> Prop) (dict_rel : gmap string (gmap string Z)) : Prop :=
  forall review_doi pubmed_id v, get2 dict_rel review_doi pubmed_id = Some v -> P v.

(** Nothing written yet. *)
Definition no_release : release := mk_release ∅ ∅ ∅.

(** The text nodes directly under the [AbstractText] elements of an
    article, in document order. *)
Definition abstract_texts (Article : Dom.node) : list string :=
  abstract_node ← Dom.getElementsByTagName "AbstractText" Article;
  node ← Dom.childNodes abstract_node;
  Dom.text_data node.

(** The [Article] element of a citation. *)
Definition article_of (r : Dom.node) : result Dom.node :=
  MedlineCitation ← Py.item0 (Dom.getElementsByTagName "MedlineCitation" r);
  Py.item0 (Dom.getElementsByTagName "Article" MedlineCitation).

(** ** PID Collector: the export ranges of [download_pid_by_topic_id] *)





(** The number of chunks of [n] items a list of [len] items falls into. *)
Definition chunk_count (len : nat) (n : Z) : nat :=
  Z.to_nat ((Z.of_nat len + n - 1) / n).

(** The key a row of the curated table is stored under: its review code and
    its stripped document id. *)
Definition row_key (row : csv_row) : result (string * string) :=
  review_doi ← row_review_doi row;
  pubmed_id ← row_pubmed_id row;
  Ok (review_doi, pubmed_id).

(** The row is stored by a load for [qrel_type]. *)
Definition stored (qrel_type : string) (row : csv_row) : Prop :=
  exists label v,
    row_ref_type qrel_type row = Ok label /\ ref_type_of qrel_type label = Store v.

(** The row has a text with a review code under [review_doi]. *)
Definition has_code (row : csv_row) : Prop :=
  exists s doi, row !! "review_doi" = Some (Some s) /\ Py.findall_CD_0 s = Ok doi.

(** The row has a text under [pubmed_id]. *)
Definition has_pid (row : csv_row) : Prop :=
  exists s, row !! "pubmed_id" = Some (Some s).

(** A row that a load for a judgment kind reads to its end. *)
Definition loadable (row : csv_row) : Prop :=
  has_code row /\ has_pid row /\ is_Some (row !! "ref_type").

(** The exception with which such a load stops at a row: the row has no
    field [review_doi], no cell there, or no review code in it; or it has
    no field [pubmed_id] or no cell there; or it has no field
    [ref_type]. *)
Definition row_fails (row : csv_row) (e : exn) : Prop :=
  (row !! "review_doi" = None /\ e = KeyError)
  \/ (row !! "review_doi" = Some None /\ e = TypeError)
  \/ ((exists s, row !! "review_doi" = Some (Some s)
                 /\ Py.findall_CD_0 s = Raise IndexError) /\ e = IndexError)
  \/ (has_code row /\ row !! "pubmed_id" = None /\ e = KeyError)
  \/ (has_code row /\ row !! "pubmed_id" = Some None /\ e = AttributeError)
  \/ (has_code row /\ has_pid row /\ row !! "ref_type" = None /\ e = KeyError).

(** The cell holds text. *)
Definition is_text (value : cell) : Prop := exists s, value = Str s.

(** A row of the sheet that the Query Loader reads to its end: text in
    column D, a value with an integer value in column A, text with a review
    code in column B, text in column F. *)
Definition readable (int_text : string -> option Z) (row : sheet_row) : Prop :=
  is_text (cell_D row)
  /\ (exists n, cell_int int_text (cell_A row) = Ok n)
  /\ (exists link doi, cell_B row = Str link /\ Py.findall_CD_0 link = Ok doi)
  /\ is_text (cell_F row).

(** The exception with which the Query Loader stops at a row: the first of
    the four columns, in the order D, A, B, F, that is not as [readable]
    has it. *)
Definition sheet_row_fails (int_text : string -> option Z) (row : sheet_row)
    (e : exn) : Prop :=
  (~ is_text (cell_D row) /\ e = AttributeError)
  \/ (is_text (cell_D row) /\ cell_int int_text (cell_A row) = Raise e)
  \/ (is_text (cell_D row)
      /\ (exists n, cell_int int_text (cell_A row) = Ok n)
      /\ ~ is_text (cell_B row) /\ e = TypeError)
  \/ (is_text (cell_D row)
      /\ (exists n, cell_int int_text (cell_A row) = Ok n)
      /\ (exists link, cell_B row = Str link
                       /\ Py.findall_CD_0 link = Raise IndexError)
      /\ e = IndexError)
  \/ (is_text (cell_D row)
      /\ (exists n, cell_int int_text (cell_A row) = Ok n)
      /\ (exists link doi, cell_B row = Str link /\ Py.findall_CD_0 link = Ok doi)
      /\ ~ is_text (cell_F row) /\ e = AttributeError).

(** The citation has the four elements the Formatter reads: a
    [MedlineCitation], a [PMID] below it, an [Article] below it, and an
    [ArticleTitle] below the article. *)
Definition complete (r : Dom.node) : Prop :=
  exists MedlineCitation Article,
    Py.item0 (Dom.getElementsByTagName "MedlineCitation" r) = Ok MedlineCitation
    /\ Dom.getElementsByTagName "PMID" MedlineCitation <> []
    /\ Py.item0 (Dom.getElementsByTagName "Article" MedlineCitation) = Ok Article
    /\ Dom.getElementsByTagName "ArticleTitle" Article <> [].

(** No character of [s] is [c]. *)
Fixpoint without (c : ascii) (s : string) : Prop :=
  match s with
  | String a s' => a <> c /\ without c s'
  | EmptyString => True
  end.

(** The line is not blank and has no whitespace at either end. *)
Definition stripped_line (line : string) : Prop :=
  line <> EmptyString /\ Py.ustrip line = line.

(** ** Files written and read back *)

(** The lines that iterating over a file yields when [writes] is what was
    written to it. *)
Definition file_lines (writes : list string) : list string :=
  Py.splitlines (String.concat EmptyString writes).

(** No character of [s] ends a line. *)
Fixpoint one_line (s : string) : Prop :=
  match s with
  | String a s' => Py.is_linebreak a = false /\ one_line s'
  | EmptyString => True
  end.

(** * Properties *)

(** ** Loops that may raise *)

Lemma bind_Ok {A B : Type} (r : result A) (k : A -> result B) (b : B) :
  r ≫= k = Ok b <-> exists a, r = Ok a /\ k a = Ok b.
Proof.
  destruct r as [a|e]; cbn.
  - split; [by exists a|]. by intros (? & [= <-] & ?).
  - split; [done|]. by intros (? & ? & _).
Qed.

Lemma for_each_app {A S : Type} (body : S -> A -> result S) (xs ys : list A) (s : S) :
  for_each body (xs ++ ys) s = for_each body xs s ≫= for_each body ys.
Proof.
  revert s. induction xs as [|x xs IH]; intros s; [done|].
  cbn. destruct (body s x); cbn; [apply IH|done].
Qed.

(** A loop whose body appends to a list: the list at the end is the list at
    the start followed by what each iteration appends. *)
Lemma for_each_appending {A B : Type} (body : list B -> A -> result (list B))
    (xs : list A) (l l' : list B) :
  (forall l x, body l x = body [] x ≫= fun k => Ok (l ++ k)) ->
  for_each body xs l = Ok l'
  <-> exists ks, Forall2 (fun x k => body [] x = Ok k) xs ks /\ l' = l ++ concat ks.
Proof.
  intros Happ. revert l. induction xs as [|x xs IH]; intros l; cbn.
  - split.
    + intros [= <-]. exists []. split; [constructor|]. by rewrite app_nil_r.
    + intros (ks & Hks & ->). inversion Hks; subst. by rewrite app_nil_r.
  - rewrite bind_Ok. split.
    + intros (l1 & Hx & Hrest). rewrite Happ in Hx.
      apply bind_Ok in Hx as (k & Hk & [= <-]).
      apply IH in Hrest as (ks & Hks & ->).
      exists (k :: ks). split; [by constructor|]. cbn. by rewrite app_assoc.
    + intros (ks & Hks & ->). inversion Hks as [|? k ? ks' Hk Hks']; subst.
      exists (l ++ k). split; [by rewrite Happ, Hk|].
      apply IH. exists ks'. split; [done|]. cbn. by rewrite app_assoc.
Qed.

Lemma Forall2_perm_l {A B : Type} (P : A -> B -> Prop) (xs xs' : list A) (ks : list B) :
  xs ≡ₚ xs' -> Forall2 P xs ks ->
  exists ks', ks ≡ₚ ks' /\ Forall2 P xs' ks'.
Proof.
  intros Hperm. revert ks.
  induction Hperm as [|x xs xs' _ IH|x y xs|xs xs' xs'' _ IH1 _ IH2]; intros ks Hks.
  - inversion Hks; subst. by exists [].
  - inversion Hks as [|? k ? ks0 Hk Hks0]; subst.
    destruct (IH _ Hks0) as (ks' & ? & ?).
    exists (k :: ks'). split; [by constructor|by constructor].
  - inversion Hks as [|? k1 ? ks0 Hk1 Hks0]; subst.
    inversion Hks0 as [|? k2 ? ks1 Hk2 Hks1]; subst.
    exists (k2 :: k1 :: ks1). split; [apply perm_swap|by repeat constructor].
  - destruct (IH1 _ Hks) as (ks' & ? & Hks').
    destruct (IH2 _ Hks') as (ks'' & ? & ?).
    exists ks''. split; [by etrans|done].
Qed.

Lemma concat_perm {A : Type} (ls ls' : list (list A)) :
  ls ≡ₚ ls' -> concat ls ≡ₚ concat ls'.
Proof.
  induction 1 as [|l ls ls' _ IH|l1 l2 ls|ls ls' ls'' _ IH1 _ IH2]; cbn.
  - done.
  - by rewrite IH.
  - rewrite !app_assoc. f_equiv. apply Permutation_app_comm.
  - by etrans.
Qed.

(** ** Sorting by a key *)

Section Sort.
Context {A : Type} (key : A -> Z).
Implicit Types (x : A) (l : list A).

Lemma insert_by_perm x l : Py.insert_by key x l ≡ₚ x :: l.
Proof.
  induction l as [|y l IH]; cbn; [done|].
  destruct (key x <=? key y); [done|].
  rewrite IH. apply perm_swap.
Qed.

Lemma sort_by_perm l : Py.sort_by key l ≡ₚ l.
Proof.
  induction l as [|x l IH]; cbn; [done|].
  rewrite insert_by_perm. by f_equiv.
Qed.

Lemma insert_by_sorted x l :
  StronglySorted (key_le key) l -> StronglySorted (key_le key) (Py.insert_by key x l).
Proof.
  induction 1 as [|y l Hl IH Hy]; cbn; [by repeat constructor|].
  destruct (Z.leb_spec (key x) (key y)) as [Hle|Hgt].
  - constructor; [by constructor|]. constructor; [done|].
    eapply Forall_impl; [exact Hy|]. unfold key_le. intros z ?. lia.
  - constructor; [done|]. rewrite insert_by_perm.
    constructor; [unfold key_le; lia|done].
Qed.

Lemma sort_by_sorted l : StronglySorted (key_le key) (Py.sort_by key l).
Proof.
  induction l as [|x l IH]; cbn; [constructor|]. by apply insert_by_sorted.
Qed.

(** The sort is stable: the items of any one key keep their order. *)
Lemma insert_by_stable (i : Z) x l :
  filter (fun a => key a = i) (Py.insert_by key x l)
  = filter (fun a => key a = i) (x :: l).
Proof.
  induction l as [|y l IH]; [done|]. cbn [Py.insert_by].
  destruct (Z.leb_spec (key x) (key y)) as [Hle|Hgt]; [done|].
  rewrite !filter_cons, IH, !filter_cons.
  repeat case_decide; try done; lia.
Qed.

Lemma sort_by_stable (i : Z) l :
  filter (fun a => key a = i) (Py.sort_by key l) = filter (fun a => key a = i) l.
Proof.
  induction l as [|x l IH]; [done|]. cbn [Py.sort_by foldr].
  rewrite insert_by_stable, !filter_cons. fold (Py.sort_by key l). by rewrite IH.
Qed.

(** Sorting two arrangements of the same items gives the same list when
    items of equal keys are equal. *)
Lemma sort_by_perm_eq l l' :
  l ≡ₚ l' ->
  (forall a b, a ∈ l -> b ∈ l -> key a = key b -> a = b) ->
  Py.sort_by key l = Py.sort_by key l'.
Proof.
  intros Hperm Hkey.
  apply (StronglySorted_unique_strong (key_le key)).
  - intros a b Ha Hb Hab Hba. apply Hkey.
    + by rewrite sort_by_perm in Ha.
    + rewrite sort_by_perm in Hb. by rewrite Hperm.
    + unfold key_le in *. lia.
  - apply sort_by_sorted.
  - apply sort_by_sorted.
  - by rewrite !sort_by_perm.
Qed.

End Sort.

(** ** Chunking *)

(** The docstring's example: [chunks_by_element(range(10),3)]. *)
Example chunks_by_element_docstring :
  chunks_by_element [0; 1; 2; 3; 4; 5; 6; 7; 8; 9] 3
  = Ok [[0; 1; 2]; [3; 4; 5]; [6; 7; 8]; [9]].
Proof. reflexivity. Qed.

Example chunks_by_element_zero : chunks_by_element [1; 2; 3] 0 = Raise ValueError.
Proof. reflexivity. Qed.

Example chunks_by_element_negative : chunks_by_element [1; 2; 3] (-2) = Ok [].
Proof. reflexivity. Qed.

Section Chunks.
Context {A : Type}.
Implicit Types (arr : list A) (m c k : nat).

Lemma slice_nonneg arr (lo hi : Z) :
  0 <= lo -> lo <= hi ->
  Py.slice arr lo hi = take (Z.to_nat hi - Z.to_nat lo) (drop (Z.to_nat lo) arr).
Proof.
  intros Hlo Hhi. unfold Py.slice, Py.clamp.
  destruct (Z.ltb_spec lo 0) as [?|_]; [lia|].
  destruct (Z.ltb_spec hi 0) as [?|_]; [lia|].
  destruct (Z.le_gt_cases (Z.of_nat (length arr)) lo) as [Hbig|Hsmall].
  - rewrite (Z.min_r lo) by lia. rewrite Nat2Z.id.
    rewrite !drop_ge by lia. by rewrite !take_nil.
  - rewrite (Z.min_l lo) by lia.
    destruct (Z.le_gt_cases (Z.of_nat (length arr)) hi) as [Hh|Hh].
    + rewrite (Z.min_r hi) by lia. rewrite Nat2Z.id.
      rewrite !take_ge; [done | rewrite length_drop; lia | rewrite length_drop; lia].
    + by rewrite (Z.min_l hi) by lia.
Qed.

Lemma range_len_pos (len n : Z) :
  0 < n -> 0 <= len ->
  Py.range_len 0 len n = Z.to_nat ((len + n - 1) / n).
Proof.
  intros Hn Hlen. unfold Py.range_len.
  destruct (Z.ltb_spec 0 n) as [_|?]; [|lia].
  destruct (Z.ltb_spec 0 len) as [Hpos|Hz].
  - f_equal. replace (len + n - 1) with (len - 0 - 1 + 1 * n) by lia.
    by rewrite Z.div_add by lia.
  - assert (len = 0) as -> by lia.
    rewrite Z.div_small by lia. done.
Qed.

Lemma chunks_by_element_pieces arr (n : Z) :
  0 < n ->
  chunks_by_element arr n
  = Ok (pieces (Z.to_nat n) arr
          (Z.to_nat ((Z.of_nat (length arr) + n - 1) / n))).
Proof.
  intros Hn. unfold chunks_by_element, Py.range.
  destruct (Z.eqb_spec n 0) as [?|_]; [lia|]. cbn.
  rewrite range_len_pos by lia. f_equal.
  unfold pieces. rewrite map_map. apply map_ext. intros k.
  rewrite slice_nonneg by lia. f_equal; [lia|]. f_equal. lia.
Qed.

Lemma pieces_S m arr c :
  pieces m arr (S c) = take m arr :: pieces m (drop m arr) c.
Proof.
  unfold pieces. rewrite <- cons_seq, <- seq_shift. cbn [map].
  rewrite Nat.mul_0_l, drop_0. f_equal.
  rewrite map_map. apply map_ext. intros k.
  rewrite drop_drop. repeat f_equal; lia.
Qed.

Lemma covers_drop m arr c :
  (0 < m)%nat -> covers m (length arr) (S c) ->
  covers m (length (drop m arr)) c.
Proof.
  intros Hm [[? _]|[_ [Hlo Hhi]]]; [lia|].
  rewrite length_drop. unfold covers.
  destruct c as [|c]; [left; lia|right].
  replace (S (S c) - 1)%nat with (S c) in Hlo by lia.
  replace (S c - 1)%nat with c by lia. nia.
Qed.

Lemma covers_ceil (n : Z) (len : nat) :
  0 < n ->
  covers (Z.to_nat n) len (Z.to_nat ((Z.of_nat len + n - 1) / n)).
Proof.
  intros Hn. unfold covers.
  set (q := (Z.of_nat len + n - 1) / n).
  assert (n * q <= Z.of_nat len + n - 1 < n * (q + 1)) as Hq.
  { pose proof (Z.mul_div_le (Z.of_nat len + n - 1) n Hn).
    pose proof (Z.mul_succ_div_gt (Z.of_nat len + n - 1) n Hn).
    fold q in H, H0. lia. }
  destruct (decide (len = 0%nat)) as [->|Hne].
  - left. split; [|done]. assert (q <= 0) by nia. lia.
  - right. assert (0 < q) by nia. split; [lia|]. nia.
Qed.

Lemma pieces_concat m arr c :
  (0 < m)%nat -> covers m (length arr) c -> concat (pieces m arr c) = arr.
Proof.
  intros Hm. revert arr. induction c as [|c IH]; intros arr Hc.
  - destruct Hc as [[_ Hlen]|[? _]]; [|lia].
    by destruct arr.
  - rewrite pieces_S. cbn [concat].
    rewrite IH by (by apply covers_drop). apply take_drop.
Qed.

Lemma pieces_lengths m arr c :
  (0 < m)%nat -> covers m (length arr) c ->
  forall k ch, pieces m arr c !! k = Some ch ->
    length ch = (if decide (S k = c) then length arr - k * m else m)%nat.
Proof.
  intros Hm. revert arr. induction c as [|c IH]; intros arr Hc k ch Hk; [done|].
  rewrite pieces_S in Hk. destruct k as [|k].
  - injection Hk as <-. rewrite length_take.
    destruct Hc as [[? _]|[_ [Hlo Hhi]]]; [lia|].
    case_decide; [assert (c = 0%nat) by lia; subst; lia|].
    destruct c; [done|]. lia.
  - cbn in Hk. rewrite (IH _ (covers_drop _ _ _ Hm Hc) _ _ Hk).
    rewrite length_drop.
    apply lookup_lt_Some in Hk. unfold pieces in Hk.
    rewrite length_map, length_seq in Hk.
    destruct Hc as [[? _]|[_ [Hlo Hhi]]]; [lia|].
    repeat case_decide; nia.
Qed.

Lemma pieces_length m arr c : length (pieces m arr c) = c.
Proof. unfold pieces. by rewrite length_map, length_seq. Qed.

End Chunks.

(** C10.  For a chunk size [n > 0], [chunks_by_element arr n] returns, and
    what it returns is a partition of [arr] in order: the chunks
    concatenated are [arr], no chunk is empty, no chunk is longer than [n],
    and every chunk but the last has exactly [n] elements. *)
Theorem chunks_by_element_partition {A : Type} (arr : list A) (n : Z) :
  0 < n ->
  exists chunks,
    chunks_by_element arr n = Ok chunks
    /\ concat chunks = arr
    /\ Forall (fun ch => ch <> [] /\ Z.of_nat (length ch) <= n) chunks
    /\ (forall k ch, chunks !! k = Some ch -> (S k < length chunks)%nat ->
          Z.of_nat (length ch) = n).
Proof.
  intros Hn.
  set (m := Z.to_nat n).
  set (c := Z.to_nat ((Z.of_nat (length arr) + n - 1) / n)).
  assert (0 < m)%nat as Hm by lia.
  pose proof (covers_ceil n (length arr) Hn) as Hc. fold m c in Hc.
  exists (pieces m arr c). split; [by apply chunks_by_element_pieces|].
  split; [by apply pieces_concat|]. split.
  - apply Forall_lookup_2. intros k ch Hk.
    pose proof (pieces_lengths m arr c Hm Hc k ch Hk) as Hlen.
    apply lookup_lt_Some in Hk. rewrite pieces_length in Hk.
    destruct Hc as [[? _]|[_ [Hlo Hhi]]]; [lia|].
    assert (0 < length ch <= m)%nat as Hbounds.
    { case_decide; [|lia]. assert (k = (c - 1)%nat) as -> by lia. nia. }
    split; [|lia]. intros ->. cbn in Hbounds. lia.
  - intros k ch Hk Hlast. rewrite pieces_length in Hlast.
    rewrite (pieces_lengths m arr c Hm Hc k ch Hk).
    case_decide; lia.
Qed.

Lemma chunks_by_element_partition_witness :
  exists chunks,
    chunks_by_element [1; 2; 3; 4; 5; 6; 7] 3 = Ok chunks
    /\ concat chunks = [1; 2; 3; 4; 5; 6; 7]
    /\ Forall (fun ch => ch <> [] /\ Z.of_nat (length ch) <= 3) chunks
    /\ (forall k ch, chunks !! k = Some ch -> (S k < length chunks)%nat ->
          Z.of_nat (length ch) = 3).
Proof. apply (chunks_by_element_partition [1; 2; 3; 4; 5; 6; 7] 3). lia. Defined.

(** C6.  With chunk size 500, a sequence of 1000 items falls into exactly
    two chunks of 500 items, and a sequence of 501 items into exactly two
    chunks of 500 items and of 1 item. *)
Theorem chunks_by_element_500 {A : Type} (arr1 arr2 : list A) :
  length arr1 = 1000%nat ->
  length arr2 = 501%nat ->
  (exists c1 c2,
      chunks_by_element arr1 DOWNLOAD_NUM_PER_TIME = Ok [c1; c2]
      /\ length c1 = 500%nat /\ length c2 = 500%nat /\ c1 ++ c2 = arr1)
  /\ (exists c1 c2,
        chunks_by_element arr2 DOWNLOAD_NUM_PER_TIME = Ok [c1; c2]
        /\ length c1 = 500%nat /\ length c2 = 1%nat /\ c1 ++ c2 = arr2).
Proof.
  intros H1 H2. unfold DOWNLOAD_NUM_PER_TIME. split.
  - exists (take 500 arr1), (take 500 (drop 500 arr1)).
    rewrite chunks_by_element_pieces by lia. rewrite H1.
    change (Z.to_nat ((Z.of_nat 1000 + 500 - 1) / 500)) with 2%nat.
    change (Z.to_nat 500) with 500%nat.
    rewrite !pieces_S. rewrite !length_take, !length_drop, H1.
    repeat split; [lia..|]. rewrite (take_ge (drop 500 arr1)).
    + apply take_drop.
    + rewrite length_drop. lia.
  - exists (take 500 arr2), (take 500 (drop 500 arr2)).
    rewrite chunks_by_element_pieces by lia. rewrite H2.
    change (Z.to_nat ((Z.of_nat 501 + 500 - 1) / 500)) with 2%nat.
    change (Z.to_nat 500) with 500%nat.
    rewrite !pieces_S. rewrite !length_take, !length_drop, H2.
    repeat split; [lia..|]. rewrite (take_ge (drop 500 arr2)).
    + apply take_drop.
    + rewrite length_drop. lia.
Qed.

Lemma chunks_by_element_500_witness :
  (exists c1 c2,
      chunks_by_element (seq 0 1000) DOWNLOAD_NUM_PER_TIME = Ok [c1; c2]
      /\ length c1 = 500%nat /\ length c2 = 500%nat /\ c1 ++ c2 = seq 0 1000)
  /\ (exists c1 c2,
        chunks_by_element (seq 0 501) DOWNLOAD_NUM_PER_TIME = Ok [c1; c2]
        /\ length c1 = 500%nat /\ length c2 = 1%nat /\ c1 ++ c2 = seq 0 501).
Proof.
  apply (chunks_by_element_500 (seq 0 1000) (seq 0 501)); apply length_seq.
Defined.

(** ** Dates *)

Lemma ltb_date_lt a b : Datetime.ltb a b = true <-> date_lt a b.
Proof.
  unfold Datetime.ltb, date_lt.
  rewrite !orb_true_iff, !andb_true_iff, orb_true_iff, andb_true_iff.
  rewrite !Z.ltb_lt, !Z.eqb_eq. tauto.
Qed.

Lemma date_lt_irrefl a : ~ date_lt a a.
Proof. unfold date_lt. lia. Qed.

Lemma date_lt_trans a b c : date_lt a b -> date_lt b c -> date_lt a c.
Proof. unfold date_lt. lia. Qed.

Lemma days_in_month_le y m : Datetime.days_in_month y m <= 31.
Proof.
  unfold Datetime.days_in_month.
  repeat match goal with |- context [if ?b then _ else _] => destruct b end; lia.
Qed.

(** Dates that exist are ordered as the numbers they read as. *)
Lemma date_lt_stamp a b :
  date_valid a -> date_valid b -> (date_lt a b <-> date_stamp a < date_stamp b).
Proof.
  unfold date_valid, Datetime.valid, date_lt, date_stamp.
  rewrite !andb_true_iff, !Z.leb_le. intros Ha Hb.
  pose proof (days_in_month_le (Datetime.year a) (Datetime.month a)).
  pose proof (days_in_month_le (Datetime.year b) (Datetime.month b)).
  lia.
Qed.

Lemma strptime_Ymd_valid s d : Datetime.strptime_Ymd s = Ok d -> date_valid d.
Proof.
  unfold Datetime.strptime_Ymd, date_valid.
  destruct (Datetime.matches_Ymd s) as [|[[[y m] dd] rest] ?]; [done|].
  destruct rest; [|done].
  destruct (Datetime.valid y m dd) eqn:Hv; [|done].
  by intros [= <-].
Qed.

(** ** PID Extractor *)

(** C1.  The date filter is strict at both ends.  A record that is read
    with a creation date is kept (appended to the list the identifiers are
    written from) exactly when its creation date is strictly after the start
    date and strictly before the end date; when its creation date is the
    start date or the end date, it is not kept. *)
Theorem date_filter_strict (start_date end_date : Datetime.datetime)
    (r : Dom.node) (inx : Z) (ui : string) (test_date : Datetime.datetime)
    (list_ret : list (Z * string)) :
  scan_record r = Ok (inx, ui, Some test_date) ->
  extract_record start_date end_date list_ret r
  = Ok (if decide (date_lt start_date test_date /\ date_lt test_date end_date)
        then list_ret ++ [(inx, ui)] else list_ret)
  /\ (test_date = start_date \/ test_date = end_date ->
      extract_record start_date end_date list_ret r = Ok list_ret).
Proof.
  intros Hscan.
  assert (extract_record start_date end_date list_ret r
          = Ok (if decide (date_lt start_date test_date /\ date_lt test_date end_date)
                then list_ret ++ [(inx, ui)] else list_ret)) as Hrec.
  { unfold extract_record. rewrite Hscan. cbn.
    destruct (decide _) as [[Hs He]|Hout].
    - apply ltb_date_lt in Hs, He. by rewrite Hs, He.
    - destruct (Datetime.ltb test_date end_date) eqn:E1,
        (Datetime.ltb start_date test_date) eqn:E2; try done.
      exfalso. apply Hout. split; by apply ltb_date_lt. }
  split; [done|].
  intros Hedge. rewrite Hrec. destruct (decide _) as [[Hs He]|_]; [|done].
  destruct Hedge as [->| ->]; by eapply date_lt_irrefl in Hs || eapply date_lt_irrefl in He.
Qed.

Lemma date_filter_strict_witness :
  scan_record (record_xml "7" "12345" "20170615")
  = Ok (7, "12345", Some (Datetime.mk_datetime 2017 6 15))
  /\ extract_record (Datetime.mk_datetime 2017 1 1) (Datetime.mk_datetime 2017 12 31)
       [] (record_xml "7" "12345" "20170615")
     = Ok [(7, "12345")].
Proof.
  split; [reflexivity|].
  apply (date_filter_strict (Datetime.mk_datetime 2017 1 1)
           (Datetime.mk_datetime 2017 12 31) _ 7 "12345"
           (Datetime.mk_datetime 2017 6 15) []).
  reflexivity.
Defined.

(** The scenario of the specification: with the window 20170101-20171231,
    of three records created on 20161231, 20170615 and 20180101 only the
    second is retained. *)
Example extract_topic_scenario :
  extract_topic (one_review "1" "CD000001" "20170101 20171231") "1"
    [records_xml [record_xml "1" "101" "20161231";
                  record_xml "2" "102" "20170615";
                  record_xml "3" "103" "20180101"]]
  = Ok ["102"].
Proof. reflexivity. Qed.

(** Records created on the first or on the last day of the window are
    dropped. *)
Example extract_topic_boundaries :
  extract_topic (one_review "1" "CD000001" "20170101 20171231") "1"
    [records_xml [record_xml "1" "101" "20170101";
                  record_xml "2" "102" "20170102";
                  record_xml "3" "103" "20171230";
                  record_xml "4" "104" "20171231"]]
  = Ok ["102"; "103"].
Proof. reflexivity. Qed.

(** A record without a creation date stops the run. *)
Example extract_topic_no_date :
  extract_topic (one_review "1" "CD000001" "20170101 20171231") "1"
    [records_xml [Dom.Element "record" [("index", "1")]
                    [field "Unique Identifier" "101"]]]
  = Raise TypeError.
Proof. reflexivity. Qed.

Lemma for_each_appending_eq {A B : Type} (body : list B -> A -> result (list B))
    (xs : list A) (l : list B) :
  (forall l x, body l x = body [] x ≫= fun k => Ok (l ++ k)) ->
  for_each body xs l = for_each body xs [] ≫= fun k => Ok (l ++ k).
Proof.
  intros Happ. revert l. induction xs as [|x xs IH]; intros l; cbn.
  - by rewrite app_nil_r.
  - rewrite (Happ l x), (Happ [] x).
    destruct (body [] x) as [k|e]; cbn; [|done].
    rewrite (IH (l ++ k)), (IH k).
    destruct (for_each body xs []) as [k'|e]; cbn; [|done].
    by rewrite app_assoc.
Qed.

Lemma extract_record_appending start_date end_date l r :
  extract_record start_date end_date l r
  = extract_record start_date end_date [] r ≫= fun k => Ok (l ++ k).
Proof.
  unfold extract_record.
  destruct (scan_record r) as [[[inx ui] test_date]|e]; cbn; [|done].
  destruct (date_filter start_date end_date test_date) as [[]|e]; cbn; try done.
  by rewrite app_nil_r.
Qed.

Lemma extract_file_appending dict_review topic_id l root :
  extract_file dict_review topic_id l root
  = extract_file dict_review topic_id [] root ≫= fun k => Ok (l ++ k).
Proof.
  unfold extract_file.
  destruct (getitem dict_review topic_id) as [rv|e]; cbn; [|done].
  destruct (date_window (date rv)) as [[start_date end_date]|e]; cbn; [|done].
  apply for_each_appending_eq. intros. apply extract_record_appending.
Qed.

Lemma Forall2_concat_elem {A B : Type} (P : A -> list B -> Prop)
    (xs : list A) (ks : list (list B)) (y : B) :
  Forall2 P xs ks -> y ∈ concat ks ->
  exists x k, x ∈ xs /\ P x k /\ y ∈ k.
Proof.
  induction 1 as [|x k xs ks Hk _ IH]; cbn; [by intros ?%elem_of_nil|].
  rewrite elem_of_app. intros [Hy|Hy].
  - exists x, k. split; [left|done].
  - destruct (IH Hy) as (x' & k' & ? & ? & ?).
    exists x', k'. split; [by right|done].
Qed.

Lemma extract_record_survivor start_date end_date r k p :
  extract_record start_date end_date [] r = Ok k -> p ∈ k ->
  survivor start_date end_date r p.
Proof.
  unfold extract_record. intros Hk Hp.
  destruct (scan_record r) as [[[inx ui] [test_date|]]|e] eqn:Hscan; try done.
  cbn in Hk.
  destruct (Datetime.ltb test_date end_date) eqn:He,
    (Datetime.ltb start_date test_date) eqn:Hs; cbn in Hk;
    injection Hk as <-; try by apply elem_of_nil in Hp.
  apply list_elem_of_singleton in Hp as ->.
  exists test_date. split; [done|]. split; by apply ltb_date_lt.
Qed.

(** Whatever [list_ret] holds comes from a record inside the window. *)
Lemma collect_topic_survives dict_review topic_id files list_ret :
  collect_topic dict_review topic_id files = Ok list_ret ->
  Forall (survives dict_review topic_id files) list_ret.
Proof.
  unfold collect_topic. intros Hc.
  apply for_each_appending in Hc as (ks & Hks & ->);
    [|intros; apply extract_file_appending].
  apply Forall_forall. intros p Hp. cbn in Hp.
  destruct (Forall2_concat_elem _ _ _ _ Hks Hp) as (root & k & Hroot & Hk & Hpk).
  unfold extract_file in Hk.
  apply bind_Ok in Hk as (rv & Hrv & Hk).
  apply bind_Ok in Hk as ([start_date end_date] & Hwin & Hk).
  apply for_each_appending in Hk as (ks' & Hks' & ->);
    [|intros; apply extract_record_appending].
  cbn in Hpk.
  destruct (Forall2_concat_elem _ _ _ _ Hks' Hpk) as (r & k' & Hr & Hk' & Hpk').
  exists rv, start_date, end_date, root, r. split_and!; try done.
  - unfold getitem in Hrv. by destruct (dict_review !! topic_id) as [?|]; simplify_eq.
  - by eapply extract_record_survivor.
Qed.

(** ** Reading an identifier list back *)

Lemma first_occurrences_elem x l : x ∈ first_occurrences l <-> x ∈ l.
Proof.
  induction l as [|y l IH]; cbn; [done|].
  rewrite !elem_of_cons, list_elem_of_filter, IH.
  destruct (decide (x = y)); tauto.
Qed.

Lemma first_occurrences_NoDup l : NoDup (first_occurrences l).
Proof.
  induction l as [|y l IH]; cbn; [constructor|].
  constructor; [|by apply NoDup_filter].
  rewrite list_elem_of_filter. by intros [? _].
Qed.


(** The loop, from a state in which [list_boolean] and [local] hold the same
    list [acc]. *)
Lemma read_pid_lines_from acc lines :
  foldl read_pid_line (acc, acc) lines
  = (acc ++ filter (fun y => y ∉ acc) (first_occurrences (Py.ustrip <$> lines)),
     acc ++ filter (fun y => y ∉ acc) (first_occurrences (Py.ustrip <$> lines))).
Proof.
  revert acc. induction lines as [|l lines IH]; intros acc.
  - cbn. by rewrite app_nil_r.
  - cbn [foldl fmap list_fmap first_occurrences]. unfold read_pid_line at 2.
    rewrite filter_cons. rewrite list_filter_filter.
    destruct (decide (Py.ustrip l ∈ acc)) as [Hin|Hout].
    + rewrite decide_False by (intros Hy; by apply Hy). rewrite IH.
      do 2 f_equal; apply list_filter_iff; intros y;
        (split; [intros Hy; split; [done|by intros ->]|by intros [? _]]).
    + rewrite decide_True by done. rewrite IH.
      rewrite <- !app_assoc. cbn.
      do 3 f_equal; apply list_filter_iff; intros y;
        rewrite elem_of_app, list_elem_of_singleton; tauto.
Qed.

(** The list the Release Builder and the Abstract Fetcher work on keeps the
    first occurrence of every identifier. *)
Lemma filter_all {A : Type} (P : A -> Prop) `{forall x, Decision (P x)} (l : list A) :
  (forall x, P x) -> filter P l = l.
Proof.
  intros HP. induction l as [|x l IH]; [done|].
  by rewrite filter_cons_True, IH.
Qed.

Lemma read_pids_first_occurrences lines :
  read_pids lines = first_occurrences (Py.ustrip <$> lines).
Proof.
  unfold read_pids. rewrite read_pid_lines_from. cbn.
  apply filter_all. intros y. apply not_elem_of_nil.
Qed.


Lemma read_pids_NoDup lines : NoDup (read_pids lines).
Proof. rewrite read_pids_first_occurrences. apply first_occurrences_NoDup. Qed.

Lemma read_pids_elem x lines : x ∈ read_pids lines <-> x ∈ Py.ustrip <$> lines.
Proof. rewrite read_pids_first_occurrences. apply first_occurrences_elem. Qed.

(** The number of identifiers read is the number of distinct identifiers of
    the file. *)
Lemma read_pids_length lines :
  length (read_pids lines) = size (list_to_set (Py.ustrip <$> lines) : gset string).
Proof.
  rewrite <- (size_list_to_set (C := gset string) (read_pids lines))
    by apply read_pids_NoDup.
  f_equal. apply set_eq. intros x.
  by rewrite !elem_of_list_to_set, read_pids_elem.
Qed.

(** ** The identifier-list directory *)

Lemma write_all_lookup {V : Type} (bs : list (string * V)) (m : gmap string V) (k : string) :
  (k ∈ bs.*1 -> write_all bs m !! k = write_all bs ∅ !! k)
  /\ (k ∉ bs.*1 -> write_all bs m !! k = m !! k).
Proof.
  revert m. induction bs as [|[k' v] bs IH]; intros m.
  - split; [by intros ?%elem_of_nil|done].
  - cbn. fold (write_all bs (<[k':=v]> m)). fold (write_all bs (<[k':=v]> (∅ : gmap string V))).
    destruct (decide (k ∈ bs.*1)) as [Hin|Hout].
    + split.
      * intros _. rewrite (proj1 (IH _) Hin). by rewrite (proj1 (IH (<[k':=v]> ∅)) Hin).
      * rewrite not_elem_of_cons. by intros [_ ?].
    + rewrite !(proj2 (IH _) Hout). split.
      * intros [->|?]%elem_of_cons; [|done]. by rewrite !lookup_insert_eq.
      * intros [? _]%not_elem_of_cons. by rewrite lookup_insert_ne.
Qed.

(** Writing the same files again changes nothing. *)
Lemma write_all_idempotent {V : Type} (bs : list (string * V)) (m : gmap string V) :
  write_all bs (write_all bs m) = write_all bs m.
Proof.
  apply map_eq. intros k.
  destruct (decide (k ∈ bs.*1)) as [Hin|Hout].
  - by rewrite (proj1 (write_all_lookup bs (write_all bs m) k) Hin),
      (proj1 (write_all_lookup bs m k) Hin).
  - by rewrite (proj2 (write_all_lookup bs (write_all bs m) k) Hout).
Qed.

(** The identifiers of a topic are written when all of them are ASCII. *)
Lemma write_pids_Ok uis f :
  write_pids uis = Ok f
  <-> Forall (fun ui => Py.is_ascii ui = true) uis /\ f = pid_lines uis.
Proof.
  unfold write_pids.
  assert (forall f0,
             for_each (fun f ui => line ← pid_line ui; Ok (f ++ [line])) uis f0 = Ok f
             <-> Forall (fun ui => Py.is_ascii ui = true) uis /\ f = f0 ++ pid_lines uis)
    as Hgen; [|apply Hgen].
  induction uis as [|ui uis IH]; intros f0; cbn [for_each].
  - rewrite app_nil_r. split; [by intros [= <-]|by intros [_ ->]].
  - rewrite Forall_cons. destruct (Py.is_ascii ui) eqn:Ha.
    + assert (pid_line ui = Ok (ui +:+ nl)) as -> by (unfold pid_line; by rewrite Ha).
      cbn [mbind result_bind]. rewrite IH, <- app_assoc. cbn [pid_lines map app]. tauto.
    + assert (pid_line ui = Raise ValueError) as -> by (unfold pid_line; by rewrite Ha).
      cbn [mbind result_bind]. split; [done|by intros [[? _] _]].
Qed.

Lemma extract_dirs_Ok dict_review download pids pids' :
  for_each (extract_dir dict_review) download pids = Ok pids'
  <-> exists outs,
        Forall2 (fun d uis => extract_topic dict_review d.1 d.2 = Ok uis
                              /\ Forall (fun ui => Py.is_ascii ui = true) uis)
          download outs
        /\ pids' = write_all (zip download.*1 (pid_lines <$> outs)) pids.
Proof.
  revert pids.
  induction download as [|[topic_id files] download IH]; intros pids; cbn [for_each].
  - split.
    + intros [= <-]. exists []. split; [constructor|done].
    + intros (outs & Houts & ->). by inversion Houts; subst.
  - rewrite bind_Ok. split.
    + intros (pids1 & Hstep & Hrest).
      apply bind_Ok in Hstep as (uis & Huis & Hstep).
      apply bind_Ok in Hstep as (f & [Hascii ->]%write_pids_Ok & [= <-]).
      apply IH in Hrest as (outs & Houts & ->).
      exists (uis :: outs). split; [by constructor|done].
    + intros (outs & Houts & ->).
      inversion Houts as [|? uis ? outs' [Huis Hascii] Houts']; subst.
      cbn [fst snd] in Huis.
      exists (<[topic_id := pid_lines uis]> pids). cbn [extract_dir]. rewrite Huis.
      cbn [mbind result_bind].
      rewrite (proj2 (write_pids_Ok uis (pid_lines uis))) by done.
      split; [done|]. apply IH. by exists outs'.
Qed.

Lemma extract_pid_Ok int_text sheet download pids pids' :
  extract_pid int_text sheet download pids = Ok pids'
  <-> exists dict_review outs,
        read_ovid_search_file int_text sheet = Ok dict_review
        /\ Forall2 (fun d uis => extract_topic dict_review d.1 d.2 = Ok uis
                                 /\ Forall (fun ui => Py.is_ascii ui = true) uis)
             download outs
        /\ pids' = write_all (zip download.*1 (pid_lines <$> outs)) pids.
Proof.
  unfold extract_pid. rewrite bind_Ok. split.
  - intros (dict_review & Hload & (outs & Houts & ->)%extract_dirs_Ok).
    by exists dict_review, outs.
  - intros (dict_review & outs & Hload & Houts & ->).
    exists dict_review. split; [done|]. apply extract_dirs_Ok. by exists outs.
Qed.

Lemma extract_topic_sorted dict_review topic_id files uis :
  extract_topic dict_review topic_id files = Ok uis ->
  exists list_ret sorted,
    collect_topic dict_review topic_id files = Ok list_ret
    /\ sorted ≡ₚ list_ret
    /\ StronglySorted (key_le fst) sorted
    /\ (forall i : Z, filter (fun p => p.1 = i) sorted = filter (fun p => p.1 = i) list_ret)
    /\ uis = sorted.*2.
Proof.
  unfold extract_topic. intros (list_ret & Hc & [= <-])%bind_Ok.
  exists list_ret, (Py.sort_by fst list_ret). split_and!; try done.
  - apply sort_by_perm.
  - apply sort_by_sorted.
  - intros i. apply sort_by_stable.
Qed.


(** C3, as the code has it.  Every identifier in the identifier-list file of
    a topic is the identifier of a record of the topic's downloads whose
    creation date is strictly inside the topic's date window.  The file may
    repeat an identifier; the list read back from it does not. *)
Theorem pid_file_inside_window (dict_review : gmap string review)
    (topic_id : string) (files : list Dom.node) (uis : list string) :
  extract_topic dict_review topic_id files = Ok uis ->
  Forall (fun ui => exists inx, survives dict_review topic_id files (inx, ui)) uis
  /\ NoDup (read_pids (pid_lines uis)).
Proof.
  intros Huis. split; [|apply read_pids_NoDup].
  apply extract_topic_sorted in Huis as (l & sorted & Hl & Hperm & _ & _ & ->).
  apply collect_topic_survives in Hl. rewrite <- Hperm in Hl.
  apply Forall_fmap. eapply Forall_impl; [exact Hl|].
  intros [inx ui] Hp. by exists inx.
Qed.

Lemma pid_file_inside_window_witness :
  Forall (fun ui => exists inx,
            survives (one_review "1" "CD000001" "20170101 20171231") "1"
              [records_xml [record_xml "2" "102" "20170615"]] (inx, ui))
         ["102"]
  /\ NoDup (read_pids (pid_lines ["102"])).
Proof.
  apply (pid_file_inside_window (one_review "1" "CD000001" "20170101 20171231") "1"
           [records_xml [record_xml "2" "102" "20170615"]] ["102"]).
  reflexivity.
Defined.

(** The same export downloaded twice: the identifier is written twice. *)
Lemma pid_file_duplicates :
  extract_pid no_int_text (one_sheet 1 "CD000001" "20170101 20171231")
    [("1", [records_xml [record_xml "1" "100" "20170615"];
            records_xml [record_xml "1" "100" "20170615"]])] ∅
  = Ok {[ "1" := ["100" +:+ nl; "100" +:+ nl] ]}
  /\ ~ NoDup ["100" +:+ nl; "100" +:+ nl].
Proof.
  split; [vm_compute; reflexivity|].
  intros Hnd. apply NoDup_cons in Hnd as [Hin _]. apply Hin. left.
Qed.

(** The order in which the files of a topic are listed does not matter when
    records of equal index carry the same identifier. *)
Lemma extract_topic_listing_order dict_review topic_id files files' list_ret :
  files ≡ₚ files' ->
  collect_topic dict_review topic_id files = Ok list_ret ->
  (forall p q, p ∈ list_ret -> q ∈ list_ret -> p.1 = q.1 -> p = q) ->
  extract_topic dict_review topic_id files' = extract_topic dict_review topic_id files.
Proof.
  intros Hperm Hc Hkey. unfold extract_topic. rewrite Hc. cbn.
  unfold collect_topic in *.
  apply for_each_appending in Hc as (ks & Hks & ->);
    [|intros; apply extract_file_appending].
  destruct (Forall2_perm_l _ _ _ _ Hperm Hks) as (ks' & Hperm' & Hks').
  assert (for_each (extract_file dict_review topic_id) files' [] = Ok ([] ++ concat ks')) as ->.
  { apply for_each_appending; [intros; apply extract_file_appending|]. by exists ks'. }
  cbn. do 2 f_equal. symmetry. apply sort_by_perm_eq; [|done].
  by apply concat_perm.
Qed.

(** With records of equal index and different identifiers, it does. *)
Example extract_topic_ties :
  extract_topic (one_review "1" "CD000001" "20170101 20171231") "1"
    [records_xml [record_xml "1" "100" "20170615"];
     records_xml [record_xml "1" "200" "20170615"]] = Ok ["100"; "200"]
  /\ extract_topic (one_review "1" "CD000001" "20170101 20171231") "1"
       [records_xml [record_xml "1" "200" "20170615"];
        records_xml [record_xml "1" "100" "20170615"]] = Ok ["200"; "100"].
Proof. split; reflexivity. Qed.

(** The file a run leaves for a topic directory is the one written for the
    last directory listed under that name. *)
Lemma write_all_last {V : Type} (pre post : list (string * V)) (k : string) (v : V)
    (m : gmap string V) :
  k ∉ post.*1 -> write_all (pre ++ (k, v) :: post) m !! k = Some v.
Proof.
  intros Hpost. unfold write_all. rewrite foldl_app. cbn [foldl fst snd].
  fold (write_all post (<[k:=v]> (foldl (fun m b => <[b.1:=b.2]> m) m pre))).
  rewrite (proj2 (write_all_lookup post _ k) Hpost). apply lookup_insert_eq.
Qed.

Lemma zip_fst_app_cons {A B : Type} (f : A -> string) (pre post : list A) (x : A)
    (outs : list B) :
  length outs = length (pre ++ x :: post) ->
  exists outs1 y outs2,
    outs = outs1 ++ y :: outs2
    /\ length outs1 = length pre /\ length outs2 = length post
    /\ zip (f <$> (pre ++ x :: post)) outs
       = zip (f <$> pre) outs1 ++ (f x, y) :: zip (f <$> post) outs2.
Proof.
  intros Hlen. rewrite length_app in Hlen. cbn in Hlen.
  exists (take (length pre) outs).
  destruct (drop (length pre) outs) as [|y outs2] eqn:Hdrop.
  { apply (f_equal length) in Hdrop. rewrite length_drop in Hdrop. cbn in Hdrop. lia. }
  exists y, outs2.
  assert (outs = take (length pre) outs ++ y :: outs2) as Houts
    by (by rewrite <- Hdrop, take_drop).
  assert (length (take (length pre) outs) = length pre) as Hl1
    by (rewrite length_take; lia).
  split_and!; [done|done| |].
  - apply (f_equal length) in Hdrop. rewrite length_drop in Hdrop. cbn in Hdrop. lia.
  - rewrite Houts at 1. rewrite fmap_app, zip_with_app by (by rewrite length_fmap).
    done.
Qed.

(** C7, as the code has it.  A run of the Extractor that returns has
    written, for each topic directory, the identifiers of the records kept,
    all of them ASCII, sorted by their index, ascending, with a stable
    sort: records of equal index stay in the order in which they were
    read.  So a second run on the same downloads leaves the directory as
    the first run left it, whatever the directory held before, and it
    touches no other file.  The order of the identifiers of a topic is that
    of the indices alone when no two kept records of different identifier
    share an index: then the order in which the files of the topic are
    listed does not matter. *)
Theorem extract_pid_idempotent (int_text : string -> option Z) (sheet : Z -> sheet_row)
    (download : list (string * list Dom.node))
    (pids pids' : gmap string (list string)) :
  extract_pid int_text sheet download pids = Ok pids' ->
  extract_pid int_text sheet download pids' = Ok pids'
  /\ (forall pids0 pids0' topic_id,
        extract_pid int_text sheet download pids0 = Ok pids0' ->
        topic_id ∈ download.*1 ->
        pids0' !! topic_id = pids' !! topic_id)
  /\ (forall name, name ∉ download.*1 -> pids' !! name = pids !! name)
  /\ exists dict_review,
       read_ovid_search_file int_text sheet = Ok dict_review
       /\ forall pre topic_id files post,
            download = pre ++ (topic_id, files) :: post ->
            topic_id ∉ post.*1 ->
            exists list_ret sorted,
              collect_topic dict_review topic_id files = Ok list_ret
              /\ sorted ≡ₚ list_ret
              /\ StronglySorted (key_le fst) sorted
              /\ (forall i : Z,
                    filter (fun p => p.1 = i) sorted = filter (fun p => p.1 = i) list_ret)
              /\ pids' !! topic_id = Some (pid_lines sorted.*2)
              /\ Forall (fun ui => Py.is_ascii ui = true) sorted.*2
              /\ (forall files',
                    files ≡ₚ files' ->
                    (forall p q, p ∈ list_ret -> q ∈ list_ret -> p.1 = q.1 -> p = q) ->
                    extract_topic dict_review topic_id files' = Ok sorted.*2).
Proof.
  intros Hrun. apply extract_pid_Ok in Hrun as (dict_review & outs & Hload & Houts & ->).
  split_and!.
  - apply extract_pid_Ok. exists dict_review, outs. split_and!; [done..|].
    by rewrite write_all_idempotent.
  - intros pids0 pids0' topic_id Hrun0 Hin.
    apply extract_pid_Ok in Hrun0 as (dict_review' & outs' & Hload' & Houts' & ->).
    assert (dict_review' = dict_review) as -> by congruence.
    assert (outs' = outs) as ->.
    { clear -Houts Houts'. revert outs' Houts'.
      induction Houts as [|d uis ds outs [Hd _] _ IH]; intros outs' Houts';
        inversion Houts' as [|? uis' ? outs'' [Hd' _] Houts'']; subst; [done|].
      f_equal; [congruence|by apply IH]. }
    assert (topic_id ∈ (zip download.*1 (pid_lines <$> outs)).*1) as Hin'.
    { rewrite fst_zip; [done|].
      rewrite !length_fmap. by rewrite (Forall2_length _ _ _ Houts). }
    by rewrite (proj1 (write_all_lookup _ pids0 _) Hin'),
      (proj1 (write_all_lookup _ pids _) Hin').
  - intros name Hname. apply write_all_lookup.
    rewrite fst_zip; [done|].
    rewrite !length_fmap. by rewrite (Forall2_length _ _ _ Houts).
  - exists dict_review. split; [done|].
    intros pre topic_id files post -> Hpost.
    destruct (zip_fst_app_cons fst pre post (topic_id, files) (pid_lines <$> outs))
      as (outs1 & y & outs2 & Heq & Hl1 & Hl2 & Hzip).
    { rewrite length_fmap. symmetry. by eapply Forall2_length. }
    apply fmap_app_inv in Heq as (o1 & o2' & -> & Ho2 & ->).
    symmetry in Ho2. apply fmap_cons_inv in Ho2 as (uis & o2 & -> & -> & ->).
    apply Forall2_app_inv in Houts as [_ Houts];
      [|by rewrite length_fmap in Hl1].
    apply Forall2_cons in Houts as [[Huis Hascii] _]. cbn [fst snd] in Huis.
    pose proof Huis as Hsorted.
    apply extract_topic_sorted in Hsorted as (list_ret & sorted & Hc & Hperm & Hs & Hst & ->).
    exists list_ret, sorted. split_and!; try done.
    + rewrite Hzip. apply write_all_last.
      rewrite fst_zip; [done|]. rewrite length_fmap in Hl2. by rewrite !length_fmap, Hl2.
    + intros files' Hfiles Hkey.
      by rewrite (extract_topic_listing_order _ _ _ _ _ Hfiles Hc Hkey).
Qed.

Lemma extract_pid_idempotent_witness :
  extract_pid no_int_text (one_sheet 1 "CD000001" "20170101 20171231")
    [("1", [records_xml [record_xml "2" "102" "20170615";
                         record_xml "1" "101" "20170614"]])]
    (<[ "1" := ["101" +:+ nl; "102" +:+ nl] ]> {[ "9" := ["kept" +:+ nl] ]}
       : gmap string (list string))
  = Ok (<[ "1" := ["101" +:+ nl; "102" +:+ nl] ]> {[ "9" := ["kept" +:+ nl] ]}
       : gmap string (list string))
  /\ (forall pids0 pids0' topic_id,
        extract_pid no_int_text (one_sheet 1 "CD000001" "20170101 20171231")
          [("1", [records_xml [record_xml "2" "102" "20170615";
                         record_xml "1" "101" "20170614"]])] pids0 = Ok pids0' ->
        topic_id ∈ ([("1", [records_xml [record_xml "2" "102" "20170615";
                         record_xml "1" "101" "20170614"]])]).*1 ->
        pids0' !! topic_id
        = (<[ "1" := ["101" +:+ nl; "102" +:+ nl] ]> {[ "9" := ["kept" +:+ nl] ]}
       : gmap string (list string)) !! topic_id)
  /\ (forall name,
        name ∉ ([("1", [records_xml [record_xml "2" "102" "20170615";
                         record_xml "1" "101" "20170614"]])]).*1 ->
        (<[ "1" := ["101" +:+ nl; "102" +:+ nl] ]> {[ "9" := ["kept" +:+ nl] ]}
       : gmap string (list string)) !! name
        = ({[ "9" := ["kept" +:+ nl] ]} : gmap string (list string)) !! name)
  /\ exists dict_review,
       read_ovid_search_file no_int_text (one_sheet 1 "CD000001" "20170101 20171231") = Ok dict_review
       /\ forall pre topic_id files post,
            [("1", [records_xml [record_xml "2" "102" "20170615";
                         record_xml "1" "101" "20170614"]])] = pre ++ (topic_id, files) :: post ->
            topic_id ∉ post.*1 ->
            exists list_ret sorted,
              collect_topic dict_review topic_id files = Ok list_ret
              /\ sorted ≡ₚ list_ret
              /\ StronglySorted (key_le fst) sorted
              /\ (forall i : Z,
                    filter (fun p => p.1 = i) sorted = filter (fun p => p.1 = i) list_ret)
              /\ (<[ "1" := ["101" +:+ nl; "102" +:+ nl] ]> {[ "9" := ["kept" +:+ nl] ]}
       : gmap string (list string)) !! topic_id
                 = Some (pid_lines sorted.*2)
              /\ Forall (fun ui => Py.is_ascii ui = true) sorted.*2
              /\ (forall files',
                    files ≡ₚ files' ->
                    (forall p q, p ∈ list_ret -> q ∈ list_ret -> p.1 = q.1 -> p = q) ->
                    extract_topic dict_review topic_id files' = Ok sorted.*2).
Proof.
  apply (extract_pid_idempotent no_int_text (one_sheet 1 "CD000001" "20170101 20171231")
           [("1", [records_xml [record_xml "2" "102" "20170615";
                         record_xml "1" "101" "20170614"]])]
           {[ "9" := ["kept" +:+ nl] ]}).
  vm_compute. reflexivity.
Defined.

(** Two exports of a topic that each hold a record of index 1: the order
    of the two identifiers in the file is the order in which the two
    exports are listed, not one that the indices determine. *)
Lemma extract_pid_ties_by_listing :
  extract_pid no_int_text (one_sheet 1 "CD000001" "20170101 20171231")
    [("1", [records_xml [record_xml "1" "100" "20170615"];
            records_xml [record_xml "1" "200" "20170615"]])] ∅
  = Ok {[ "1" := ["100" +:+ nl; "200" +:+ nl] ]}
  /\ extract_pid no_int_text (one_sheet 1 "CD000001" "20170101 20171231")
       [("1", [records_xml [record_xml "1" "200" "20170615"];
               records_xml [record_xml "1" "100" "20170615"]])] ∅
     = Ok {[ "1" := ["200" +:+ nl; "100" +:+ nl] ]}
  /\ [records_xml [record_xml "1" "100" "20170615"];
      records_xml [record_xml "1" "200" "20170615"]]
     ≡ₚ [records_xml [record_xml "1" "200" "20170615"];
         records_xml [record_xml "1" "100" "20170615"]]
  /\ ["100" +:+ nl; "200" +:+ nl] <> ["200" +:+ nl; "100" +:+ nl].
Proof.
  split_and!; [vm_compute; reflexivity..|apply Permutation_swap|done].
Qed.

(** ** Curated relevance table *)

Lemma is_digit_not_space a : Py.is_digit a = true -> Py.isspace a = false.
Proof.
  unfold Py.is_digit, Py.digit, Py.isspace.
  destruct ((48 <=? Py.ord a) && (Py.ord a <=? 57)) eqn:Hd; [|done].
  intros _. apply andb_true_iff in Hd as [H1 H2].
  apply Z.leb_le in H1, H2.
  apply orb_false_iff. split.
  - apply andb_false_iff. right. apply Z.leb_gt. lia.
  - apply Z.eqb_neq. lia.
Qed.

Lemma rstrip_digits_prefix s :
  Py.rstrip Py.isspace (Py.digits_prefix s) = Py.digits_prefix s.
Proof.
  induction s as [|a s IH]; cbn; [done|].
  destruct (Py.is_digit a) eqn:Ha; [|done].
  cbn. rewrite IH, (is_digit_not_space a Ha).
  by destruct (Py.digits_prefix s).
Qed.

(** A review code has no whitespace to strip. *)
Lemma strip_findall_CD_0 s m : Py.findall_CD_0 s = Ok m -> Py.strip m = m.
Proof.
  induction s as [|a s IH].
  - done.
  - change (Py.findall_CD_0 (String a s))
      with (match Py.match_CD (String a s) with
            | Some m => Ok m
            | None => Py.findall_CD_0 s
            end).
    destruct (Py.match_CD (String a s)) as [m'|] eqn:Hm; [|exact IH].
    intros [= <-]. unfold Py.match_CD in Hm.
    repeat (case_match; simplify_eq; try done).
    match goal with H : Py.digits_prefix ?s0 = String ?b ?t |- _ =>
      change ("CD" +:+ String b t) with (String "C" (String "D" (String b t)));
      rewrite <- H;
      change (Py.strip (String "C" (String "D" (Py.digits_prefix s0))))
        with (match
                 match Py.rstrip Py.isspace (Py.digits_prefix s0) with
                 | EmptyString => String "D" EmptyString
                 | t => String "D" t
                 end
               with
               | EmptyString => String "C" EmptyString
               | t => String "C" t
               end);
      rewrite rstrip_digits_prefix, H
    end.
    done.
Qed.

Lemma get2_setitem2 (dict_rel : gmap string (gmap string Z))
    (review_doi pubmed_id : string) (ref_type : Z) :
  get2 (setitem2 dict_rel review_doi pubmed_id ref_type) review_doi pubmed_id
  = Some ref_type.
Proof. unfold get2, setitem2. by rewrite lookup_insert_eq; cbn; rewrite lookup_insert_eq. Qed.

Lemma ref_type_of_no_break qrel_type label :
  qrel_type = "abs" \/ qrel_type = "doc" -> ref_type_of qrel_type label <> Break.
Proof.
  unfold ref_type_of. intros [-> | ->]; cbn; repeat case_decide; done.
Qed.

(** The label is the cell of the row under [ref_type]. *)
Lemma row_ref_type_kind qrel_type row :
  qrel_type = "abs" \/ qrel_type = "doc" ->
  row_ref_type qrel_type row = getitem row "ref_type".
Proof. by intros [-> | ->]. Qed.

(** For the two judgment kinds the loop never breaks: a table is read row
    after row. *)
Lemma read_rows_app qrel_type rows rows' dict_rel :
  qrel_type = "abs" \/ qrel_type = "doc" ->
  read_rows qrel_type (rows ++ rows') dict_rel
  = read_rows qrel_type rows dict_rel ≫= read_rows qrel_type rows'.
Proof.
  intros Hq. revert dict_rel. induction rows as [|row rows IH]; intros dict_rel; [done|].
  cbn [app read_rows].
  destruct (row_review_doi row) as [doi|e]; [|done]. cbn.
  destruct (row_pubmed_id row) as [pid|e]; [|done]. cbn.
  destruct (row_ref_type qrel_type row) as [label|e]; [|done]. cbn.
  pose proof (ref_type_of_no_break qrel_type label Hq).
  destruct (ref_type_of qrel_type label); [apply IH|apply IH|done].
Qed.

(** C4.  How a curated row is loaded, for a row whose [review_doi] holds a
    review code [doi].  For abstract-level judgments a row labelled
    included or excluded stores flag 1 for its review and document; for
    document-level judgments included stores 1 and excluded stores 0; a row
    with any other label leaves the table as it is.  So the same row
    labelled excluded gives the judgment flag 1 in the abstract-level file
    and 0 in the document-level file. *)
Theorem read_clef_rel_labels (row : csv_row) (review_doi pubmed_id doi : string)
    (label : option string)
    (dict_rel : gmap string (gmap string Z)) (item : string) :
  row !! "review_doi" = Some (Some review_doi) ->
  row !! "pubmed_id" = Some (Some pubmed_id) ->
  row !! "ref_type" = Some label ->
  Py.findall_CD_0 review_doi = Ok doi ->
  Py.ustrip item = Py.strip pubmed_id ->
  let pid := Py.strip pubmed_id in
  (label = Some "included" \/ label = Some "excluded" ->
     read_rows "abs" [row] dict_rel = Ok (setitem2 dict_rel doi pid 1)
     /\ judgment_of (setitem2 dict_rel doi pid 1) doi item = (doi, 0, pid, 1))
  /\ (label = Some "included" ->
        read_rows "doc" [row] dict_rel = Ok (setitem2 dict_rel doi pid 1)
        /\ judgment_of (setitem2 dict_rel doi pid 1) doi item = (doi, 0, pid, 1))
  /\ (label = Some "excluded" ->
        read_rows "doc" [row] dict_rel = Ok (setitem2 dict_rel doi pid 0)
        /\ judgment_of (setitem2 dict_rel doi pid 0) doi item = (doi, 0, pid, 0))
  /\ (label <> Some "included" -> label <> Some "excluded" ->
        read_rows "abs" [row] dict_rel = Ok dict_rel
        /\ read_rows "doc" [row] dict_rel = Ok dict_rel)
  /\ (forall qrel_type rows,
        qrel_type = "abs" \/ qrel_type = "doc" ->
        read_clef_rel qrel_type (rows ++ [row])
        = read_clef_rel qrel_type rows ≫= read_rows qrel_type [row]).
Proof.
  intros Hrow_doi Hrow_pid Hrow_label Hdoi Hitem pid.
  assert (forall v, judgment_of (setitem2 dict_rel doi pid v) doi item = (doi, 0, pid, v)) as Hj.
  { intros v. unfold judgment_of. rewrite Hitem. fold pid. by rewrite get2_setitem2. }
  assert (forall q, q = "abs" \/ q = "doc" ->
                    read_rows q [row] dict_rel
                    = match ref_type_of q label with
                      | Store v => Ok (setitem2 dict_rel doi pid v)
                      | _ => Ok dict_rel
                      end) as Hrow.
  { intros q Hq. cbn [read_rows].
    unfold row_review_doi, row_pubmed_id, getitem.
    rewrite (row_ref_type_kind _ _ Hq). unfold getitem.
    rewrite Hrow_doi, Hrow_pid, Hrow_label. cbn. rewrite Hdoi. cbn.
    rewrite (strip_findall_CD_0 _ _ Hdoi). fold pid.
    by destruct (ref_type_of q label). }
  split_and!.
  - intros [Hl|Hl]; (split; [|apply Hj]); rewrite Hrow, Hl by auto; reflexivity.
  - intros Hl. split; [|apply Hj]. rewrite Hrow, Hl by auto. reflexivity.
  - intros Hl. split; [|apply Hj]. rewrite Hrow, Hl by auto. reflexivity.
  - intros Hi He. rewrite !Hrow by auto. unfold ref_type_of. cbn.
    rewrite !(decide_False (P := Some "included" = _)) by done.
    by rewrite !(decide_False (P := Some "excluded" = _)) by done.
  - intros qrel_type rows Hq. unfold read_clef_rel. by apply read_rows_app.
Qed.

Lemma read_clef_rel_labels_witness :
  read_rows "abs" [mk_rel_row "10.1002/14651858.CD008686.pub2" " 123 " "excluded"] ∅
  = Ok (setitem2 ∅ "CD008686" "123" 1)
  /\ read_rows "doc" [mk_rel_row "10.1002/14651858.CD008686.pub2" " 123 " "excluded"] ∅
     = Ok (setitem2 ∅ "CD008686" "123" 0).
Proof.
  pose proof (read_clef_rel_labels
                (mk_rel_row "10.1002/14651858.CD008686.pub2" " 123 " "excluded")
                "10.1002/14651858.CD008686.pub2" " 123 " "CD008686" (Some "excluded")
                ∅ ("123" +:+ nl) eq_refl eq_refl eq_refl eq_refl eq_refl)
    as (Habs & _ & Hdoc & _).
  split; [apply Habs; by right|by apply Hdoc].
Defined.

Lemma get2_setitem2_ne (dict_rel : gmap string (gmap string Z))
    (review_doi pubmed_id review_doi' pubmed_id' : string) (ref_type : Z) :
  (review_doi, pubmed_id) <> (review_doi', pubmed_id') ->
  get2 (setitem2 dict_rel review_doi pubmed_id ref_type) review_doi' pubmed_id'
  = get2 dict_rel review_doi' pubmed_id'.
Proof.
  intros Hne. unfold get2, setitem2.
  destruct (decide (review_doi = review_doi')) as [<-|Hd].
  - rewrite lookup_insert_eq. cbn. rewrite lookup_insert_ne; [done|congruence].
  - by rewrite lookup_insert_ne.
Qed.

Lemma flags_in_setitem2 (P : Z -> Prop) dict_rel review_doi pubmed_id v :
  flags_in P dict_rel -> P v -> flags_in P (setitem2 dict_rel review_doi pubmed_id v).
Proof.
  intros Hd Hv doi' pid' v'.
  destruct (decide ((review_doi, pubmed_id) = (doi', pid'))) as [[= <- <-]|Hne].
  - rewrite get2_setitem2. by intros [= <-].
  - rewrite get2_setitem2_ne by done. apply Hd.
Qed.

Lemma read_rows_flags (P : Z -> Prop) qrel_type rows dict_rel dict_rel' :
  (forall label v, ref_type_of qrel_type label = Store v -> P v) ->
  flags_in P dict_rel ->
  read_rows qrel_type rows dict_rel = Ok dict_rel' ->
  flags_in P dict_rel'.
Proof.
  intros HP. revert dict_rel. induction rows as [|row rows IH]; intros dict_rel Hd.
  - by intros [= <-].
  - cbn [read_rows]. intros (doi & _ & Hrest)%bind_Ok.
    apply bind_Ok in Hrest as (pid & _ & Hrest).
    apply bind_Ok in Hrest as (label & _ & Hrest).
    destruct (ref_type_of qrel_type label) as [v| |] eqn:Hb.
    + eapply IH; [|exact Hrest]. apply flags_in_setitem2; [done|by eapply HP].
    + by eapply IH.
    + by injection Hrest as <-.
Qed.

Lemma flags_in_empty (P : Z -> Prop) : flags_in P ∅.
Proof. intros doi pid v. unfold get2. by rewrite lookup_empty. Qed.

(** The table holds the flags 0 and 1 only, and for abstract-level
    judgments the flag 1 only. *)
Lemma read_clef_rel_flags qrel_type rows dict_rel :
  read_clef_rel qrel_type rows = Ok dict_rel ->
  flags_in (fun v => v = 0 \/ v = 1) dict_rel
  /\ (qrel_type = "abs" -> flags_in (fun v => v = 1) dict_rel).
Proof.
  intros Hread. split.
  - eapply read_rows_flags; [|apply flags_in_empty|exact Hread].
    intros label v. unfold ref_type_of.
    repeat case_decide; intros [= <-]; auto.
  - intros ->. eapply read_rows_flags; [|apply flags_in_empty|exact Hread].
    intros label v. unfold ref_type_of. cbn.
    repeat case_decide; by intros [= <-].
Qed.

Lemma findall_CD_0_raise s e : Py.findall_CD_0 s = Raise e -> e = IndexError.
Proof.
  induction s as [|a s IH]; [by intros [= <-]|].
  change (Py.findall_CD_0 (String a s))
    with (match Py.match_CD (String a s) with
          | Some m => Ok m
          | None => Py.findall_CD_0 s
          end).
  by destruct (Py.match_CD (String a s)).
Qed.

Lemma row_review_doi_raise row e :
  row_review_doi row = Raise e -> e = KeyError \/ e = TypeError \/ e = IndexError.
Proof.
  unfold row_review_doi, getitem.
  destruct (row !! "review_doi") as [[s|]|]; cbn; [|intros [= <-]; auto..].
  destruct (Py.findall_CD_0 s) as [doi|e'] eqn:Hs; [done|]. cbn.
  intros [= <-]. right. right. by eapply findall_CD_0_raise.
Qed.

Lemma row_pubmed_id_raise row e :
  row_pubmed_id row = Raise e -> e = KeyError \/ e = AttributeError.
Proof.
  unfold row_pubmed_id, getitem.
  destruct (row !! "pubmed_id") as [[s|]|]; cbn; [done|intros [= <-]; auto..].
Qed.

Lemma row_ref_type_raise qrel_type row e :
  row_ref_type qrel_type row = Raise e -> e = KeyError.
Proof.
  unfold row_ref_type, getitem.
  repeat case_decide; destruct (row !! "ref_type"); by intros [= <-].
Qed.

(** Loading the table fails on the fields of a row: a field or a cell that
    is not there, or no review code. *)
Lemma read_rows_raise qrel_type rows dict_rel e :
  read_rows qrel_type rows dict_rel = Raise e ->
  e = KeyError \/ e = TypeError \/ e = IndexError \/ e = AttributeError.
Proof.
  revert dict_rel. induction rows as [|row rows IH]; intros dict_rel; [done|].
  cbn [read_rows].
  destruct (row_review_doi row) as [doi|e'] eqn:Hdoi; cbn;
    [|intros [= <-]; apply row_review_doi_raise in Hdoi; tauto].
  destruct (row_pubmed_id row) as [pid|e'] eqn:Hpid; cbn;
    [|intros [= <-]; apply row_pubmed_id_raise in Hpid; tauto].
  destruct (row_ref_type qrel_type row) as [label|e'] eqn:Hlabel; cbn;
    [|intros [= <-]; apply row_ref_type_raise in Hlabel; tauto].
  destruct (ref_type_of qrel_type label); [apply IH|apply IH|done].
Qed.

(** ** TREC-style Formatter *)

Lemma citation_Ok r pid title abstract printed :
  citation r = Ok (pid, title, abstract, printed) ->
  printed = []
  /\ exists Article,
       article_of r = Ok Article
       /\ abstract = Py.join nl (abstract_texts Article).
Proof.
  unfold citation, article_of.
  intros (MedlineCitation & HM & Hc)%bind_Ok.
  apply bind_Ok in Hc as (pid' & _ & Hc).
  apply bind_Ok in Hc as (Article & HA & Hc).
  apply bind_Ok in Hc as (title' & _ & Hc).
  cbn in Hc. injection Hc as <- <- <- <-.
  split; [done|]. exists Article. rewrite HM. cbn. by rewrite HA.
Qed.

Lemma for_each_format_citation rs f0 c0 f c :
  for_each format_citation rs (f0, c0) = Ok (f, c) ->
  c = c0
  /\ length f = (length f0 + 5 * length rs)%nat
  /\ (exists g, f = f0 ++ g)
  /\ forall r, r ∈ rs ->
       exists pid title abstract f1 f2,
         citation r = Ok (pid, title, abstract, [])
         /\ f = f1 ++ trec_doc pid title abstract ++ f2.
Proof.
  revert f0. induction rs as [|r rs IH]; intros f0; cbn [for_each].
  - intros [= <- <-]. split_and!; [done|cbn; lia|by exists []; rewrite app_nil_r|].
    by intros r ?%elem_of_nil.
  - intros ([f1 c1] & Hstep & Hrest)%bind_Ok.
    unfold format_citation in Hstep.
    apply bind_Ok in Hstep as ([[[pid title] abstract] printed] & Hcit & [= <- <-]).
    destruct (citation_Ok _ _ _ _ _ Hcit) as [-> _].
    rewrite app_nil_r in Hrest.
    destruct (IH _ Hrest) as (-> & Hlen & [g ->] & Hall).
    split_and!; [done| |by eexists; rewrite <- app_assoc|].
    + rewrite Hlen, length_app. cbn. lia.
    + intros r' [->|Hin]%elem_of_cons; [|by apply Hall].
      exists pid, title, abstract, f0, g. split; [done|].
      by rewrite <- !app_assoc.
Qed.

(** C9, what the code does.  For every citation of a response file the
    Formatter writes one record of five lines, whose text field is the text
    nodes of the citation's abstract joined by newlines; for a citation
    without an abstract the text field is empty.  Nothing is ever printed to
    the console: the absence of an abstract is not logged. *)
Theorem trec_format_never_logs (root r : Dom.node) (f console : list string) :
  trec_format_file root = Ok (f, console) ->
  r ∈ Dom.getElementsByTagName "PubmedArticle" root ->
  console = []
  /\ length f = (5 * length (Dom.getElementsByTagName "PubmedArticle" root))%nat
  /\ exists pid title Article f1 f2,
       article_of r = Ok Article
       /\ citation r = Ok (pid, title, Py.join nl (abstract_texts Article), [])
       /\ f = f1 ++ trec_doc pid title (Py.join nl (abstract_texts Article)) ++ f2
       /\ (Dom.getElementsByTagName "AbstractText" Article = [] ->
           Py.join nl (abstract_texts Article) = EmptyString).
Proof.
  unfold trec_format_file. intros Hrun Hr.
  apply for_each_format_citation in Hrun as (-> & Hlen & _ & Hall).
  split_and!; [done|by rewrite Hlen|].
  destruct (Hall r Hr) as (pid & title & abstract & f1 & f2 & Hcit & ->).
  destruct (citation_Ok _ _ _ _ _ Hcit) as [_ (Article & HA & ->)].
  exists pid, title, Article, f1, f2. split_and!; try done.
  intros Hnone. unfold abstract_texts. by rewrite Hnone.
Qed.

(** A citation without an abstract: the record has an empty text field and
    the console stays empty. *)
Lemma trec_format_never_logs_witness :
  trec_format_file (Dom.Element "PubmedArticleSet" [] [article_xml "2" "A title" []])
  = Ok (trec_doc "2" "A title" EmptyString, [])
  /\ length (trec_doc "2" "A title" EmptyString)
     = (5 * length (Dom.getElementsByTagName "PubmedArticle"
                      (Dom.Element "PubmedArticleSet" []
                         [article_xml "2" "A title" []])))%nat.
Proof.
  split; [reflexivity|].
  pose proof (trec_format_never_logs
                (Dom.Element "PubmedArticleSet" [] [article_xml "2" "A title" []])
                (article_xml "2" "A title" [])
                (trec_doc "2" "A title" EmptyString) [] eq_refl)
    as Hdoc.
  destruct Hdoc as (_ & Hlen & _); [left|exact Hlen].
Defined.

Example trec_format_file_abstract :
  trec_format_file
    (Dom.Element "PubmedArticleSet" []
       [article_xml "1" "A title"
          [Dom.Element "Abstract" []
             [Dom.Element "AbstractText" [] [Dom.Text "first"];
              Dom.Element "AbstractText" [] [Dom.Text "second"]]]])
  = Ok (trec_doc "1" "A title" ("first" +:+ nl +:+ "second"), []).
Proof. reflexivity. Qed.

(** * Further properties of the stages *)

(** ** Chunking: sizes that are not positive, and the number of chunks *)

(** A chunk size of zero raises [ValueError]; a negative chunk size returns
    no chunk at all, whatever the list holds; a positive chunk size [n]
    returns the list in [ceil(len / n)] chunks. *)
Theorem chunks_by_element_sizes {A : Type} (arr : list A) :
  chunks_by_element arr 0 = Raise ValueError
  /\ (forall n, n < 0 -> chunks_by_element arr n = Ok [])
  /\ (forall n, 0 < n ->
        exists chunks,
          chunks_by_element arr n = Ok chunks
          /\ length chunks = chunk_count (length arr) n
          /\ (chunks = [] <-> arr = [])).
Proof.
  split_and!.
  - reflexivity.
  - intros n Hn. unfold chunks_by_element, Py.range, Py.range_len.
    destruct (Z.eqb_spec n 0) as [?|_]; [lia|].
    destruct (Z.ltb_spec 0 n) as [?|_]; [lia|].
    destruct (Z.ltb_spec (Z.of_nat (length arr)) 0) as [?|_]; [lia|].
    reflexivity.
  - intros n Hn. eexists. split; [by apply chunks_by_element_pieces|].
    split; [apply pieces_length|].
    pose proof (covers_ceil n (length arr) Hn) as Hc.
    pose proof (pieces_length (Z.to_nat n) arr
                  (Z.to_nat ((Z.of_nat (length arr) + n - 1) / n))) as Hlen.
    split.
    + intros Hnil. rewrite Hnil in Hlen. cbn in Hlen.
      destruct Hc as [[_ ?]|[? _]]; [by destruct arr|lia].
    + intros ->. destruct Hc as [[Hz _]|[_ [Hlo _]]]; [|by apply Nat.nlt_0_r in Hlo].
      by rewrite Hz.
Qed.

(** ** PID Collector: export ranges *)







(** ** Abstract Fetcher: the batches of [download_abstract] *)

Lemma pieces_bounds {A : Type} (m : nat) (arr : list A) (c : nat) :
  (0 < m)%nat -> covers m (length arr) c ->
  Forall (fun ch => (1 <= length ch <= m)%nat) (pieces m arr c).
Proof.
  intros Hm Hc. apply Forall_lookup_2. intros k ch Hk.
  rewrite (pieces_lengths m arr c Hm Hc k ch Hk).
  apply lookup_lt_Some in Hk. rewrite pieces_length in Hk.
  destruct Hc as [[? _]|[_ [Hlo Hhi]]]; [lia|].
  case_decide; [|lia]. assert (k = (c - 1)%nat) as -> by lia. nia.
Qed.

(** The requests for a topic carry the deduplicated identifiers of its
    file, in order, in batches of 1 to 500 identifiers: no identifier is
    requested twice, none is left out, and an empty file gives no request. *)
Theorem abstract_requests_batches (lines : list string) :
  exists blocks,
    abstract_requests lines = Ok (Py.join "," <$> blocks)
    /\ concat blocks = read_pids lines
    /\ Forall (fun block => (1 <= length block <= 500)%nat) blocks
    /\ NoDup (concat blocks)
    /\ length blocks = chunk_count (length (read_pids lines)) 500.
Proof.
  pose proof (covers_ceil 500 (length (read_pids lines)) ltac:(lia)) as Hc.
  change (Z.to_nat 500) with 500%nat in Hc.
  exists (pieces 500 (read_pids lines) (chunk_count (length (read_pids lines)) 500)).
  assert (concat (pieces 500 (read_pids lines)
                    (chunk_count (length (read_pids lines)) 500))
          = read_pids lines) as Hcat by (apply pieces_concat; [lia|done]).
  split_and!.
  - unfold abstract_requests. by rewrite chunks_by_element_pieces by lia.
  - done.
  - apply pieces_bounds; [lia|done].
  - rewrite Hcat. apply read_pids_NoDup.
  - apply pieces_length.
Qed.

(** ** Curated relevance table: failures, repeated rows, the two kinds *)

(** How a load for a judgment kind gets through the fields of a row. *)
Lemma row_fields qrel_type row :
  qrel_type = "abs" \/ qrel_type = "doc" ->
  (loadable row
   /\ exists doi pid label,
        row_review_doi row = Ok doi /\ row_pubmed_id row = Ok pid
        /\ row_ref_type qrel_type row = Ok label)
  \/ (~ loadable row
      /\ exists e,
           row_fails row e
           /\ (doi ← row_review_doi row;
               pid ← row_pubmed_id row;
               label ← row_ref_type qrel_type row;
               Ok (doi, pid, label)) = Raise e).
Proof.
  intros Hq. rewrite (row_ref_type_kind _ _ Hq).
  unfold loadable, has_code, has_pid, row_fails, row_review_doi, row_pubmed_id, getitem.
  destruct (row !! "review_doi") as [[s|]|] eqn:Hd; cbn.
  - destruct (Py.findall_CD_0 s) as [doi|e] eqn:Hs; cbn.
    + destruct (row !! "pubmed_id") as [[p|]|] eqn:Hp; cbn.
      * destruct (row !! "ref_type") as [label|] eqn:Hl; cbn.
        -- left. split; [|by eexists _, _, _].
           split_and!; [by eexists _, _|by eexists|by eexists].
        -- right. split; [by intros (_ & _ & [? ?])|].
           exists KeyError. split; [|done].
           do 5 right. split_and!; [by eexists _, _|by eexists|done..].
      * right. split; [by intros (_ & [? ?] & _)|].
        exists AttributeError. split; [|done].
        do 4 right. left. split_and!; [by eexists _, _|done..].
      * right. split; [by intros (_ & [? ?] & _)|].
        exists KeyError. split; [|done].
        do 3 right. left. split_and!; [by eexists _, _|done..].
    + right. split; [intros ((? & ? & [= <-] & ?) & _); congruence|].
      pose proof (findall_CD_0_raise _ _ Hs) as ->.
      exists IndexError. split; [|done].
      do 2 right. left. split; [by eexists|done].
  - right. split; [by intros ((? & ? & ? & _) & _)|].
    exists TypeError. split; [|done]. right. left. by split.
  - right. split; [by intros ((? & ? & ? & _) & _)|].
    exists KeyError. split; [|done]. left. by split.
Qed.

(** A row stops a load with one exception at most. *)
Lemma row_fails_unique row e e' : row_fails row e -> row_fails row e' -> e = e'.
Proof.
  unfold row_fails, has_code, has_pid. intros H H'.
  destruct_or!;
    repeat match goal with
           | H : _ /\ _ |- _ => destruct H
           | H : exists _, _ |- _ => destruct H
           end; simplify_eq; congruence.
Qed.

Lemma read_rows_outcome qrel_type rows dict_rel :
  qrel_type = "abs" \/ qrel_type = "doc" ->
  match read_rows qrel_type rows dict_rel with
  | Ok _ => Forall loadable rows
  | Raise e =>
      exists pre row post,
        rows = pre ++ row :: post /\ Forall loadable pre /\ ~ loadable row
        /\ row_fails row e
  end.
Proof.
  intros Hq. revert dict_rel. induction rows as [|row rows IH]; intros dict_rel.
  - constructor.
  - cbn [read_rows].
    destruct (row_fields qrel_type row Hq)
      as [(Hload & doi & pid & label & -> & -> & ->)|(Hnot & e & Hfail & Hraise)].
    + cbn. pose proof (ref_type_of_no_break qrel_type label Hq) as Hnb.
      assert (forall d,
                 match read_rows qrel_type rows d with
                 | Ok _ => Forall loadable (row :: rows)
                 | Raise e =>
                     exists pre row' post,
                       row :: rows = pre ++ row' :: post /\ Forall loadable pre
                       /\ ~ loadable row' /\ row_fails row' e
                 end) as Hrest.
      { intros d. specialize (IH d). destruct (read_rows qrel_type rows d).
        - by constructor.
        - destruct IH as (pre & row' & post & -> & Hpre & Hrow').
          exists (row :: pre), row', post. split; [done|]. split; [by constructor|done]. }
      destruct (ref_type_of qrel_type label); [apply Hrest|apply Hrest|done].
    + destruct (row_review_doi row) as [doi|e1]; cbn in *;
        [|injection Hraise as ->; by exists [], row, rows].
      destruct (row_pubmed_id row) as [pid|e1]; cbn in *;
        [|injection Hraise as ->; by exists [], row, rows].
      destruct (row_ref_type qrel_type row) as [label|e1]; cbn in *; [done|].
      injection Hraise as ->. by exists [], row, rows.
Qed.

(** A load for abstract-level or document-level judgments succeeds exactly
    when every row of the table has the three fields, a text with a review
    code under [review_doi] and a text under [pubmed_id], whatever the
    labels of the rows.  Otherwise it stops at the first row that is not
    so, with the exception of that row: [KeyError] for a field that is not
    there, [TypeError] for a [review_doi] without a cell, [IndexError] for
    one without a review code, [AttributeError] for a [pubmed_id] without a
    cell. *)
Theorem read_clef_rel_succeeds (qrel_type : string) (rows : list csv_row) :
  qrel_type = "abs" \/ qrel_type = "doc" ->
  ((exists dict_rel, read_clef_rel qrel_type rows = Ok dict_rel)
   <-> Forall loadable rows)
  /\ (forall e,
        read_clef_rel qrel_type rows = Raise e
        <-> exists pre row post,
              rows = pre ++ row :: post /\ Forall loadable pre /\ ~ loadable row
              /\ row_fails row e).
Proof.
  intros Hq. unfold read_clef_rel.
  pose proof (read_rows_outcome qrel_type rows ∅ Hq) as Hout.
  destruct (read_rows qrel_type rows ∅) as [d|e0] eqn:Hread.
  - split.
    + split; [done|by eexists].
    + intros e. split; [done|].
      intros (pre & row & post & -> & _ & Hnot & _).
      apply Forall_app in Hout as [_ Hout]. apply Forall_cons in Hout as [? _]. done.
  - destruct Hout as (pre & row & post & -> & Hpre & Hnot & Hfail). split.
    + split; [by intros [? ?]|].
      intros Hall. apply Forall_app in Hall as [_ Hall].
      apply Forall_cons in Hall as [? _]. done.
    + intros e. split.
      * intros [= <-]. by exists pre, row, post.
      * intros (pre' & row' & post' & Heq & Hpre' & Hnot' & Hfail').
        assert (pre' = pre /\ row' = row) as [-> ->].
        { clear -Heq Hpre Hnot Hpre' Hnot'. revert pre' Heq Hpre'.
          induction pre as [|r pre IH]; intros [|r' pre'] Heq Hpre'; cbn in Heq;
            injection Heq as ? ?; subst.
          - done.
          - apply Forall_cons in Hpre' as [? _]. done.
          - apply Forall_cons in Hpre as [? _]. done.
          - apply Forall_cons in Hpre as [_ Hpre].
            apply Forall_cons in Hpre' as [_ Hpre'].
            destruct (IH Hpre pre') as [-> ->]; done. }
        f_equal. by eapply row_fails_unique.
Qed.

Lemma read_clef_rel_succeeds_witness :
  (exists dict_rel,
      read_clef_rel "doc" [mk_rel_row "CD000001" "5" "excluded";
                           mk_rel_row "doi:10.1002/CD000002.pub3" "6" "other"]
      = Ok dict_rel)
  /\ read_clef_rel "doc" [mk_rel_row "CD000001" "5" "excluded";
                          <["pubmed_id" := None]> (mk_rel_row "CD000002" "6" "other")]
     = Raise AttributeError.
Proof.
  split.
  - apply (read_clef_rel_succeeds "doc"); [by right|].
    repeat constructor; by eexists _, _ || by eexists.
  - apply (read_clef_rel_succeeds "doc"); [by right|].
    exists [mk_rel_row "CD000001" "5" "excluded"],
      (<["pubmed_id" := None]> (mk_rel_row "CD000002" "6" "other")), [].
    split_and!.
    + done.
    + repeat constructor; by eexists _, _ || by eexists.
    + by intros (_ & [? ?] & _).
    + do 4 right. left. split_and!; [by eexists _, _|done..].
Defined.

Lemma read_rows_keeps qrel_type rows dict_rel dict_rel' doi pid :
  read_rows qrel_type rows dict_rel = Ok dict_rel' ->
  Forall (fun row => stored qrel_type row -> row_key row <> Ok (doi, pid)) rows ->
  get2 dict_rel' doi pid = get2 dict_rel doi pid.
Proof.
  revert dict_rel. induction rows as [|row rows IH]; intros dict_rel.
  - by intros [= <-].
  - cbn [read_rows]. intros (doi' & Hdoi & Hrest)%bind_Ok [Hrow Hrows]%Forall_cons.
    apply bind_Ok in Hrest as (pid' & Hpid & Hrest).
    apply bind_Ok in Hrest as (label & Hlabel & Hrest).
    destruct (ref_type_of qrel_type label) as [v| |] eqn:Hb.
    + rewrite (IH _ Hrest Hrows). apply get2_setitem2_ne.
      intros [= -> <-]. apply Hrow; [by exists label, v|].
      unfold row_key. by rewrite Hdoi, Hpid.
    + by apply IH.
    + by injection Hrest as <-.
Qed.

(** When several rows of the table are about the same review and document,
    the last one that is stored decides the flag. *)
Theorem read_clef_rel_last_row (qrel_type : string) (pre post : list csv_row)
    (row : csv_row) (dict_rel : gmap string (gmap string Z))
    (doi pid : string) (label : option string) (v : Z) :
  qrel_type = "abs" \/ qrel_type = "doc" ->
  read_clef_rel qrel_type (pre ++ row :: post) = Ok dict_rel ->
  row_key row = Ok (doi, pid) ->
  row_ref_type qrel_type row = Ok label ->
  ref_type_of qrel_type label = Store v ->
  Forall (fun later => stored qrel_type later -> row_key later <> Ok (doi, pid)) post ->
  get2 dict_rel doi pid = Some v.
Proof.
  intros Hq Hread Hkey Hlabel Hv Hpost. unfold read_clef_rel in Hread.
  rewrite read_rows_app in Hread by done.
  apply bind_Ok in Hread as (d0 & _ & Hread).
  cbn [read_rows] in Hread. unfold row_key in Hkey.
  destruct (row_review_doi row) as [doi'|] eqn:Hdoi; [|done].
  destruct (row_pubmed_id row) as [pid'|] eqn:Hpid; [|done].
  cbn in Hkey, Hread. injection Hkey as -> ->.
  rewrite Hlabel in Hread. cbn in Hread. rewrite Hv in Hread.
  rewrite (read_rows_keeps _ _ _ _ _ _ Hread Hpost). apply get2_setitem2.
Qed.

Lemma read_clef_rel_last_row_witness :
  get2 (setitem2 ∅ "CD000001" "5" 1) "CD000001" "5" = Some 1.
Proof.
  apply (read_clef_rel_last_row "doc"
           [mk_rel_row "CD000001" "5" "excluded"]
           [mk_rel_row "CD000001" "5" "other"]
           (mk_rel_row "CD000001" " 5 " "included") _ _ _ (Some "included")).
  - by right.
  - reflexivity.
  - reflexivity.
  - reflexivity.
  - reflexivity.
  - repeat constructor. by intros (label & v & [= <-] & [=]).
Defined.

Lemma get2_setitem2_cases (dict_rel : gmap string (gmap string Z))
    (doi pid doi' pid' : string) (v : Z) :
  get2 (setitem2 dict_rel doi pid v) doi' pid'
  = if decide ((doi, pid) = (doi', pid')) then Some v else get2 dict_rel doi' pid'.
Proof.
  case_decide as Hk.
  - injection Hk as <- <-. apply get2_setitem2.
  - by apply get2_setitem2_ne.
Qed.

Lemma read_rows_abs_doc rows da dd da' :
  (forall doi pid, get2 da doi pid = Some 1 <-> is_Some (get2 dd doi pid)) ->
  read_rows "abs" rows da = Ok da' ->
  exists dd',
    read_rows "doc" rows dd = Ok dd'
    /\ forall doi pid, get2 da' doi pid = Some 1 <-> is_Some (get2 dd' doi pid).
Proof.
  revert da dd. induction rows as [|row rows IH]; intros da dd Hrel.
  - intros [= <-]. by exists dd.
  - cbn [read_rows]. intros (doi & Hdoi & Hrest)%bind_Ok. rewrite Hdoi. cbn.
    apply bind_Ok in Hrest as (pid & Hpid & Hrest). rewrite Hpid. cbn.
    apply bind_Ok in Hrest as (label & Hlabel & Hrest).
    rewrite row_ref_type_kind in Hlabel |- * by auto. rewrite Hlabel. cbn.
    unfold ref_type_of in *. cbn in *.
    repeat case_decide; try done; (eapply IH; [|exact Hrest]); try done;
      intros doi' pid'; rewrite !get2_setitem2_cases;
      (case_decide; [split; [by eexists|done]|apply Hrel]).
Qed.

(** The two judgment kinds load the same pairs of review and document from
    a table: a load for document-level judgments succeeds whenever the load
    for abstract-level judgments does, a pair has an entry in one table
    exactly when it has one in the other, and a pair that is relevant at
    document level is relevant at abstract level. *)
Theorem read_clef_rel_abs_doc (rows : list csv_row)
    (dict_abs : gmap string (gmap string Z)) :
  read_clef_rel "abs" rows = Ok dict_abs ->
  exists dict_doc,
    read_clef_rel "doc" rows = Ok dict_doc
    /\ forall doi pid,
         (is_Some (get2 dict_abs doi pid) <-> is_Some (get2 dict_doc doi pid))
         /\ (get2 dict_doc doi pid = Some 1 -> get2 dict_abs doi pid = Some 1).
Proof.
  intros Habs.
  destruct (read_rows_abs_doc rows ∅ ∅ dict_abs) as (dict_doc & Hdoc & Hrel);
    [|exact Habs|].
  { intros doi pid. unfold get2. rewrite lookup_empty. cbn. rewrite lookup_empty.
    split; [done|by intros [? ?]]. }
  exists dict_doc. split; [exact Hdoc|]. intros doi pid.
  destruct (read_clef_rel_flags _ _ _ Habs) as [_ H1]. specialize (H1 eq_refl).
  split.
  - rewrite <- Hrel. split; [|by eexists].
    intros [v Hv]. by rewrite Hv, (H1 _ _ _ Hv).
  - intros Hd. apply Hrel. by eexists.
Qed.

Lemma read_clef_rel_abs_doc_witness :
  exists dict_doc,
    read_clef_rel "doc" [mk_rel_row "CD000001" "5" "excluded";
                         mk_rel_row "CD000001" "6" "included"] = Ok dict_doc
    /\ forall doi pid,
         (is_Some (get2 (setitem2 (setitem2 ∅ "CD000001" "5" 1) "CD000001" "6" 1) doi pid)
          <-> is_Some (get2 dict_doc doi pid))
         /\ (get2 dict_doc doi pid = Some 1 ->
             get2 (setitem2 (setitem2 ∅ "CD000001" "5" 1) "CD000001" "6" 1) doi pid
             = Some 1).
Proof.
  apply (read_clef_rel_abs_doc [mk_rel_row "CD000001" "5" "excluded";
                                mk_rel_row "CD000001" "6" "included"]).
  reflexivity.
Defined.

(** ** Judgment lines *)

Lemma length_append (s1 s2 : string) :
  String.length (s1 +:+ s2) = (String.length s1 + String.length s2)%nat.
Proof.
  induction s1 as [|a s1 IH]; [done|].
  change (S (String.length (s1 +:+ s2)) = S (String.length s1 + String.length s2)).
  by rewrite IH.
Qed.

Lemma length_spaces (k : nat) :
  String.length (String.concat EmptyString (replicate k " ")) = k.
Proof.
  induction k as [|k IH]; [done|].
  cbn [replicate String.concat]. destruct (replicate k " ") eqn:Hr.
  - by destruct k.
  - rewrite !length_append, IH. done.
Qed.

Lemma length_ljust (w : nat) (s : string) :
  String.length (Py.ljust w s) = (w `max` String.length s)%nat.
Proof. unfold Py.ljust. rewrite length_append, length_spaces. lia. Qed.

(** A judgment line has four columns padded to 12, 2, 12 and 2 characters:
    it is 33 characters long, newline included, when the review code and
    the document id have at most 12 characters; a longer code or id is
    written in full and makes the line longer. *)
Theorem judgment_line_width (review_doi item : string) (rel : Z) :
  rel = 0 \/ rel = 1 ->
  String.length (judgment_line (review_doi, 0, item, rel))
  = (12 `max` String.length review_doi + 12 `max` String.length item + 9)%nat
  /\ ((String.length review_doi <= 12)%nat -> (String.length item <= 12)%nat ->
      String.length (judgment_line (review_doi, 0, item, rel)) = 33%nat).
Proof.
  intros Hrel.
  assert (String.length (judgment_line (review_doi, 0, item, rel))
          = (12 `max` String.length review_doi + 12 `max` String.length item + 9)%nat)
    as Hlen.
  { unfold judgment_line. rewrite !length_append, !length_ljust.
    change (pretty (0 : Z)) with "0".
    destruct Hrel as [-> | ->];
      [change (pretty (0 : Z)) with "0"|change (pretty (1 : Z)) with "1"];
      cbn; lia. }
  split; [exact Hlen|]. intros Hd Hi. rewrite Hlen. lia.
Qed.

Lemma judgment_line_width_witness :
  String.length (judgment_line ("CD008686", 0, "12345678", 1)) = 33%nat.
Proof.
  apply (judgment_line_width "CD008686" "12345678" 1); [by right|cbn; lia..].
Defined.

(** ** PID Extractor: counts, windows that hold nothing, records without a date *)

Lemma extract_record_length start_date end_date r k :
  extract_record start_date end_date [] r = Ok k -> (length k <= 1)%nat.
Proof.
  unfold extract_record.
  intros ([[inx ui] test_date] & _ & Hk)%bind_Ok.
  apply bind_Ok in Hk as ([] & _ & [= <-]); cbn; lia.
Qed.

Lemma Forall2_concat_length {A B : Type} (size : A -> nat)
    (P : A -> list B -> Prop) (xs : list A) (ks : list (list B)) :
  (forall x k, P x k -> (length k <= size x)%nat) ->
  Forall2 P xs ks ->
  (length (concat ks) <= sum_list (size <$> xs))%nat.
Proof.
  intros HP. induction 1 as [|x k xs ks Hk _ IH]; cbn; [done|].
  rewrite length_app. specialize (HP _ _ Hk). lia.
Qed.

Lemma sum_list_ones {A : Type} (l : list A) :
  sum_list ((fun _ => 1%nat) <$> l) = length l.
Proof. induction l as [|x l IH]; [done|]. cbn. by rewrite IH. Qed.

Lemma extract_file_length dict_review topic_id root k :
  extract_file dict_review topic_id [] root = Ok k ->
  (length k <= length (Dom.getElementsByTagName "record" root))%nat.
Proof.
  unfold extract_file. intros (rv & _ & Hk)%bind_Ok.
  apply bind_Ok in Hk as ([start_date end_date] & _ & Hk).
  apply for_each_appending in Hk as (ks & Hks & ->);
    [|intros; apply extract_record_appending].
  cbn. etrans.
  - eapply (Forall2_concat_length (fun _ => 1%nat)); [|exact Hks].
    intros r k. apply extract_record_length.
  - by rewrite sum_list_ones.
Qed.

(** The Extractor writes at most one identifier for each [record] element of
    the topic's files. *)
Theorem extract_topic_count (dict_review : gmap string review) (topic_id : string)
    (files : list Dom.node) (uis : list string) :
  extract_topic dict_review topic_id files = Ok uis ->
  (length uis
   <= sum_list ((fun root => length (Dom.getElementsByTagName "record" root)) <$> files))%nat.
Proof.
  intros (list_ret & sorted & Hc & Hperm & _ & _ & ->)%extract_topic_sorted.
  rewrite length_fmap, Hperm. unfold collect_topic in Hc.
  apply for_each_appending in Hc as (ks & Hks & ->);
    [|intros; apply extract_file_appending].
  cbn. eapply Forall2_concat_length; [|exact Hks].
  intros root k. apply extract_file_length.
Qed.

Lemma extract_topic_count_witness :
  (length ["102"]
   <= sum_list ((fun root => length (Dom.getElementsByTagName "record" root))
                <$> [records_xml [record_xml "1" "101" "20161231";
                                  record_xml "2" "102" "20170615"]]))%nat.
Proof.
  apply (extract_topic_count (one_review "1" "CD000001" "20170101 20171231") "1").
  reflexivity.
Defined.

(** When the start date of a topic's window is not before its end date, no
    record is kept: the identifier list written for the topic is empty. *)
Theorem extract_topic_empty_window (dict_review : gmap string review)
    (topic_id : string) (rv : review) (start_date end_date : Datetime.datetime)
    (files : list Dom.node) (uis : list string) :
  dict_review !! topic_id = Some rv ->
  date_window (date rv) = Ok (start_date, end_date) ->
  ~ date_lt start_date end_date ->
  extract_topic dict_review topic_id files = Ok uis ->
  uis = [].
Proof.
  intros Hrv Hwin Hempty (list_ret & sorted & Hc & Hperm & _ & _ & ->)%extract_topic_sorted.
  apply collect_topic_survives in Hc.
  destruct list_ret as [|p list_ret].
  - apply Permutation_nil_r in Hperm. by subst.
  - apply Forall_cons in Hc as [(rv' & s & e & _ & _ & Hrv' & Hwin' & _ & _ & d & _ & Hs & He) _].
    rewrite Hrv in Hrv'. injection Hrv' as <-.
    rewrite Hwin in Hwin'. injection Hwin' as <- <-.
    destruct Hempty. by eapply date_lt_trans.
Qed.

Lemma extract_topic_empty_window_witness :
  extract_topic (one_review "1" "CD000001" "20171231 20170101") "1"
    [records_xml [record_xml "2" "102" "20170615"]] = Ok []
  /\ ([] : list string) = [].
Proof.
  split; [reflexivity|].
  apply (extract_topic_empty_window
           (one_review "1" "CD000001" "20171231 20170101") "1"
           (mk_review "CD000001" "http://example.org" "query" "20171231 20170101")
           (Datetime.mk_datetime 2017 12 31) (Datetime.mk_datetime 2017 1 1)
           [records_xml [record_xml "2" "102" "20170615"]] []);
    [reflexivity|reflexivity|unfold date_lt; cbn; lia|reflexivity].
Defined.

Lemma get_tag_text_raise root tagname e :
  get_tag_text root tagname = Raise e -> e = IndexError.
Proof.
  unfold get_tag_text.
  destruct (Dom.getElementsByTagName tagname root); cbn; [by intros [= <-]|done].
Qed.

Lemma scan_fields_no_date fs ui test_date :
  Forall (fun f => Dom.getAttribute "L" f <> "Date Created") fs ->
  match for_each scan_field fs (ui, test_date) with
  | Ok (_, test_date') => test_date' = test_date
  | Raise e => e = IndexError
  end.
Proof.
  intros Hfs. revert ui. induction Hfs as [|f fs Hf _ IH]; intros ui; cbn [for_each].
  - done.
  - unfold scan_field at 2. rewrite (decide_False (P := _ = "Date Created")) by done.
    destruct (decide (Dom.getAttribute "L" f = "Unique Identifier")); cbn.
    + destruct (get_tag_text f "D") as [ui'|e'] eqn:Hui; cbn; [apply IH|].
      by eapply get_tag_text_raise.
    + apply IH.
Qed.

(** A record without a [Date Created] field is not dropped: it stops the
    extraction of its topic with an exception ([TypeError] from the date
    comparison, or [IndexError] when its index or identifier cannot be
    read), so that no identifier list is written. *)
Theorem extract_topic_needs_dates (dict_review : gmap string review)
    (topic_id : string) (files : list Dom.node) (root r : Dom.node) :
  root ∈ files ->
  r ∈ Dom.getElementsByTagName "record" root ->
  Forall (fun f => Dom.getAttribute "L" f <> "Date Created")
         (Dom.getElementsByTagName "F" r) ->
  (forall start_date end_date list_ret,
      extract_record start_date end_date list_ret r = Raise TypeError
      \/ extract_record start_date end_date list_ret r = Raise IndexError)
  /\ exists e, extract_topic dict_review topic_id files = Raise e.
Proof.
  intros Hroot Hr Hnodate.
  assert (forall start_date end_date list_ret,
             extract_record start_date end_date list_ret r = Raise TypeError
             \/ extract_record start_date end_date list_ret r = Raise IndexError) as Hrec.
  { intros start_date end_date list_ret. unfold extract_record, scan_record.
    destruct (Py.item0 (Py.findall_digits (Dom.getAttribute "index" r))) as [inx|e] eqn:Hinx.
    - cbn. pose proof (scan_fields_no_date _ EmptyString None Hnodate) as Hscan.
      destruct (for_each scan_field _ _) as [[ui test_date]|e]; cbn.
      + subst. by left.
      + subst. by right.
    - right. destruct (Py.findall_digits _); cbn in *; [by injection Hinx as <-|done]. }
  split; [exact Hrec|].
  destruct (extract_topic dict_review topic_id files) as [uis|e] eqn:Hrun; [|by eexists].
  exfalso. apply extract_topic_sorted in Hrun as (list_ret & _ & Hc & _).
  unfold collect_topic in Hc.
  apply for_each_appending in Hc as (ks & Hks & _);
    [|intros; apply extract_file_appending].
  apply list_elem_of_lookup in Hroot as [i Hi].
  destruct (Forall2_lookup_l _ _ _ _ _ Hks Hi) as (k & _ & Hk).
  unfold extract_file in Hk. apply bind_Ok in Hk as (rv & _ & Hk).
  apply bind_Ok in Hk as ([start_date end_date] & _ & Hk).
  apply for_each_appending in Hk as (ks' & Hks' & _);
    [|intros; apply extract_record_appending].
  apply list_elem_of_lookup in Hr as [j Hj].
  destruct (Forall2_lookup_l _ _ _ _ _ Hks' Hj) as (k' & _ & Hk').
  destruct (Hrec start_date end_date []); congruence.
Qed.

Lemma extract_topic_needs_dates_witness :
  exists e,
    extract_topic (one_review "1" "CD000001" "20170101 20171231") "1"
      [records_xml [record_xml "2" "102" "20170615";
                    Dom.Element "record" [("index", "3")]
                      [field "Unique Identifier" "103"]]]
    = Raise e.
Proof.
  apply (extract_topic_needs_dates (one_review "1" "CD000001" "20170101 20171231") "1"
           _ (records_xml [record_xml "2" "102" "20170615";
                           Dom.Element "record" [("index", "3")]
                             [field "Unique Identifier" "103"]])
           (Dom.Element "record" [("index", "3")] [field "Unique Identifier" "103"])).
  - left.
  - right. left.
  - repeat constructor. by intros [=].
Defined.

(** ** Whitespace at the ends of a line *)

Lemma rstrip_app_space (sp : ascii -> bool) (s : string) (c : ascii) :
  sp c = true ->
  Py.rstrip sp (s +:+ String c EmptyString) = Py.rstrip sp s.
Proof.
  intros Hc. induction s as [|a s IH].
  - change (EmptyString +:+ String c EmptyString) with (String c EmptyString).
    cbn. by rewrite Hc.
  - change (Py.rstrip sp (String a (s +:+ String c EmptyString))
            = Py.rstrip sp (String a s)).
    cbn [Py.rstrip]. by rewrite IH.
Qed.

Lemma strip_with_app_space (sp : ascii -> bool) (s : string) (c : ascii) :
  sp c = true ->
  Py.strip_with sp (s +:+ String c EmptyString) = Py.strip_with sp s.
Proof.
  intros Hc. unfold Py.strip_with. induction s as [|a s IH].
  - change (EmptyString +:+ String c EmptyString) with (String c EmptyString).
    cbn. by rewrite Hc.
  - change (String a s +:+ String c EmptyString)
      with (String a (s +:+ String c EmptyString)).
    cbn [Py.lstrip]. destruct (sp a); [exact IH|].
    change (String a (s +:+ String c EmptyString))
      with (String a s +:+ String c EmptyString).
    by apply rstrip_app_space.
Qed.

Lemma rstrip_idempotent (sp : ascii -> bool) (s : string) :
  Py.rstrip sp (Py.rstrip sp s) = Py.rstrip sp s.
Proof.
  induction s as [|a s IH]; [done|]. cbn [Py.rstrip].
  destruct (Py.rstrip sp s) as [|b t] eqn:Hs.
  - destruct (sp a) eqn:Ha; [done|]. cbn. by rewrite Ha.
  - cbn [Py.rstrip] in IH |- *. by rewrite IH.
Qed.

Lemma lstrip_head (sp : ascii -> bool) (s : string) :
  Py.lstrip sp s = EmptyString
  \/ exists a r, Py.lstrip sp s = String a r /\ sp a = false.
Proof.
  induction s as [|a s IH]; [by left|]. cbn.
  destruct (sp a) eqn:Ha; [exact IH|]. right. by exists a, s.
Qed.

Lemma rstrip_head (sp : ascii -> bool) (a : ascii) (r : string) :
  sp a = false -> exists r', Py.rstrip sp (String a r) = String a r'.
Proof.
  intros Ha. cbn. destruct (Py.rstrip sp r); [|by eexists].
  rewrite Ha. by eexists.
Qed.

(** Stripping twice is stripping once. *)
Lemma strip_with_idempotent (sp : ascii -> bool) (s : string) :
  Py.strip_with sp (Py.strip_with sp s) = Py.strip_with sp s.
Proof.
  unfold Py.strip_with.
  destruct (lstrip_head sp s) as [->|(a & r & -> & Ha)]; [done|].
  destruct (rstrip_head sp a r Ha) as [r' Hr']. rewrite Hr'.
  cbn [Py.lstrip]. rewrite Ha, <- Hr'. apply rstrip_idempotent.
Qed.

Lemma first_occurrences_NoDup_id (l : list string) :
  NoDup l -> first_occurrences l = l.
Proof.
  induction 1 as [|x l Hx _ IH]; [done|]. cbn. rewrite IH. f_equal.
  clear IH. induction l as [|y l IH]; [done|].
  apply not_elem_of_cons in Hx as [Hne Hx].
  rewrite filter_cons_True by done. by rewrite IH.
Qed.

(** ** TREC-style Formatter: when a response file is formatted *)

Lemma get_tag_text_Ok root tagname :
  (exists text, get_tag_text root tagname = Ok text)
  <-> Dom.getElementsByTagName tagname root <> [].
Proof.
  unfold get_tag_text.
  destruct (Dom.getElementsByTagName tagname root); cbn.
  - split; [by intros [? ?]|done].
  - split; [done|by eexists].
Qed.

Lemma item0_raise {A : Type} (l : list A) e : Py.item0 l = Raise e -> e = IndexError.
Proof. destruct l; [by intros [= <-]|done]. Qed.

Lemma citation_cases r :
  match citation r with
  | Ok _ => complete r
  | Raise e => e = IndexError /\ ~ complete r
  end.
Proof.
  unfold citation, complete.
  destruct (Py.item0 (Dom.getElementsByTagName "MedlineCitation" r)) as [MC|e] eqn:HMC; cbn.
  2: { split; [by eapply item0_raise|]. by intros (? & ? & ? & _). }
  pose proof (get_tag_text_Ok MC "PMID") as Hpmid.
  destruct (get_tag_text MC "PMID") as [pid|e] eqn:Hpid; cbn.
  2: { split; [by eapply get_tag_text_raise|].
       intros (? & ? & [= <-] & Hne & _). apply Hpmid in Hne as [? ?]. done. }
  destruct (Py.item0 (Dom.getElementsByTagName "Article" MC)) as [Article|e] eqn:HA; cbn.
  2: { split; [by eapply item0_raise|].
       intros (? & ? & [= <-] & _ & ? & _). congruence. }
  pose proof (get_tag_text_Ok Article "ArticleTitle") as Htitle.
  destruct (get_tag_text Article "ArticleTitle") as [title|e] eqn:Ht; cbn.
  2: { split; [by eapply get_tag_text_raise|].
       intros (? & ? & [= <-] & _ & HA' & Hne). rewrite HA in HA'. injection HA' as <-.
       apply Htitle in Hne as [? ?]. done. }
  exists MC, Article. split_and!; try done.
  - apply Hpmid. by eexists.
  - apply Htitle. by eexists.
Qed.

(** A response file is formatted exactly when every citation in it has a
    [MedlineCitation] with a [PMID] and an [Article] with an
    [ArticleTitle]; the first citation that lacks one of them stops the run
    with [IndexError], and nothing else does: a missing abstract never
    stops it. *)
Theorem trec_format_file_succeeds (root : Dom.node) :
  ((exists out, trec_format_file root = Ok out)
   <-> Forall complete (Dom.getElementsByTagName "PubmedArticle" root))
  /\ (forall e, trec_format_file root = Raise e -> e = IndexError).
Proof.
  unfold trec_format_file.
  generalize (Dom.getElementsByTagName "PubmedArticle" root) as rs.
  generalize (([], []) : list string * list string) as st.
  intros st rs. revert st. induction rs as [|r rs IH]; intros [f console]; cbn [for_each].
  - split; [|done]. split; [constructor|by eexists].
  - rewrite Forall_cons. unfold format_citation at 2 4.
    pose proof (citation_cases r) as Hcase.
    destruct (citation r) as [[[[pid title] abstract] printed]|e]; cbn.
    + destruct (IH (f ++ trec_doc pid title abstract, console ++ printed)) as [Hok Hraise].
      split; [|exact Hraise]. rewrite Hok. split; [by intros ?; split|by intros [_ ?]].
    + destruct Hcase as [-> Hnot]. split; [|by intros ? [= <-]].
      split; [by intros [? ?]|by intros [? _]].
Qed.

(** ** Query Loader *)

(** A loop whose body computes a key and a value for an item and stores
    the value under the key. *)
Section for_each_insert.
Context {A V : Type}.
Variable body : gmap string V -> A -> result (gmap string V).
Variable f : A -> result (string * V).
Hypothesis body_f : forall m x, body m x = f x ≫= fun kv => Ok (<[kv.1 := kv.2]> m).

Lemma for_each_insert_Ok (xs : list A) (m m' : gmap string V) :
  for_each body xs m = Ok m'
  <-> exists kvs, Forall2 (fun x kv => f x = Ok kv) xs kvs /\ m' = write_all kvs m.
Proof.
  revert m. induction xs as [|x xs IH]; intros m; cbn [for_each].
  - split.
    + intros [= <-]. exists []. split; [constructor|done].
    + intros (kvs & Hkvs & ->). by inversion Hkvs; subst.
  - rewrite bind_Ok. split.
    + intros (m1 & Hstep & Hrest). rewrite body_f in Hstep.
      apply bind_Ok in Hstep as (kv & Hkv & [= <-]).
      apply IH in Hrest as (kvs & Hkvs & ->).
      exists (kv :: kvs). split; [by constructor|done].
    + intros (kvs & Hkvs & ->).
      inversion Hkvs as [|? kv ? kvs' Hkv Hkvs']; subst.
      exists (<[kv.1 := kv.2]> m). rewrite body_f, Hkv. split; [done|].
      apply IH. by exists kvs'.
Qed.

Lemma for_each_insert_raise (xs : list A) (m : gmap string V) (e : exn) :
  for_each body xs m = Raise e ->
  exists pre x post,
    xs = pre ++ x :: post /\ Forall (fun y => exists kv, f y = Ok kv) pre
    /\ f x = Raise e.
Proof.
  revert m. induction xs as [|x xs IH]; intros m; cbn [for_each]; [done|].
  rewrite body_f. destruct (f x) as [kv|e'] eqn:Hx; cbn.
  - intros (pre & x' & post & -> & Hpre & Hx')%IH.
    exists (x :: pre), x', post. split; [done|]. split; [|done].
    constructor; [by eexists|done].
  - intros [= <-]. by exists [], x, xs.
Qed.

Lemma for_each_insert_lookup (xs : list A) (m m' : gmap string V) (t : string) (v : V) :
  for_each body xs m = Ok m' ->
  m' !! t = Some v ->
  (exists pre x post,
      xs = pre ++ x :: post /\ f x = Ok (t, v)
      /\ Forall (fun y => forall v', f y <> Ok (t, v')) post)
  \/ (Forall (fun y => forall v', f y <> Ok (t, v')) xs /\ m !! t = Some v).
Proof.
  revert m. induction xs as [|x xs IH]; intros m; cbn [for_each].
  - intros [= <-] Hm. right. by split.
  - intros (m1 & Hstep & Hrest)%bind_Ok Hm'. rewrite body_f in Hstep.
    apply bind_Ok in Hstep as ([k v0] & Hv0 & [= <-]). cbn [fst snd] in *.
    destruct (IH _ Hrest Hm') as [(pre & y & post & -> & Hfy & Hpost)|[Hnone Hm1]].
    + left. by exists (x :: pre), y, post.
    + destruct (decide (k = t)) as [->|Hk].
      * rewrite lookup_insert_eq in Hm1. injection Hm1 as ->.
        left. by exists [], x, xs.
      * rewrite lookup_insert_ne in Hm1 by done. right. split; [|done].
        constructor; [|done]. intros v'. rewrite Hv0. congruence.
Qed.

Lemma for_each_insert_dom (xs : list A) (m m' : gmap string V) :
  for_each body xs m = Ok m' ->
  (size m' <= size m + length xs)%nat
  /\ (forall k, is_Some (m !! k) -> is_Some (m' !! k))
  /\ (forall x, x ∈ xs -> exists k v, f x = Ok (k, v) /\ is_Some (m' !! k)).
Proof.
  revert m. induction xs as [|x xs IH]; intros m; cbn [for_each].
  - intros [= <-]. split_and!; [lia|done|by intros x ?%elem_of_nil].
  - intros (m1 & Hstep & Hrest)%bind_Ok. rewrite body_f in Hstep.
    apply bind_Ok in Hstep as ([k v0] & Hv0 & [= <-]). cbn [fst snd] in *.
    destruct (IH _ Hrest) as (Hsize & Hkeep & Hdom). split_and!.
    + etrans; [exact Hsize|]. cbn [length].
      destruct (m !! k) eqn:Hk.
      * rewrite map_size_insert_Some by done. lia.
      * rewrite map_size_insert_None by done. lia.
    + intros k' Hk. apply Hkeep. rewrite lookup_insert. case_decide; [by eexists|done].
    + intros y [->|Hy]%elem_of_cons; [|by apply Hdom].
      exists k, v0. split; [done|]. apply Hkeep. rewrite lookup_insert_eq. by eexists.
Qed.

End for_each_insert.

(** What a directory holds after some files were written to it. *)
Lemma write_all_origin {V : Type} (bs : list (string * V)) (m : gmap string V)
    (k : string) (v : V) :
  write_all bs m !! k = Some v ->
  (exists pre post, bs = pre ++ (k, v) :: post /\ k ∉ post.*1)
  \/ ((k ∉ bs.*1) /\ m !! k = Some v).
Proof.
  revert m. induction bs as [|[k' v'] bs IH]; intros m; cbn.
  - intros Hm. right. split; [apply not_elem_of_nil|done].
  - fold (write_all bs (<[k':=v']> m)). intros Hk.
    destruct (IH _ Hk) as [(pre & post & -> & Hpost)|[Hnot Hm]].
    + left. by exists ((k', v') :: pre), post.
    + destruct (decide (k' = k)) as [->|Hne].
      * rewrite lookup_insert_eq in Hm. injection Hm as ->.
        left. by exists [], bs.
      * rewrite lookup_insert_ne in Hm by done. right.
        split; [|done]. by apply not_elem_of_cons.
Qed.

Lemma write_all_size {V : Type} (bs : list (string * V)) (m : gmap string V) :
  (size (write_all bs m) <= size m + length bs)%nat.
Proof.
  revert m. induction bs as [|[k v] bs IH]; intros m; cbn; [lia|].
  fold (write_all bs (<[k:=v]> m)). etrans; [apply IH|].
  destruct (m !! k) eqn:Hk.
  - rewrite map_size_insert_Some by done. lia.
  - rewrite map_size_insert_None by done. lia.
Qed.

Lemma range_2_53 :
  Py.range 2 53 1 = Ok ((fun k : nat => 2 + Z.of_nat k * 1) <$> seq 0 51).
Proof. reflexivity. Qed.

Lemma sheet_rows_elem (i : Z) :
  i ∈ ((fun k : nat => 2 + Z.of_nat k * 1) <$> seq 0 51) <-> 2 <= i <= 52.
Proof.
  rewrite list_elem_of_fmap. split.
  - intros (k & -> & Hk%elem_of_seq). lia.
  - intros Hi. exists (Z.to_nat (i - 2)). split; [lia|]. apply elem_of_seq. lia.
Qed.

(** The rows before and after a row of the sheet. *)
Lemma sheet_rows_split (pre post : list Z) (i : Z) :
  (fun k : nat => 2 + Z.of_nat k * 1) <$> seq 0 51 = pre ++ i :: post ->
  (forall j, j ∈ pre <-> 2 <= j < i) /\ (forall j, j ∈ post <-> i < j <= 52).
Proof.
  intros Hrows.
  assert (length (pre ++ i :: post) = 51%nat) as Hlen
    by (by rewrite <- Hrows, length_fmap, length_seq).
  rewrite length_app in Hlen. cbn in Hlen.
  assert (forall n : nat, (n < 51)%nat ->
            (pre ++ i :: post) !! n = Some (2 + Z.of_nat n * 1)) as Hlook.
  { intros n Hn. rewrite <- Hrows, list_lookup_fmap, lookup_seq_lt by done. done. }
  pose proof (Hlook (length pre) ltac:(lia)) as Hi.
  rewrite lookup_app_r, Nat.sub_diag in Hi by lia. injection Hi as Hi.
  split; intros j; rewrite list_elem_of_lookup; split.
  - intros [n Hn]. pose proof (lookup_lt_Some _ _ _ Hn) as Hlt.
    pose proof (Hlook n ltac:(lia)) as Hn'.
    rewrite lookup_app_l, Hn in Hn' by done. injection Hn' as ->. lia.
  - intros Hj. exists (Z.to_nat (j - 2)).
    pose proof (Hlook (Z.to_nat (j - 2)) ltac:(lia)) as Hn'.
    rewrite lookup_app_l in Hn' by lia. rewrite Hn'. f_equal. lia.
  - intros [n Hn]. pose proof (lookup_lt_Some _ _ _ Hn) as Hlt.
    pose proof (Hlook (length pre + S n)%nat ltac:(lia)) as Hn'.
    rewrite lookup_app_r in Hn' by lia.
    replace (length pre + S n - length pre)%nat with (S n) in Hn' by lia.
    change ((i :: post) !! S n) with (post !! n) in Hn'.
    rewrite Hn in Hn'. injection Hn' as ->. lia.
  - intros Hj. pose proof (Hlook (Z.to_nat (j - 2)) ltac:(lia)) as Hjl.
    rewrite lookup_app_r in Hjl by lia.
    destruct (Z.to_nat (j - 2) - length pre)%nat as [|n] eqn:Hn; [lia|].
    change ((i :: post) !! S n) with (post !! n) in Hjl.
    exists n. rewrite Hjl. f_equal. lia.
Qed.

Lemma read_sheet_row_entry int_text sheet (m : gmap string review) (i : Z) :
  read_sheet_row int_text sheet m i
  = sheet_entry int_text (sheet i) ≫= fun kv => Ok (<[kv.1 := kv.2]> m).
Proof.
  unfold read_sheet_row. by destruct (sheet_entry int_text (sheet i)) as [[k v]|e].
Qed.

Lemma cell_int_raise int_text value e :
  cell_int int_text value = Raise e -> e = TypeError \/ e = ValueError.
Proof.
  destruct value; cbn; try done; try (intros [= <-]; auto).
  destruct (int_text s); [done|]. intros [= <-]. auto.
Qed.

(** How the loader gets through a row. *)
Lemma sheet_entry_cases int_text row :
  (readable int_text row /\ exists kv, sheet_entry int_text row = Ok kv)
  \/ (~ readable int_text row
      /\ exists e, sheet_row_fails int_text row e /\ sheet_entry int_text row = Raise e).
Proof.
  unfold readable, sheet_row_fails, sheet_entry, is_text.
  destruct (cell_D row) as [|q| | | |] eqn:HD; cbn;
    try (right; split; [by intros [[? ?] _]|];
         exists AttributeError; split; [|done];
         left; split; [by intros [? ?]|done]).
  destruct (cell_int int_text (cell_A row)) as [n|e] eqn:HA; cbn.
  2: { right. split; [by intros (_ & [? ?] & _)|]. exists e. split; [|done].
       right. left. split; [by eexists|done]. }
  destruct (cell_B row) as [|link| | | |] eqn:HB; cbn;
    try (right; split; [by intros (_ & _ & (? & ? & ? & _) & _)|];
         exists TypeError; split; [|done];
         do 2 right; left; split_and!; [by eexists|by eexists|by intros [? ?]|done]).
  destruct (Py.findall_CD_0 link) as [doi|e] eqn:HC; cbn.
  2: { pose proof (findall_CD_0_raise _ _ HC) as ->. right.
       split; [intros (_ & _ & (? & ? & [= <-] & ?) & _); congruence|].
       exists IndexError. split; [|done].
       do 3 right. left. split_and!; [by eexists|by eexists|by eexists|done]. }
  destruct (cell_F row) as [|d| | | |] eqn:HF; cbn;
    try (right; split; [by intros (_ & _ & _ & [? ?])|];
         exists AttributeError; split; [|done];
         do 4 right; split_and!;
         [by eexists|by eexists|by eexists _, _|by intros [? ?]|done]).
  left. split; [|by eexists].
  split_and!; [by eexists|by eexists|by eexists _, _|by eexists].
Qed.

Lemma sheet_row_fails_exn int_text row e :
  sheet_row_fails int_text row e ->
  e = AttributeError \/ e = TypeError \/ e = ValueError \/ e = IndexError.
Proof.
  intros [[_ ->]|[[_ ?%cell_int_raise]|[(_ & _ & _ & ->)|[(_ & _ & _ & ->)|(_ & _ & _ & _ & ->)]]]];
    tauto.
Qed.

Lemma read_ovid_search_file_raise int_text sheet e :
  read_ovid_search_file int_text sheet = Raise e ->
  e = AttributeError \/ e = TypeError \/ e = ValueError \/ e = IndexError.
Proof.
  unfold read_ovid_search_file. rewrite range_2_53. cbn [mbind result_bind].
  intros Hrun.
  apply (for_each_insert_raise _ _ (read_sheet_row_entry int_text sheet))
    in Hrun as (_ & i & _ & _ & _ & Hraise).
  destruct (sheet_entry_cases int_text (sheet i))
    as [(_ & kv & Hkv)|(_ & e' & Hfail & He')]; [congruence|].
  rewrite Hraise in He'. injection He' as <-. by eapply sheet_row_fails_exn.
Qed.

(** The loader reads the rows 2 to 52 of the sheet and no other row.  It
    succeeds exactly when each of these rows has text in the columns D and
    F, a value with an integer value in column A and text with a review
    code in column B.  Otherwise it stops at the first row that is not so,
    with the exception of the first column of that row, in the order D, A,
    B, F, that is not so: [AttributeError] for D or F, [TypeError] or
    [ValueError] for A, [TypeError] or [IndexError] for B. *)
Theorem read_ovid_search_file_succeeds (int_text : string -> option Z)
    (sheet : Z -> sheet_row) :
  ((exists dict_review, read_ovid_search_file int_text sheet = Ok dict_review)
   <-> forall i, 2 <= i <= 52 -> readable int_text (sheet i))
  /\ (forall e,
        read_ovid_search_file int_text sheet = Raise e ->
        (e = AttributeError \/ e = TypeError \/ e = ValueError \/ e = IndexError)
        /\ exists i,
             2 <= i <= 52
             /\ (forall j, 2 <= j < i -> readable int_text (sheet j))
             /\ ~ readable int_text (sheet i)
             /\ sheet_row_fails int_text (sheet i) e)
  /\ (forall sheet',
        (forall i, 2 <= i <= 52 -> sheet' i = sheet i) ->
        read_ovid_search_file int_text sheet' = read_ovid_search_file int_text sheet).
Proof.
  split_and!.
  - unfold read_ovid_search_file. rewrite range_2_53. cbn [mbind result_bind].
    set (rows := (fun k : nat => 2 + Z.of_nat k * 1) <$> seq 0 51). split.
    + intros [d Hrun] i Hi%sheet_rows_elem.
      apply (for_each_insert_Ok _ _ (read_sheet_row_entry int_text sheet))
        in Hrun as (kvs & Hkvs & _).
      apply list_elem_of_lookup in Hi as [n Hn].
      destruct (Forall2_lookup_l _ _ _ _ _ Hkvs Hn) as (kv & _ & Hkv).
      destruct (sheet_entry_cases int_text (sheet i))
        as [(Hok & _)|(_ & e' & _ & He')]; [done|congruence].
    + intros Hall.
      destruct (for_each (read_sheet_row int_text sheet) rows ∅) as [d|e] eqn:Hrun;
        [by eexists|].
      apply (for_each_insert_raise _ _ (read_sheet_row_entry int_text sheet))
        in Hrun as (pre & i & post & Hrows & _ & Hraise).
      assert (2 <= i <= 52) as Hi
        by (apply sheet_rows_elem; fold rows; rewrite Hrows; apply elem_of_app; right; left).
      destruct (sheet_entry_cases int_text (sheet i))
        as [(_ & kv & Hkv)|(Hnot & _)]; [congruence|].
      by specialize (Hall i Hi).
  - intros e Hrun. split; [by eapply read_ovid_search_file_raise|].
    unfold read_ovid_search_file in Hrun. rewrite range_2_53 in Hrun.
    cbn [mbind result_bind] in Hrun.
    apply (for_each_insert_raise _ _ (read_sheet_row_entry int_text sheet))
      in Hrun as (pre & i & post & Hrows & Hpre & Hraise).
    destruct (sheet_rows_split _ _ _ Hrows) as [Hbefore _].
    exists i. split; [|split; [|split]].
    + apply sheet_rows_elem. rewrite Hrows. apply elem_of_app. right. left.
    + intros j Hj%Hbefore. rewrite Forall_forall in Hpre.
      destruct (Hpre j Hj) as [kv Hkv].
      destruct (sheet_entry_cases int_text (sheet j))
        as [(Hok & _)|(_ & e' & _ & He')]; [done|congruence].
    + destruct (sheet_entry_cases int_text (sheet i))
        as [(_ & kv & Hkv)|(Hnot & _)]; [congruence|done].
    + destruct (sheet_entry_cases int_text (sheet i))
        as [(_ & kv & Hkv)|(_ & e' & Hfail & He')]; [congruence|].
      rewrite Hraise in He'. by injection He' as <-.
  - intros sheet' Hsame.
    unfold read_ovid_search_file. rewrite range_2_53. cbn [mbind result_bind].
    set (rows := (fun k : nat => 2 + Z.of_nat k * 1) <$> seq 0 51).
    assert (forall i, i ∈ rows -> sheet' i = sheet i) as Hrows
      by (intros i Hi%sheet_rows_elem; by apply Hsame).
    clearbody rows. generalize (∅ : gmap string review) as d.
    induction rows as [|i rows IH]; intros d; [done|]. cbn [for_each].
    assert (read_sheet_row int_text sheet' d i = read_sheet_row int_text sheet d i) as ->
      by (unfold read_sheet_row; by rewrite (Hrows i) by left).
    destruct (read_sheet_row int_text sheet d i); cbn; [|done].
    apply IH. intros j Hj. apply Hrows. by right.
Qed.

(** The metadata the loader returns has at most 51 topics and an entry for
    the topic id of every row from 2 to 52; each entry is what the loader
    computes from a row with that topic id, and when several rows carry the
    same topic id, from the last of them. *)
Theorem read_ovid_search_file_entries (int_text : string -> option Z)
    (sheet : Z -> sheet_row) (dict_review : gmap string review) :
  read_ovid_search_file int_text sheet = Ok dict_review ->
  (size dict_review <= 51)%nat
  /\ (forall i, 2 <= i <= 52 ->
        exists topic_id rv,
          sheet_entry int_text (sheet i) = Ok (topic_id, rv)
          /\ is_Some (dict_review !! topic_id))
  /\ (forall topic_id rv,
        dict_review !! topic_id = Some rv ->
        exists i,
          2 <= i <= 52
          /\ sheet_entry int_text (sheet i) = Ok (topic_id, rv)
          /\ forall j rv', i < j <= 52 ->
               sheet_entry int_text (sheet j) <> Ok (topic_id, rv')).
Proof.
  unfold read_ovid_search_file. rewrite range_2_53. cbn [mbind result_bind].
  intros Hrun.
  destruct (for_each_insert_dom _ _ (read_sheet_row_entry int_text sheet) _ _ _ Hrun)
    as (Hsize & _ & Hdom).
  split_and!.
  - rewrite length_fmap, length_seq, map_size_empty in Hsize. lia.
  - intros i Hi%sheet_rows_elem. by apply (Hdom i).
  - intros topic_id rv Hrv.
    destruct (for_each_insert_lookup _ _ (read_sheet_row_entry int_text sheet)
                _ _ _ _ _ Hrun Hrv)
      as [(pre & i & post & Hrows & Hentry & Hpost)|[_ Hempty]];
      [|by rewrite lookup_empty in Hempty].
    assert (2 <= i <= 52) as Hi
      by (apply sheet_rows_elem; rewrite Hrows; apply elem_of_app; right; left).
    exists i. split; [exact Hi|]. split; [exact Hentry|].
    intros j rv' Hj. rewrite Forall_forall in Hpost.
    apply (Hpost j). by apply (sheet_rows_split _ _ _ Hrows).
Qed.

Lemma read_ovid_search_file_entries_witness :
  (size ({[ "1" := mk_review "CD000001" "CD000001" "q" "d" ]} : gmap string review)
   <= 51)%nat.
Proof.
  apply (read_ovid_search_file_entries no_int_text
           (fun _ => mk_sheet_row (Num 1) (Str " CD000001") (Str (" q" +:+ nl)) (Str "d "))).
  vm_compute. reflexivity.
Defined.

(** *** Strings: appending, splitting, joining *)

Lemma append_cons (a : ascii) (s t : string) : String a s +:+ t = String a (s +:+ t).
Proof. reflexivity. Qed.

Lemma append_nil_l (t : string) : EmptyString +:+ t = t.
Proof. reflexivity. Qed.

Lemma append_nil_r (s : string) : s +:+ EmptyString = s.
Proof. induction s as [|a s IH]; [done|]. by rewrite append_cons, IH. Qed.

Lemma append_assoc (s t u : string) : (s +:+ t) +:+ u = s +:+ (t +:+ u).
Proof. induction s as [|a s IH]; [done|]. by rewrite !append_cons, IH. Qed.

Lemma without_app (c : ascii) (s t : string) :
  without c (s +:+ t) <-> without c s /\ without c t.
Proof.
  induction s as [|a s IH].
  - rewrite append_nil_l. cbn. tauto.
  - rewrite append_cons. cbn. rewrite IH. tauto.
Qed.

Lemma split_from_without (c : ascii) (cur s : string) :
  without c cur -> Forall (without c) (split_from c cur s).
Proof.
  revert cur. induction s as [|a s IH]; intros cur Hcur; cbn.
  - by constructor.
  - case_decide.
    + constructor; [done|]. by apply IH.
    + apply IH, without_app. by split.
Qed.

Lemma split_from_app (c : ascii) (cur x s : string) :
  without c x -> split_from c cur (x +:+ s) = split_from c (cur +:+ x) s.
Proof.
  revert cur. induction x as [|a x IH]; intros cur Hx.
  - by rewrite append_nil_l, append_nil_r.
  - destruct Hx as [Ha Hx]. rewrite append_cons. cbn.
    rewrite decide_False by done. rewrite IH by done.
    by rewrite append_assoc.
Qed.

Lemma join_cons (sep x y : string) (l : list string) :
  Py.join sep (x :: y :: l) = x +:+ (sep +:+ Py.join sep (y :: l)).
Proof. reflexivity. Qed.

(** Splitting what was joined gives the pieces back, when no piece holds
    the separator. *)
Lemma str_split_join (c : ascii) (ls : list string) :
  ls <> [] -> Forall (without c) ls ->
  str_split c (Py.join (String c EmptyString) ls) = ls.
Proof.
  intros Hne Hls. unfold str_split.
  induction Hls as [|x ls Hx Hls IH]; [done|]. clear Hne.
  destruct ls as [|y ls].
  - cbn [Py.join String.concat].
    rewrite <- (append_nil_r x), split_from_app by done.
    by rewrite append_nil_l, append_nil_r.
  - rewrite join_cons, split_from_app by done.
    rewrite append_cons, append_nil_l. cbn [split_from].
    rewrite decide_True by done. rewrite append_nil_l. f_equal. by apply IH.
Qed.

Lemma lstrip_without (sp : ascii -> bool) (c : ascii) (s : string) :
  without c s -> without c (Py.lstrip sp s).
Proof.
  induction s as [|a s IH]; [done|]. cbn. intros [Ha Hs].
  destruct (sp a); [by apply IH|by split].
Qed.

Lemma rstrip_without (sp : ascii -> bool) (c : ascii) (s : string) :
  without c s -> without c (Py.rstrip sp s).
Proof.
  induction s as [|a s IH]; [done|]. cbn. intros [Ha Hs].
  specialize (IH Hs). destruct (Py.rstrip sp s).
  - by destruct (sp a).
  - by split.
Qed.

(** A string that stripping leaves alone and that is not empty starts with
    a character that is no whitespace, and trailing whitespace is all that
    [rstrip] could remove from it. *)
Lemma stripped_head (sp : ascii -> bool) (s : string) :
  s <> EmptyString -> Py.strip_with sp s = s ->
  (exists a r, s = String a r /\ sp a = false) /\ Py.rstrip sp s = s.
Proof.
  unfold Py.strip_with. intros Hne Hs.
  destruct (lstrip_head sp s) as [Hl|(a & r & Hl & Ha)].
  - rewrite Hl in Hs. cbn in Hs. congruence.
  - destruct (rstrip_head sp a r Ha) as [r' Hr'].
    rewrite Hl, Hr' in Hs. subst s.
    assert (Py.lstrip sp (String a r') = String a r') as Hfix by (cbn; by rewrite Ha).
    rewrite Hfix in Hl. injection Hl as <-.
    split; [by exists a, r'|done].
Qed.

Lemma rstrip_fixed_app (sp : ascii -> bool) (s t : string) :
  t <> EmptyString -> Py.rstrip sp t = t -> Py.rstrip sp (s +:+ t) = s +:+ t.
Proof.
  intros Hne Ht. induction s as [|a s IH].
  - by rewrite append_nil_l.
  - rewrite append_cons. cbn [Py.rstrip]. rewrite IH.
    destruct (s +:+ t) eqn:Hst; [|done].
    destruct s; [|done]. rewrite append_nil_l in Hst. congruence.
Qed.

(** Joining lines that are stripped and not blank gives a text that
    stripping leaves alone. *)
Lemma strip_join_stripped (sp : ascii -> bool) (sep : string) (ls : list string) :
  ls <> [] ->
  Forall (fun l => l <> EmptyString /\ Py.strip_with sp l = l) ls ->
  Py.join sep ls <> EmptyString
  /\ Py.strip_with sp (Py.join sep ls) = Py.join sep ls.
Proof.
  intros Hne Hls.
  assert (Py.join sep ls <> EmptyString
          /\ (exists a r, Py.join sep ls = String a r /\ sp a = false)
          /\ Py.rstrip sp (Py.join sep ls) = Py.join sep ls) as (Hj & (a & r & Hhd & Ha) & Hr).
  { induction Hls as [|x ls [Hx Hsx] Hls IH]; [done|]. clear Hne.
    destruct (stripped_head sp x Hx Hsx) as [(a & r & -> & Ha) Hrx].
    destruct ls as [|y ls].
    - cbn [Py.join String.concat]. split_and!; [done|by exists a, r|done].
    - destruct IH as (Hj & _ & Hr); [done|].
      rewrite join_cons. split_and!.
      + by rewrite append_cons.
      + rewrite append_cons. by eexists _, _.
      + rewrite <- append_assoc. by apply rstrip_fixed_app. }
  split; [done|]. unfold Py.strip_with. rewrite Hhd. cbn [Py.lstrip].
  rewrite Ha, <- Hhd. exact Hr.
Qed.

(** *** What the loader stores *)

Lemma findall_CD_0_form s m :
  Py.findall_CD_0 s = Ok m ->
  exists s', m = String "C" (String "D" (Py.digits_prefix s'))
             /\ Py.digits_prefix s' <> EmptyString.
Proof.
  induction s as [|a s IH]; [done|].
  change (Py.findall_CD_0 (String a s))
    with (match Py.match_CD (String a s) with
          | Some m => Ok m
          | None => Py.findall_CD_0 s
          end).
  destruct (Py.match_CD (String a s)) as [m'|] eqn:Hm; [|exact IH].
  intros [= <-]. unfold Py.match_CD in Hm.
  repeat (case_match; simplify_eq; try done).
  match goal with H : Py.digits_prefix ?s0 = String ?b ?t |- _ =>
    exists s0; rewrite H; split; [reflexivity|done] end.
Qed.

Lemma digits_prefix_idempotent s :
  Py.digits_prefix (Py.digits_prefix s) = Py.digits_prefix s.
Proof.
  induction s as [|a s IH]; [done|]. cbn.
  destruct (Py.is_digit a) eqn:Ha; [|done]. cbn. by rewrite Ha, IH.
Qed.

Lemma is_digit_not_uspace a : Py.is_digit a = true -> Py.uisspace a = false.
Proof.
  unfold Py.is_digit, Py.digit, Py.uisspace.
  destruct ((48 <=? Py.ord a) && (Py.ord a <=? 57)) eqn:Hd; [|done].
  intros _. apply andb_true_iff in Hd as [H1 H2].
  apply Z.leb_le in H1, H2.
  repeat (apply orb_false_iff; split);
    try (apply andb_false_iff; right; apply Z.leb_gt; lia);
    apply Z.eqb_neq; lia.
Qed.

Lemma rstrip_digits_prefix_u s :
  Py.rstrip Py.uisspace (Py.digits_prefix s) = Py.digits_prefix s.
Proof.
  induction s as [|a s IH]; cbn; [done|].
  destruct (Py.is_digit a) eqn:Ha; [|done].
  cbn. rewrite IH, (is_digit_not_uspace a Ha).
  by destruct (Py.digits_prefix s).
Qed.

(** A review code is found in itself and has nothing to strip. *)
Lemma findall_CD_0_code s m :
  Py.findall_CD_0 s = Ok m ->
  Py.findall_CD_0 m = Ok m /\ Py.ustrip m = m.
Proof.
  intros (s' & -> & Hne)%findall_CD_0_form. split.
  - change (Py.findall_CD_0 (String "C" (String "D" (Py.digits_prefix s'))))
      with (match
               match Py.digits_prefix (Py.digits_prefix s') with
               | EmptyString => None
               | ds => Some ("CD" +:+ ds)
               end
             with
             | Some m => Ok m
             | None => Py.findall_CD_0 (String "D" (Py.digits_prefix s'))
             end).
    rewrite digits_prefix_idempotent. by destruct (Py.digits_prefix s').
  - change (Py.ustrip (String "C" (String "D" (Py.digits_prefix s'))))
      with (match
               match Py.rstrip Py.uisspace (Py.digits_prefix s') with
               | EmptyString => String "D" EmptyString
               | t => String "D" t
               end
             with
             | EmptyString => String "C" EmptyString
             | t => String "C" t
             end).
    rewrite rstrip_digits_prefix_u. by destruct (Py.digits_prefix s').
Qed.

Lemma query_lines_stripped (ori_query : string) :
  Forall (fun line => stripped_line line /\ without "010" line) (query_lines ori_query).
Proof.
  unfold query_lines. apply Forall_fmap, Forall_forall.
  intros line [Hblank Hin]%list_elem_of_filter. cbn. split; [split|].
  - done.
  - apply strip_with_idempotent.
  - apply rstrip_without, lstrip_without.
    pose proof (split_from_without "010" EmptyString ori_query I) as Hall.
    rewrite Forall_forall in Hall. by apply Hall.
Qed.

(** What the loader stores for a row is in normal form.  The review code is
    a code CD<digits> in which the same code is found again (the form of
    the keys of the relevance table); url and date range have no
    surrounding whitespace; and the lines of the stored query are the lines
    of the cell that are not blank, each without surrounding whitespace, in
    their order: the stored query has no blank line, and it is empty when
    the cell has only blank lines. *)
Theorem sheet_entry_normal (int_text : string -> option Z) (row : sheet_row)
    (topic_id : string) (rv : review) :
  sheet_entry int_text row = Ok (topic_id, rv) ->
  exists link ori_query date_limit n,
    cell_B row = Str link /\ cell_D row = Str ori_query /\ cell_F row = Str date_limit
    /\ cell_int int_text (cell_A row) = Ok n /\ topic_id = pretty n
    /\ Py.findall_CD_0 link = Ok (review_doi rv)
    /\ Py.findall_CD_0 (review_doi rv) = Ok (review_doi rv)
    /\ url rv = Py.ustrip link /\ Py.ustrip (url rv) = url rv
    /\ date rv = Py.ustrip date_limit /\ Py.ustrip (date rv) = date rv
    /\ Forall stripped_line (query_lines (Py.ustrip ori_query))
    /\ (query_lines (Py.ustrip ori_query) = [] -> query rv = EmptyString)
    /\ (query_lines (Py.ustrip ori_query) <> [] ->
        str_split "010" (query rv) = query_lines (Py.ustrip ori_query)).
Proof.
  unfold sheet_entry.
  destruct (cell_D row) as [|ori_query| | | |]; try done. cbn.
  intros (n & Hn & Hrest)%bind_Ok.
  destruct (cell_B row) as [|link| | | |]; try done. cbn in Hrest.
  apply bind_Ok in Hrest as (doi & Hdoi & Hrest).
  destruct (cell_F row) as [|date_limit| | | |]; try done. cbn in Hrest.
  injection Hrest as <- <-. cbn.
  exists link, ori_query, date_limit, n.
  destruct (findall_CD_0_code _ _ Hdoi) as [Hcode Hstrip].
  pose proof (query_lines_stripped (Py.ustrip ori_query)) as Hlines.
  rewrite Hstrip. split_and!; try done.
  - apply strip_with_idempotent.
  - apply strip_with_idempotent.
  - eapply Forall_impl; [exact Hlines|]. by intros line [? _].
  - by intros ->.
  - intros Hne.
    destruct (strip_join_stripped Py.uisspace nl (query_lines (Py.ustrip ori_query)) Hne)
      as [_ Hfix].
    { eapply Forall_impl; [exact Hlines|]. by intros line [[? ?] _]. }
    unfold Py.ustrip at 1. rewrite Hfix. apply str_split_join; [done|].
    eapply Forall_impl; [exact Hlines|]. by intros line [_ ?].
Qed.

Lemma sheet_entry_normal_witness :
  exists link ori_query date_limit n,
    Str "http://x/doi/10.1002/14651858.CD008686.pub2/full" = Str link
    /\ Str ("  1 exp a/" +:+ nl +:+ " " +:+ nl +:+ "   2 b or c  " +:+ nl) = Str ori_query
    /\ Str "19460101 to 20150803" = Str date_limit
    /\ cell_int no_int_text (Float (15 # 2)) = Ok n /\ "7" = pretty n
    /\ Py.findall_CD_0 link = Ok "CD008686"
    /\ Py.findall_CD_0 "CD008686" = Ok "CD008686"
    /\ "http://x/doi/10.1002/14651858.CD008686.pub2/full" = Py.ustrip link
    /\ Py.ustrip "http://x/doi/10.1002/14651858.CD008686.pub2/full"
       = "http://x/doi/10.1002/14651858.CD008686.pub2/full"
    /\ "19460101 to 20150803" = Py.ustrip date_limit
    /\ Py.ustrip "19460101 to 20150803" = "19460101 to 20150803"
    /\ Forall stripped_line (query_lines (Py.ustrip ori_query))
    /\ (query_lines (Py.ustrip ori_query) = [] ->
        "1 exp a/" +:+ nl +:+ "2 b or c" = EmptyString)
    /\ (query_lines (Py.ustrip ori_query) <> [] ->
        str_split "010" ("1 exp a/" +:+ nl +:+ "2 b or c")
        = query_lines (Py.ustrip ori_query)).
Proof.
  apply (sheet_entry_normal no_int_text
           (mk_sheet_row (Float (15 # 2))
              (Str "http://x/doi/10.1002/14651858.CD008686.pub2/full")
              (Str ("  1 exp a/" +:+ nl +:+ " " +:+ nl +:+ "   2 b or c  " +:+ nl))
              (Str "19460101 to 20150803"))
           "7"
           (mk_review "CD008686" "http://x/doi/10.1002/14651858.CD008686.pub2/full"
              ("1 exp a/" +:+ nl +:+ "2 b or c") "19460101 to 20150803")).
  reflexivity.
Defined.

(** ** Dates written as eight digits *)

Lemma digits_prefix_fixed_cons a s :
  Py.digits_prefix (String a s) = String a s ->
  (exists x, Py.digit a = Some x /\ 0 <= x <= 9) /\ Py.digits_prefix s = s.
Proof.
  cbn. unfold Py.is_digit, Py.digit.
  destruct ((48 <=? Py.ord a) && (Py.ord a <=? 57)) eqn:Hd; [|done].
  intros [= Hs]. split; [|done].
  apply andb_true_iff in Hd as [H1 H2]. apply Z.leb_le in H1, H2.
  eexists. split; [done|lia].
Qed.

Lemma digit_in_Some (lo hi : Z) (a : ascii) (x : Z) :
  Datetime.digit_in lo hi a = Some x -> Py.digit a = Some x.
Proof.
  unfold Datetime.digit_in. destruct (Py.digit a) as [y|]; [|done].
  by destruct ((lo <=? y) && (y <=? hi)).
Qed.

Lemma two_elem (lo1 hi1 lo2 hi2 : Z) (s : string) (v : Z) (r : string) :
  (v, r) ∈ Datetime.two (Datetime.digit_in lo1 hi1) (Datetime.digit_in lo2 hi2) s ->
  exists a b x y,
    s = String a (String b r) /\ Py.digit a = Some x /\ Py.digit b = Some y
    /\ v = 10 * x + y.
Proof.
  unfold Datetime.two. destruct s as [|a [|b r']]; try by intros ?%elem_of_nil.
  destruct (Datetime.digit_in lo1 hi1 a) as [x|] eqn:Hx; [|by intros ?%elem_of_nil].
  destruct (Datetime.digit_in lo2 hi2 b) as [y|] eqn:Hy; [|by intros ?%elem_of_nil].
  intros [= -> ->]%list_elem_of_singleton.
  exists a, b, x, y. split_and!; [done|by eapply digit_in_Some..|done].
Qed.

Lemma one_elem (lo hi : Z) (s : string) (v : Z) (r : string) :
  (v, r) ∈ Datetime.one (Datetime.digit_in lo hi) s ->
  exists a, s = String a r /\ Py.digit a = Some v.
Proof.
  unfold Datetime.one. destruct s as [|a r']; [by intros ?%elem_of_nil|].
  destruct (Datetime.digit_in lo hi a) as [x|] eqn:Hx; [|by intros ?%elem_of_nil].
  intros [= -> ->]%list_elem_of_singleton.
  exists a. split; [done|by eapply digit_in_Some].
Qed.

Lemma space_one_elem (lo hi : Z) (s : string) (v : Z) (r : string) :
  (v, r) ∈ Datetime.space_one (Datetime.digit_in lo hi) s ->
  exists b, s = String " " (String b r).
Proof.
  unfold Datetime.space_one.
  destruct s as [|a r']; [by intros ?%elem_of_nil|].
  destruct (decide (a = " "%char)) as [->|Hne].
  - intros (b & -> & _)%one_elem. by exists b.
  - destruct a as [[] [] [] [] [] [] [] []]; try (by intros ?%elem_of_nil); done.
Qed.

(** What [%m] and [%d] read from the head of a string, and what they leave. *)
Lemma directive_m_elem (s : string) (m : Z) (r : string) :
  (m, r) ∈ Datetime.directive_m s ->
  (exists a b x y, s = String a (String b r) /\ Py.digit a = Some x
                   /\ Py.digit b = Some y /\ m = 10 * x + y)
  \/ (exists a, s = String a r /\ Py.digit a = Some m).
Proof.
  unfold Datetime.directive_m. rewrite !elem_of_app.
  intros [H|[H|H]]; [left; by eapply two_elem..|right; by eapply one_elem].
Qed.

Lemma directive_d_elem (s : string) (d : Z) (r : string) :
  (d, r) ∈ Datetime.directive_d s ->
  (exists a b x y, s = String a (String b r) /\ Py.digit a = Some x
                   /\ Py.digit b = Some y /\ d = 10 * x + y)
  \/ (exists a, s = String a r /\ Py.digit a = Some d)
  \/ (exists b, s = String " " (String b r)).
Proof.
  unfold Datetime.directive_d. rewrite !elem_of_app.
  intros [H|[H|[H|[H|H]]]];
    [left; by eapply two_elem..|right; left; by eapply one_elem
    |right; right; by eapply space_one_elem].
Qed.

(** A date written as eight digits is read as the year of the first four,
    the month of the next two and the day of the last two: the number the
    digits spell is the date's stamp.  So on such dates the comparison the
    filter makes is the comparison of the numbers. *)
Theorem strptime_Ymd_number (s1 s2 : string) (d1 d2 : Datetime.datetime) :
  String.length s1 = 8%nat -> Py.digits_prefix s1 = s1 ->
  String.length s2 = 8%nat -> Py.digits_prefix s2 = s2 ->
  Datetime.strptime_Ymd s1 = Ok d1 ->
  Datetime.strptime_Ymd s2 = Ok d2 ->
  date_stamp d1 = Py.int s1
  /\ date_stamp d2 = Py.int s2
  /\ (Datetime.ltb d1 d2 = true <-> Py.int s1 < Py.int s2).
Proof.
  assert (forall s d,
             String.length s = 8%nat -> Py.digits_prefix s = s ->
             Datetime.strptime_Ymd s = Ok d -> date_stamp d = Py.int s) as Hnum.
  { intros s d Hlen Hdig Hparse.
    do 8 (destruct s as [|? s]; [done|]). destruct s; [|done]. clear Hlen.
    repeat match goal with
           | H : Py.digits_prefix (String ?c _) = _ |- _ =>
               apply digits_prefix_fixed_cons in H as [(? & ? & ?) H]
           end.
    clear Hdig. unfold Datetime.strptime_Ymd in Hparse.
    destruct (Datetime.matches_Ymd _) as [|[[[y m] dd] rest] others] eqn:Hm; [done|].
    destruct rest; [|done].
    destruct (Datetime.valid y m dd); [|done]. injection Hparse as <-.
    assert ((y, m, dd, EmptyString) ∈ (y, m, dd, EmptyString) :: others) as Hin by left.
    rewrite <- Hm in Hin. unfold Datetime.matches_Ymd in Hin.
    apply list_elem_of_bind in Hin as ([y' r1] & Hin & HY).
    apply list_elem_of_bind in Hin as ([m' r2] & Hin & HM).
    apply list_elem_of_bind in Hin as ([dd' r3] & Hin & HD).
    apply list_elem_of_singleton in Hin. simplify_eq.
    unfold Datetime.directive_Y in HY.
    repeat match goal with
           | H : Py.digit ?c = Some ?x |- _ => rewrite H in HY
           end.
    apply list_elem_of_singleton in HY. injection HY as -> ->.
    unfold Py.int, Py.int_from, date_stamp.
    repeat match goal with
           | H : Py.digit ?c = Some ?x |- _ => rewrite !H
           end.
    cbn [default Datetime.year Datetime.month Datetime.day].
    apply directive_m_elem in HM as [(ca & cb & xa & xb & Heq & Ha & Hb & ->)
                                    |(ca & Heq & Ha)]; simplify_eq.
    - apply directive_d_elem in HD as [(cc & cd & xc & xd & Heq & Hc & Hd & ->)
                                      |[(cc & Heq & _)|(cd & Heq)]]; simplify_eq.
      unfold id. lia.
    - apply directive_d_elem in HD as [(cc & cd & xc & xd & Heq & _)
                                      |[(cc & Heq & _)|(cd & Heq)]]; simplify_eq. }
  intros Hl1 Hd1 Hl2 Hd2 Hp1 Hp2.
  pose proof (Hnum _ _ Hl1 Hd1 Hp1) as H1. pose proof (Hnum _ _ Hl2 Hd2 Hp2) as H2.
  split; [done|]. split; [done|].
  rewrite ltb_date_lt, <- H1, <- H2.
  apply date_lt_stamp; by eapply strptime_Ymd_valid.
Qed.

Lemma strptime_Ymd_number_witness :
  date_stamp (Datetime.mk_datetime 2017 6 15) = Py.int "20170615"
  /\ date_stamp (Datetime.mk_datetime 2017 12 31) = Py.int "20171231"
  /\ (Datetime.ltb (Datetime.mk_datetime 2017 6 15) (Datetime.mk_datetime 2017 12 31)
      = true <-> Py.int "20170615" < Py.int "20171231").
Proof.
  apply (strptime_Ymd_number "20170615" "20171231"); reflexivity.
Defined.

(** ** Files written and read back *)

Lemma concat_empty_cons (x : string) (l : list string) :
  String.concat EmptyString (x :: l) = x +:+ String.concat EmptyString l.
Proof. destruct l; [by rewrite append_nil_r|reflexivity]. Qed.

Lemma one_line_app (s t : string) : one_line (s +:+ t) <-> one_line s /\ one_line t.
Proof.
  induction s as [|a s IH].
  - rewrite append_nil_l. cbn. tauto.
  - rewrite append_cons. cbn. rewrite IH. tauto.
Qed.

Lemma lstrip_one_line (sp : ascii -> bool) (s : string) :
  one_line s -> one_line (Py.lstrip sp s).
Proof.
  induction s as [|a s IH]; [done|]. cbn. intros [Ha Hs].
  destruct (sp a); [by apply IH|by split].
Qed.

Lemma rstrip_one_line (sp : ascii -> bool) (s : string) :
  one_line s -> one_line (Py.rstrip sp s).
Proof.
  induction s as [|a s IH]; [done|]. cbn. intros [Ha Hs].
  specialize (IH Hs). destruct (Py.rstrip sp s).
  - by destruct (sp a).
  - by split.
Qed.

(** A text without a line end, followed by a line feed, is read as one
    line. *)
Lemma splitlines_from_line (cur body rest : string) :
  one_line body ->
  Py.splitlines_from cur (body +:+ nl +:+ rest)
  = (cur +:+ body +:+ nl) :: Py.splitlines_from EmptyString rest.
Proof.
  revert cur. induction body as [|a body IH]; intros cur.
  - intros _. rewrite !append_nil_l. by destruct rest.
  - intros [Ha Hbody]. rewrite !append_cons. cbn [Py.splitlines_from].
    rewrite Ha. cbn [andb]. rewrite IH by done.
    by rewrite append_assoc.
Qed.

(** What is written line by line is read line by line. *)
Lemma file_lines_written (bodies : list string) :
  Forall one_line bodies ->
  file_lines ((fun body => body +:+ nl) <$> bodies) = (fun body => body +:+ nl) <$> bodies.
Proof.
  unfold file_lines, Py.splitlines.
  induction 1 as [|body bodies Hbody _ IH]; [done|].
  cbn [fmap list_fmap]. rewrite concat_empty_cons, append_assoc.
  rewrite splitlines_from_line by done. by rewrite IH.
Qed.

(** Reading back the file the Extractor writes for a topic, when no
    identifier has a line end in it: the file has one line for each
    identifier written, and the list read from it has the identifiers with
    surrounding whitespace removed and duplicates dropped, first occurrence
    first.  Writing that list to a file and reading it again gives the same
    list. *)
Theorem read_pids_pid_lines (uis f : list string) :
  write_pids uis = Ok f ->
  Forall one_line uis ->
  file_lines f = pid_lines uis
  /\ read_pids (file_lines f) = first_occurrences (Py.ustrip <$> uis)
  /\ (forall f',
        write_pids (read_pids (file_lines f)) = Ok f' ->
        read_pids (file_lines f') = read_pids (file_lines f)).
Proof.
  assert (forall uis, read_pids (pid_lines uis) = first_occurrences (Py.ustrip <$> uis))
    as Hread.
  { intros l. rewrite read_pids_first_occurrences. f_equal.
    unfold pid_lines. rewrite <- list_fmap_compose. apply list_fmap_ext.
    intros _ ui _. cbn. by apply strip_with_app_space. }
  intros [_ ->]%write_pids_Ok Hlines.
  assert (file_lines (pid_lines uis) = pid_lines uis) as Hfile
    by (by apply file_lines_written).
  rewrite Hfile, Hread. split_and!; [done..|].
  intros f' [_ ->]%write_pids_Ok.
  rewrite (file_lines_written (first_occurrences (Py.ustrip <$> uis))).
  - fold (pid_lines (first_occurrences (Py.ustrip <$> uis))). rewrite Hread.
    assert (Py.ustrip <$> first_occurrences (Py.ustrip <$> uis)
            = first_occurrences (Py.ustrip <$> uis)) as ->.
    { rewrite <- (list_fmap_id (first_occurrences (Py.ustrip <$> uis))) at 2.
      apply list_fmap_ext. intros _ x Hx%list_elem_of_lookup_2. cbn.
      apply first_occurrences_elem, list_elem_of_fmap in Hx as (l & -> & _).
      apply strip_with_idempotent. }
    apply first_occurrences_NoDup_id, first_occurrences_NoDup.
  - apply Forall_forall. intros x Hx.
    apply (proj1 (first_occurrences_elem _ _)), list_elem_of_fmap in Hx
      as (ui & -> & Hui).
    rewrite Forall_forall in Hlines.
    apply rstrip_one_line, lstrip_one_line. by apply Hlines.
Qed.

Lemma read_pids_pid_lines_witness :
  file_lines [" 12" +:+ nl; "7" +:+ nl; "12 " +:+ nl] = pid_lines [" 12"; "7"; "12 "]
  /\ read_pids (file_lines [" 12" +:+ nl; "7" +:+ nl; "12 " +:+ nl])
     = first_occurrences (Py.ustrip <$> [" 12"; "7"; "12 "])
  /\ (forall f',
        write_pids (read_pids (file_lines [" 12" +:+ nl; "7" +:+ nl; "12 " +:+ nl]))
        = Ok f' ->
        read_pids (file_lines f')
        = read_pids (file_lines [" 12" +:+ nl; "7" +:+ nl; "12 " +:+ nl])).
Proof.
  apply (read_pids_pid_lines [" 12"; "7"; "12 "]).
  - reflexivity.
  - repeat constructor.
Defined.

(** ** The file of titles *)

Lemma prefix_bars (a : ascii) (s : string) :
  a <> "|"%char -> String.prefix "|||" (String a s) = false.
Proof. intros Ha. cbn [String.prefix]. by destruct (ascii_dec "|" a). Qed.

Lemma split_by_from_without (cur s : string) :
  without "|" s -> split_by_from "|||" 0 cur s = [cur +:+ s].
Proof.
  revert cur. induction s as [|a s IH]; intros cur.
  - intros _. cbn. by rewrite append_nil_r.
  - intros [Ha Hs]. cbn [split_by_from]. rewrite prefix_bars by done.
    rewrite IH by done. by rewrite append_assoc.
Qed.

Lemma split_by_from_app (cur x y : string) :
  without "|" x ->
  split_by_from "|||" 0 cur (x +:+ "|||" +:+ y)
  = (cur +:+ x) :: split_by_from "|||" 0 EmptyString y.
Proof.
  revert cur. induction x as [|a x IH]; intros cur.
  - intros _. rewrite append_nil_l, append_nil_r. by destruct y.
  - intros [Ha Hx]. rewrite append_cons. cbn [split_by_from].
    rewrite prefix_bars by done. rewrite IH by done. by rewrite append_assoc.
Qed.

Lemma title_line_split (topic_id title : string) :
  without "|" topic_id -> without "|" title ->
  split_by "|||" (title_line topic_id title)
  = [topic_id +:+ " "; " " +:+ title +:+ " " +:+ nl].
Proof.
  intros Hid Htitle. unfold split_by, title_line.
  change (topic_id +:+ " ||| " +:+ title +:+ " " +:+ nl)
    with (topic_id +:+ " " +:+ "|||" +:+ " " +:+ title +:+ " " +:+ nl).
  rewrite <- (append_assoc topic_id " ").
  rewrite split_by_from_app.
  - rewrite split_by_from_without; [done|].
    change (without "|" (String " " (title +:+ " " +:+ nl))).
    split; [done|]. apply without_app. split; [done|]. by cbn.
  - apply without_app. split; [done|]. by cbn.
Qed.

Lemma ustrip_padded (title : string) :
  Py.ustrip (" " +:+ title +:+ " " +:+ nl) = Py.ustrip title.
Proof.
  change (" " +:+ title +:+ " " +:+ nl)
    with (String " " (title +:+ " " +:+ nl)).
  change (Py.ustrip (String " " (title +:+ " " +:+ nl)))
    with (Py.ustrip (title +:+ " " +:+ nl)).
  change (" " +:+ nl) with (" " +:+ String "010" EmptyString).
  rewrite <- append_assoc.
  unfold Py.ustrip. by rewrite !strip_with_app_space.
Qed.

Lemma read_title_line_written (m : gmap string string) (topic_id title : string) :
  without "|" topic_id -> without "|" title ->
  read_title_line m (title_line topic_id title)
  = Ok (<[Py.ustrip topic_id := Py.ustrip title]> m).
Proof.
  intros Hid Ht. unfold read_title_line.
  rewrite title_line_split by done. cbn [unpack2 mbind result_bind].
  rewrite ustrip_padded. unfold Py.ustrip at 1.
  by rewrite strip_with_app_space.
Qed.

Lemma read_title_lines (entries : list (string * string)) (m : gmap string string) :
  Forall (fun e => without "|" e.1 /\ without "|" e.2) entries ->
  for_each read_title_line ((fun e => title_line e.1 e.2) <$> entries) m
  = Ok (write_all ((fun e => (Py.ustrip e.1, Py.ustrip e.2)) <$> entries) m).
Proof.
  intros Hall. revert m. induction Hall as [|[topic_id title] entries [Hid Ht] _ IH];
    intros m; [done|].
  cbn [fmap list_fmap for_each fst snd].
  rewrite read_title_line_written by done. apply IH.
Qed.

(** The file of titles is read back as it was written: when no topic id
    and no title has a bar or a line end in it, reading the file written
    for a list of topics and titles gives the dictionary of the stripped
    titles under the stripped topic ids, a later line replacing an earlier
    one of the same topic. *)
Theorem read_title_written (entries : list (string * string)) :
  Forall (fun e => (without "|" e.1 /\ one_line e.1)
                   /\ (without "|" e.2 /\ one_line e.2)) entries ->
  file_lines ((fun e => title_line e.1 e.2) <$> entries)
  = (fun e => title_line e.1 e.2) <$> entries
  /\ read_title (file_lines ((fun e => title_line e.1 e.2) <$> entries))
     = Ok (write_all ((fun e => (Py.ustrip e.1, Py.ustrip e.2)) <$> entries) ∅).
Proof.
  intros Hall.
  assert (file_lines ((fun e => title_line e.1 e.2) <$> entries)
          = (fun e => title_line e.1 e.2) <$> entries) as Hfile.
  { assert ((fun e : string * string => title_line e.1 e.2) <$> entries
            = (fun body => body +:+ nl)
                <$> ((fun e : string * string => e.1 +:+ " ||| " +:+ e.2 +:+ " ")
                       <$> entries)) as ->.
    { rewrite <- list_fmap_compose. apply list_fmap_ext. intros _ [t title] _. cbn.
      unfold title_line. by rewrite !append_assoc. }
    apply file_lines_written, Forall_fmap.
    eapply Forall_impl; [exact Hall|]. intros [t title] [[_ Ht] [_ Htitle]]. cbn in *.
    apply one_line_app. split; [done|].
    change (" ||| " +:+ title +:+ " ")
      with (String " " (String "|" (String "|" (String "|" (String " " (title +:+ " ")))))).
    cbn [one_line]. split_and!; [done..|]. apply one_line_app. split; [done|by cbn]. }
  split; [exact Hfile|]. rewrite Hfile. apply read_title_lines.
  eapply Forall_impl; [exact Hall|]. by intros e [[? _] [? _]].
Qed.

Lemma read_title_written_witness :
  file_lines [title_line "12" "Imaging for stroke"; title_line "7" " Tests "]
  = [title_line "12" "Imaging for stroke"; title_line "7" " Tests "]
  /\ read_title (file_lines [title_line "12" "Imaging for stroke";
                             title_line "7" " Tests "])
     = Ok (<["7" := "Tests"]> (<["12" := "Imaging for stroke"]> ∅)).
Proof.
  apply (read_title_written [("12", "Imaging for stroke"); ("7", " Tests ")]).
  repeat constructor; done.
Defined.

Lemma read_title_line_cases (m : gmap string string) (line : string) :
  (exists m', read_title_line m line = Ok m')
  \/ read_title_line m line = Raise ValueError.
Proof.
  unfold read_title_line.
  destruct (split_by "|||" line) as [|a [|b [|c l]]]; cbn; eauto.
Qed.

Lemma read_title_lines_raise (lines : list string) (line : string)
    (m : gmap string string) :
  line ∈ lines -> without "|" line ->
  for_each read_title_line lines m = Raise ValueError.
Proof.
  intros Hin Hline. revert m.
  induction lines as [|l lines IH]; intros m; [by apply elem_of_nil in Hin|].
  cbn [for_each].
  destruct (read_title_line_cases m l) as [[m' Hl]|Hl]; [|by rewrite Hl].
  apply elem_of_cons in Hin as [->|Hin].
  - unfold read_title_line, split_by in Hl.
    by rewrite split_by_from_without in Hl.
  - rewrite Hl. cbn [mbind result_bind]. by apply IH.
Qed.

Lemma read_title_raise (lines : list string) (e : exn) :
  read_title lines = Raise e -> e = ValueError.
Proof.
  unfold read_title. generalize (∅ : gmap string string) as m.
  induction lines as [|l lines IH]; intros m; cbn [for_each]; [done|].
  destruct (read_title_line_cases m l) as [[m' ->]| ->]; cbn; [apply IH|].
  by intros [= <-].
Qed.

(** A line of the file of titles that has no bar in it, an empty
    line for instance, stops the reading with a [ValueError], whatever the
    other lines are. *)
Theorem read_title_no_separator (lines : list string) (line : string) :
  line ∈ lines -> without "|" line -> read_title lines = Raise ValueError.
Proof. apply read_title_lines_raise. Qed.

Lemma read_title_no_separator_witness :
  read_title [title_line "12" "Imaging for stroke"; nl] = Raise ValueError.
Proof.
  apply (read_title_no_separator _ nl); [|by cbn].
  right. left.
Defined.

(** ** Release Builder *)

(** How one iteration of the loop over the identifier-list files ends. *)
Lemma release_topic_cases qrel_type dict_rel dict_review dict_title out topic_id lines :
  match release_topic qrel_type dict_rel dict_review dict_title out (topic_id, lines) with
  | Ok _ => is_Some (dict_review !! topic_id) /\ is_Some (dict_title !! topic_id)
  | Raise e =>
      (e = AssertionError /\ dict_review !! topic_id = None)
      \/ (e = KeyError /\ is_Some (dict_review !! topic_id)
          /\ dict_title !! topic_id = None)
  end.
Proof.
  unfold release_topic.
  destruct (decide (topic_id ∈ dom dict_review)) as [Hin|Hout].
  - apply elem_of_dom in Hin as [rv Hrv]. unfold getitem. rewrite Hrv. cbn.
    destruct (dict_title !! topic_id) as [title|] eqn:Ht; cbn.
    + split; by eexists.
    + right. split_and!; [done|by eexists|done].
  - left. split; [done|]. by apply not_elem_of_dom.
Qed.

Lemma release_topic_judgments qrel_type dict_rel dict_review dict_title out
    topic_id lines out' :
  qrel_type = "abs" \/ qrel_type = "doc" ->
  release_topic qrel_type dict_rel dict_review dict_title out (topic_id, lines) = Ok out' ->
  exists rv,
    dict_review !! topic_id = Some rv
    /\ qrel_dir qrel_type out'
       = <[topic_id := judgment_line <$> qrel_file dict_rel rv lines]>
           (qrel_dir qrel_type out).
Proof.
  intros Hq. unfold release_topic.
  destruct (decide (topic_id ∈ dom dict_review)) as [Hin|Hout]; [|done].
  apply elem_of_dom in Hin as [rv Hrv]. unfold getitem. rewrite Hrv. cbn.
  destruct (dict_title !! topic_id) as [title|]; [|done]. cbn.
  intros [= <-]. exists rv. split; [done|].
  by destruct Hq as [-> | ->].
Qed.

(** After a run, the judgment file of a topic holds the judgments of the
    topic's identifier list. *)
Lemma release_files qrel_type dict_rel dict_review dict_title pid_files out out'
    topic_id lines :
  qrel_type = "abs" \/ qrel_type = "doc" ->
  for_each (release_topic qrel_type dict_rel dict_review dict_title) pid_files out
  = Ok out' ->
  NoDup pid_files.*1 ->
  (topic_id, lines) ∈ pid_files ->
  exists rv,
    dict_review !! topic_id = Some rv
    /\ qrel_dir qrel_type out' !! topic_id
       = Some (judgment_line <$> qrel_file dict_rel rv lines).
Proof.
  intros Hq Hrun Hnd Hin.
  assert (forall ps o o',
            for_each (release_topic qrel_type dict_rel dict_review dict_title) ps o = Ok o' ->
            topic_id ∉ ps.*1 ->
            qrel_dir qrel_type o' !! topic_id = qrel_dir qrel_type o !! topic_id) as Hkeep.
  { induction ps as [|[t ls] ps IH]; intros o o'; cbn [for_each].
    - by intros [= <-].
    - intros (o1 & Hstep & Hrest)%bind_Ok [Hne Hnot]%not_elem_of_cons.
      rewrite (IH _ _ Hrest Hnot).
      apply (release_topic_judgments _ _ _ _ _ _ _ _ Hq) in Hstep as (rv & _ & ->).
      by rewrite lookup_insert_ne. }
  revert out Hrun Hnd Hin.
  induction pid_files as [|[t ls] ps IH]; intros out Hrun Hnd Hin.
  - by apply elem_of_nil in Hin.
  - cbn [for_each] in Hrun. apply bind_Ok in Hrun as (o1 & Hstep & Hrest).
    apply NoDup_cons in Hnd as [Hfresh Hnd].
    apply elem_of_cons in Hin as [[= <- <-]|Hin].
    + rewrite (Hkeep _ _ _ Hrest Hfresh).
      apply (release_topic_judgments _ _ _ _ _ _ _ _ Hq) in Hstep as (rv & Hrv & ->).
      exists rv. split; [done|]. by rewrite lookup_insert_eq.
    + by eapply IH.
Qed.

(** A run returns when the three loads and the loop over the files do. *)
Lemma make_release_file_Ok int_text qrel_type rows sheet title_lines pid_files out out' :
  make_release_file int_text qrel_type rows sheet title_lines pid_files out = Ok out'
  <-> exists dict_rel dict_review dict_title,
        read_clef_rel qrel_type rows = Ok dict_rel
        /\ read_ovid_search_file int_text sheet = Ok dict_review
        /\ read_title title_lines = Ok dict_title
        /\ for_each (release_topic qrel_type dict_rel dict_review dict_title) pid_files out
           = Ok out'.
Proof.
  unfold make_release_file. split.
  - intros (dict_rel & Hrel & Hrun)%bind_Ok.
    apply bind_Ok in Hrun as (dict_review & Hreview & Hrun).
    apply bind_Ok in Hrun as (dict_title & Htitle & Hrun).
    by exists dict_rel, dict_review, dict_title.
  - intros (dict_rel & dict_review & dict_title & -> & -> & -> & Hrun). exact Hrun.
Qed.

(** C5, as the code has it.  After a run for a judgment kind, the judgment
    file of a topic has one line for each distinct identifier of the
    topic's identifier list, every flag is 0 or 1, and the flag is the one
    the loaded table holds for the review and the document, 0 when it holds
    none.  In abstract-level files the flag is 0 exactly when the table has
    no entry for the pair. *)
Theorem judgment_file_flags (int_text : string -> option Z) (qrel_type : string)
    (rows : list csv_row) (sheet : Z -> sheet_row) (title_lines : list string)
    (pid_files : list (string * list string)) (out out' : release)
    (topic_id : string) (lines : list string) :
  qrel_type = "abs" \/ qrel_type = "doc" ->
  make_release_file int_text qrel_type rows sheet title_lines pid_files out = Ok out' ->
  NoDup pid_files.*1 ->
  (topic_id, lines) ∈ pid_files ->
  exists dict_rel dict_review rv js,
    read_clef_rel qrel_type rows = Ok dict_rel
    /\ read_ovid_search_file int_text sheet = Ok dict_review
    /\ dict_review !! topic_id = Some rv
    /\ qrel_dir qrel_type out' !! topic_id = Some (judgment_line <$> js)
    /\ length js = size (list_to_set (Py.ustrip <$> lines) : gset string)
    /\ Forall (fun j =>
                 let '(review_doi, _, pid, rel) := j in
                 (rel = 0 \/ rel = 1)
                 /\ rel = default 0 (get2 dict_rel review_doi pid)
                 /\ (get2 dict_rel review_doi pid = None -> rel = 0)
                 /\ (qrel_type = "abs" ->
                     (rel = 0 <-> get2 dict_rel review_doi pid = None))) js.
Proof.
  intros Hq Hrun Hnd Hin.
  apply make_release_file_Ok in Hrun
    as (dict_rel & dict_review & dict_title & Hrel & Hreview & _ & Hrun).
  destruct (release_files _ _ _ _ _ _ _ _ _ Hq Hrun Hnd Hin) as (rv & Hrv & Hfile).
  exists dict_rel, dict_review, rv, (qrel_file dict_rel rv lines). split_and!; try done.
  - unfold qrel_file, judgments. by rewrite length_map, read_pids_length.
  - destruct (read_clef_rel_flags _ _ _ Hrel) as [H01 H1].
    unfold qrel_file, judgments. apply Forall_fmap, Forall_forall.
    intros item _. cbn.
    destruct (get2 dict_rel (review_doi rv) (Py.ustrip item)) as [v|] eqn:Hv; cbn.
    + split_and!; [by eapply H01|done|done|].
      intros Habs. rewrite (H1 Habs _ _ _ Hv). split; [lia|done].
    + split_and!; auto. done.
Qed.

Lemma judgment_file_flags_witness :
  exists dict_rel dict_review rv js,
    read_clef_rel "doc" [mk_rel_row "CD000001" "5" "excluded";
                         mk_rel_row "CD000001" "6" "included"] = Ok dict_rel
    /\ read_ovid_search_file no_int_text (one_sheet 1 "CD000001" "20170101 20171231")
       = Ok dict_review
    /\ dict_review !! "1" = Some rv
    /\ qrel_dir "doc"
         (mk_release ∅
            {[ "1" := judgment_line <$> [("CD000001", 0, "5", 0);
                                         ("CD000001", 0, "6", 1);
                                         ("CD000001", 0, "7", 0)] ]} ∅) !! "1"
       = Some (judgment_line <$> js)
    /\ length js
       = size (list_to_set (Py.ustrip <$> ["5" +:+ nl; "6" +:+ nl; "5" +:+ nl; "7" +:+ nl])
               : gset string)
    /\ Forall (fun j =>
                 let '(review_doi, _, pid, rel) := j in
                 (rel = 0 \/ rel = 1)
                 /\ rel = default 0 (get2 dict_rel review_doi pid)
                 /\ (get2 dict_rel review_doi pid = None -> rel = 0)
                 /\ ("doc" = "abs" ->
                     (rel = 0 <-> get2 dict_rel review_doi pid = None))) js.
Proof.
  apply (judgment_file_flags no_int_text "doc"
           [mk_rel_row "CD000001" "5" "excluded"; mk_rel_row "CD000001" "6" "included"]
           (one_sheet 1 "CD000001" "20170101 20171231") [title_line "1" "A title"]
           [("1", ["5" +:+ nl; "6" +:+ nl; "5" +:+ nl; "7" +:+ nl])] no_release).
  - by right.
  - vm_compute. reflexivity.
  - apply NoDup_singleton.
  - left.
Defined.

(** A document-level file: the flag of a document of an excluded row is 0
    although the table has an entry for it. *)
Lemma judgment_flag_zero_with_entry :
  read_clef_rel "doc" [mk_rel_row "CD000001" "5" "excluded"]
  = Ok (setitem2 ∅ "CD000001" "5" 0)
  /\ make_release_file no_int_text "doc" [mk_rel_row "CD000001" "5" "excluded"]
       (one_sheet 1 "CD000001" "20170101 20171231") [title_line "1" "A title"]
       [("1", ["5" +:+ nl])] no_release
     = Ok (mk_release ∅ {[ "1" := [judgment_line ("CD000001", 0, "5", 0)] ]} ∅)
  /\ get2 (setitem2 ∅ "CD000001" "5" 0) "CD000001" "5" = Some 0
  /\ ~ (flag ("CD000001", 0, "5", 0) = 0
        <-> get2 (setitem2 ∅ "CD000001" "5" 0) "CD000001" "5" = None).
Proof.
  split_and!; [vm_compute; reflexivity..|].
  rewrite get2_setitem2. intros [Hz _]. by specialize (Hz eq_refl).
Qed.

Lemma for_each_release_assertion qrel_type dict_rel dict_review dict_title pid_files out :
  for_each (release_topic qrel_type dict_rel dict_review dict_title) pid_files out
  = Raise AssertionError
  <-> exists pre topic_id lines post,
        pid_files = pre ++ (topic_id, lines) :: post
        /\ dict_review !! topic_id = None
        /\ Forall (fun p => is_Some (dict_review !! p.1) /\ is_Some (dict_title !! p.1)) pre.
Proof.
  revert out. induction pid_files as [|[t ls] ps IH]; intros out; cbn [for_each].
  - split; [done|]. intros (pre & ? & ? & ? & Heq & _). by destruct pre.
  - pose proof (release_topic_cases qrel_type dict_rel dict_review dict_title out t ls) as Hcase.
    destruct (release_topic _ _ _ _ out (t, ls)) as [o1|e]; cbn.
    + rewrite IH. split.
      * intros (pre & t' & ls' & post & -> & Hnone & Hpre).
        exists ((t, ls) :: pre), t', ls', post. split_and!; [done..|by constructor].
      * intros (pre & t' & ls' & post & Heq & Hnone & Hpre).
        destruct pre as [|p pre]; cbn in Heq; injection Heq as ? ?; subst.
        -- destruct Hcase as [[? ?] _]. congruence.
        -- apply Forall_cons in Hpre as [_ Hpre]. by exists pre, t', ls', post.
    + split.
      * intros [= ->]. destruct Hcase as [[_ Hnone]|[? _]]; [|done].
        exists [], t, ls, ps. split_and!; [done..|constructor].
      * intros (pre & t' & ls' & post & Heq & Hnone & Hpre).
        destruct pre as [|p pre]; cbn in Heq; injection Heq as ? ?; subst.
        -- destruct Hcase as [[-> _]|(_ & [? ?] & _)]; [done|congruence].
        -- apply Forall_cons in Hpre as [[[? ?] [? Ht]] _]. cbn in *.
           destruct Hcase as [[_ ?]|(_ & _ & ?)]; congruence.
Qed.

(** C8, as the code has it.  The Release Builder fails with an assertion
    error exactly when the relevance table, the sheet and the file of
    titles load and the run reaches a file of the identifier-list directory
    whose topic id has no entry in the metadata: every file listed before
    it has an entry and a title.  When every topic id of the directory has
    an entry in the metadata, the assertion never fires. *)
Theorem release_assertion (int_text : string -> option Z) (qrel_type : string)
    (rows : list csv_row) (sheet : Z -> sheet_row) (title_lines : list string)
    (pid_files : list (string * list string)) (out : release) :
  (make_release_file int_text qrel_type rows sheet title_lines pid_files out
   = Raise AssertionError
   <-> exists dict_rel dict_review dict_title,
         read_clef_rel qrel_type rows = Ok dict_rel
         /\ read_ovid_search_file int_text sheet = Ok dict_review
         /\ read_title title_lines = Ok dict_title
         /\ exists pre topic_id lines post,
              pid_files = pre ++ (topic_id, lines) :: post
              /\ dict_review !! topic_id = None
              /\ Forall (fun p => is_Some (dict_review !! p.1)
                                  /\ is_Some (dict_title !! p.1)) pre)
  /\ (forall dict_review,
        read_ovid_search_file int_text sheet = Ok dict_review ->
        Forall (fun p => is_Some (dict_review !! p.1)) pid_files ->
        make_release_file int_text qrel_type rows sheet title_lines pid_files out
        <> Raise AssertionError).
Proof.
  assert (make_release_file int_text qrel_type rows sheet title_lines pid_files out
          = Raise AssertionError
          <-> exists dict_rel dict_review dict_title,
                read_clef_rel qrel_type rows = Ok dict_rel
                /\ read_ovid_search_file int_text sheet = Ok dict_review
                /\ read_title title_lines = Ok dict_title
                /\ exists pre topic_id lines post,
                     pid_files = pre ++ (topic_id, lines) :: post
                     /\ dict_review !! topic_id = None
                     /\ Forall (fun p => is_Some (dict_review !! p.1)
                                         /\ is_Some (dict_title !! p.1)) pre) as Hiff.
  { unfold make_release_file.
    destruct (read_clef_rel qrel_type rows) as [dict_rel|e] eqn:Hrel; cbn [mbind result_bind].
    2: { split; [|by intros (? & ? & ? & ? & _)].
         intros [= ->]. apply read_rows_raise in Hrel.
         by destruct Hrel as [?|[?|[?|?]]]. }
    destruct (read_ovid_search_file int_text sheet) as [dict_review|e] eqn:Hreview;
      cbn [mbind result_bind].
    2: { split; [|by intros (? & ? & ? & _ & ? & _)].
         intros [= ->]. apply read_ovid_search_file_raise in Hreview.
         by destruct Hreview as [?|[?|[?|?]]]. }
    destruct (read_title title_lines) as [dict_title|e] eqn:Htitle; cbn [mbind result_bind].
    2: { split; [|by intros (? & ? & ? & _ & _ & ? & _)].
         intros [= ->]. by apply read_title_raise in Htitle. }
    rewrite for_each_release_assertion. split.
    - intros ?. by exists dict_rel, dict_review, dict_title.
    - by intros (? & ? & ? & [= <-] & [= <-] & [= <-] & ?). }
  split; [exact Hiff|].
  intros dict_review Hreview Hall Hfail.
  apply Hiff in Hfail
    as (_ & dict_review' & _ & _ & Hreview' & _ & pre & t & ls & post & -> & Hnone & _).
  assert (dict_review' = dict_review) as -> by congruence.
  apply Forall_app in Hall as [_ Hall]. apply Forall_cons in Hall as [[? Hsome] _].
  cbn in Hsome. congruence.
Qed.

(** The directory holds a topic id without an entry in the metadata, and
    the run does not end in an assertion error: it fails on the missing
    title of the topic listed before it; or, with that topic id listed
    first, on a blank line of the file of titles, or on a row of the
    relevance table without a review code, before any topic is looked
    at. *)
Lemma release_fails_before_assertion :
  read_ovid_search_file no_int_text (one_sheet 1 "CD000001" "20170101 20171231")
  = Ok (sheet_review "1" "CD000001" "20170101 20171231")
  /\ sheet_review "1" "CD000001" "20170101 20171231" !! "2" = None
  /\ make_release_file no_int_text "abs" []
       (one_sheet 1 "CD000001" "20170101 20171231") []
       [("1", ["5" +:+ nl]); ("2", ["6" +:+ nl])] no_release
     = Raise KeyError
  /\ make_release_file no_int_text "abs" []
       (one_sheet 1 "CD000001" "20170101 20171231") [title_line "1" "A title"; nl]
       [("2", ["6" +:+ nl])] no_release
     = Raise ValueError
  /\ make_release_file no_int_text "abs" [mk_rel_row "no code" "5" "included"]
       (one_sheet 1 "CD000001" "20170101 20171231") [title_line "1" "A title"]
       [("2", ["6" +:+ nl])] no_release
     = Raise IndexError
  /\ ~ (make_release_file no_int_text "abs" []
          (one_sheet 1 "CD000001" "20170101 20171231") [title_line "1" "A title"; nl]
          [("2", ["6" +:+ nl])] no_release
        = Raise AssertionError
        <-> exists topic_id lines,
              (topic_id, lines) ∈ [("2", ["6" +:+ nl])]
              /\ sheet_review "1" "CD000001" "20170101 20171231" !! topic_id = None).
Proof.
  split_and!; [vm_compute; reflexivity..|].
  intros [_ Hif].
  assert (make_release_file no_int_text "abs" []
            (one_sheet 1 "CD000001" "20170101 20171231") [title_line "1" "A title"; nl]
            [("2", ["6" +:+ nl])] no_release
          = Raise AssertionError) as Hfail; [|by vm_compute in Hfail].
  apply Hif. exists "2", ["6" +:+ nl]. split; [left|by vm_compute].
Qed.

(** ** Release Builder: what a run writes and when it succeeds *)

Lemma release_topic_Ok qrel_type dict_rel dict_review dict_title out topic_id lines out' :
  release_topic qrel_type dict_rel dict_review dict_title out (topic_id, lines) = Ok out' ->
  exists rv title,
    dict_review !! topic_id = Some rv
    /\ dict_title !! topic_id = Some title
    /\ ABS_QREL_DIR out'
       = (if decide ("abs" = qrel_type)
          then <[topic_id := judgment_line <$> qrel_file dict_rel rv lines]> (ABS_QREL_DIR out)
          else ABS_QREL_DIR out)
    /\ DOC_QREL_DIR out'
       = (if decide ("doc" = qrel_type)
          then <[topic_id := judgment_line <$> qrel_file dict_rel rv lines]> (DOC_QREL_DIR out)
          else DOC_QREL_DIR out)
    /\ TOPIC_DIR out'
       = (if decide ("topic" = qrel_type)
          then <[topic_id := topic_lines (review_doi rv) title (query rv) (read_pids lines)]>
                 (TOPIC_DIR out)
          else TOPIC_DIR out).
Proof.
  unfold release_topic.
  destruct (decide (topic_id ∈ dom dict_review)) as [Hin|Hout]; [|done].
  apply elem_of_dom in Hin as [rv Hrv]. unfold getitem. rewrite Hrv. cbn.
  destruct (dict_title !! topic_id) as [title|]; [|done]. cbn.
  intros [= <-]. exists rv, title. split_and!; try done;
    repeat case_decide; subst; done.
Qed.

(** A loop whose body writes one file of a directory per item. *)
Lemma for_each_written {S A V : Type} (body : S -> string * A -> result S)
    (proj : S -> gmap string V) (val : string * A -> V)
    (ps : list (string * A)) (s s' : S) :
  (forall s p s', body s p = Ok s' -> proj s' = <[p.1 := val p]> (proj s)) ->
  for_each body ps s = Ok s' ->
  (forall name, name ∉ ps.*1 -> proj s' !! name = proj s !! name)
  /\ (NoDup ps.*1 -> forall p, p ∈ ps -> proj s' !! p.1 = Some (val p)).
Proof.
  intros Hbody. revert s. induction ps as [|p ps IH]; intros s; cbn [for_each].
  - intros [= <-]. split; [done|]. by intros _ p ?%elem_of_nil.
  - intros (s1 & Hstep & Hrest)%bind_Ok.
    destruct (IH _ Hrest) as [Hframe Hfiles].
    apply Hbody in Hstep. split.
    + intros name [Hne Hnot]%not_elem_of_cons.
      rewrite (Hframe name Hnot), Hstep. by rewrite lookup_insert_ne.
    + intros [Hfresh Hnd]%NoDup_cons q [->|Hq]%elem_of_cons.
      * rewrite (Hframe _ Hfresh), Hstep. by rewrite lookup_insert_eq.
      * by apply Hfiles.
Qed.

(** A loop whose body leaves a part of the state alone. *)
Lemma for_each_untouched {S A V : Type} (body : S -> A -> result S)
    (proj : S -> V) (xs : list A) (s s' : S) :
  (forall s x s', body s x = Ok s' -> proj s' = proj s) ->
  for_each body xs s = Ok s' -> proj s' = proj s.
Proof.
  intros Hbody. revert s. induction xs as [|x xs IH]; intros s; cbn [for_each].
  - by intros [= <-].
  - intros (s1 & Hstep & Hrest)%bind_Ok.
    rewrite (IH _ Hrest). by eapply Hbody.
Qed.

(** A run for one kind of release file writes to the directory of that kind
    only, and there only to the files named after the topics of the
    identifier-list directory; a run for any other kind writes nothing. *)
Theorem make_release_file_frame (int_text : string -> option Z) (qrel_type : string)
    (rows : list csv_row) (sheet : Z -> sheet_row) (title_lines : list string)
    (pid_files : list (string * list string)) (out out' : release) :
  make_release_file int_text qrel_type rows sheet title_lines pid_files out = Ok out' ->
  ("abs" <> qrel_type -> ABS_QREL_DIR out' = ABS_QREL_DIR out)
  /\ ("doc" <> qrel_type -> DOC_QREL_DIR out' = DOC_QREL_DIR out)
  /\ ("topic" <> qrel_type -> TOPIC_DIR out' = TOPIC_DIR out)
  /\ (forall name, name ∉ pid_files.*1 ->
        ABS_QREL_DIR out' !! name = ABS_QREL_DIR out !! name
        /\ DOC_QREL_DIR out' !! name = DOC_QREL_DIR out !! name
        /\ TOPIC_DIR out' !! name = TOPIC_DIR out !! name).
Proof.
  intros (dict_rel & dict_review & dict_title & _ & _ & _ & Hrun)%make_release_file_Ok.
  split_and!.
  - intros Hq. eapply for_each_untouched; [|exact Hrun].
    intros s [t ls] s' (rv & title & _ & _ & -> & _)%release_topic_Ok.
    by rewrite decide_False.
  - intros Hq. eapply for_each_untouched; [|exact Hrun].
    intros s [t ls] s' (rv & title & _ & _ & _ & -> & _)%release_topic_Ok.
    by rewrite decide_False.
  - intros Hq. eapply for_each_untouched; [|exact Hrun].
    intros s [t ls] s' (rv & title & _ & _ & _ & _ & ->)%release_topic_Ok.
    by rewrite decide_False.
  - intros name Hname.
    assert (forall (proj : release -> gmap string (list string)),
              (forall s p s',
                  release_topic qrel_type dict_rel dict_review dict_title s p = Ok s' ->
                  forall n, n <> p.1 -> proj s' !! n = proj s !! n) ->
              proj out' !! name = proj out !! name) as Hkeep.
    { intros proj Hproj. clear -Hrun Hname Hproj. revert out Hrun.
      induction pid_files as [|p ps IH]; intros out; cbn [for_each].
      - by intros [= <-].
      - intros (s1 & Hstep & Hrest)%bind_Ok.
        apply not_elem_of_cons in Hname as [Hne Hnot].
        rewrite (IH Hnot _ Hrest). by eapply Hproj. }
    split_and!; apply Hkeep; intros s [t ls] s' Hstep n Hn;
      apply release_topic_Ok in Hstep as (rv & title & _ & _ & Ha & Hd & Ht);
      cbn in Hn.
    + rewrite Ha. destruct (decide ("abs" = qrel_type));
        [by rewrite lookup_insert_ne|done].
    + rewrite Hd. destruct (decide ("doc" = qrel_type));
        [by rewrite lookup_insert_ne|done].
    + rewrite Ht. destruct (decide ("topic" = qrel_type));
        [by rewrite lookup_insert_ne|done].
Qed.

Lemma make_release_file_frame_witness :
  ABS_QREL_DIR (mk_release {[ "9" := ["kept"] ]}
                  {[ "1" := [judgment_line ("CD000001", 0, "5", 0)] ]} ∅)
  = ABS_QREL_DIR (mk_release {[ "9" := ["kept"] ]} ∅ ∅).
Proof.
  apply (make_release_file_frame no_int_text "doc" [mk_rel_row "CD000001" "5" "excluded"]
           (one_sheet 1 "CD000001" "20170101 20171231") [title_line "1" "A title"]
           [("1", ["5" +:+ nl])]); [vm_compute; reflexivity|done].
Defined.

Lemma for_each_release_Ok qrel_type dict_rel dict_review dict_title pid_files out :
  (exists out',
      for_each (release_topic qrel_type dict_rel dict_review dict_title) pid_files out
      = Ok out')
  <-> Forall (fun p => is_Some (dict_review !! p.1) /\ is_Some (dict_title !! p.1))
        pid_files.
Proof.
  revert out. induction pid_files as [|[t ls] ps IH]; intros out; cbn [for_each].
  - split; [constructor|by eexists].
  - rewrite Forall_cons.
    pose proof (release_topic_cases qrel_type dict_rel dict_review dict_title out t ls)
      as Hcase.
    destruct (release_topic _ _ _ _ out (t, ls)) as [o1|e]; cbn.
    + rewrite IH. split; [by intros ?; split|by intros [_ ?]].
    + split; [by intros [? ?]|]. intros [[[? Hr] [? Ht]] _]. cbn in *.
      destruct Hcase as [[_ ?]|(_ & _ & ?)]; congruence.
Qed.

(** Where the loop over the files stops when it fails. *)
Lemma for_each_release_fails qrel_type dict_rel dict_review dict_title pid_files out e :
  for_each (release_topic qrel_type dict_rel dict_review dict_title) pid_files out
  = Raise e ->
  exists pre topic_id lines post,
    pid_files = pre ++ (topic_id, lines) :: post
    /\ Forall (fun p => is_Some (dict_review !! p.1) /\ is_Some (dict_title !! p.1)) pre
    /\ ((e = AssertionError /\ dict_review !! topic_id = None)
        \/ (e = KeyError /\ is_Some (dict_review !! topic_id)
            /\ dict_title !! topic_id = None)).
Proof.
  revert out. induction pid_files as [|[t ls] ps IH]; intros out; cbn [for_each]; [done|].
  pose proof (release_topic_cases qrel_type dict_rel dict_review dict_title out t ls)
    as Hcase.
  destruct (release_topic _ _ _ _ out (t, ls)) as [o1|e']; cbn.
  - intros (pre & t' & ls' & post & -> & Hpre & He)%IH.
    exists ((t, ls) :: pre), t', ls', post. split; [done|]. split; [|done].
    by constructor.
  - intros [= <-]. exists [], t, ls, ps. split; [done|]. split; [constructor|done].
Qed.

(** A run of the Release Builder succeeds exactly when the relevance table,
    the sheet and the file of titles load and every file of the
    identifier-list directory is named after a topic that has both an
    entry in the metadata and a title.  Otherwise it fails at the first of
    these steps that fails, with the exception of that step: one of the
    three loads, in the order table, sheet, titles; or the first file
    whose topic has no entry in the metadata ([AssertionError]) or has an
    entry and no title ([KeyError]). *)
Theorem make_release_file_succeeds (int_text : string -> option Z) (qrel_type : string)
    (rows : list csv_row) (sheet : Z -> sheet_row) (title_lines : list string)
    (pid_files : list (string * list string)) (out : release) :
  ((exists out',
       make_release_file int_text qrel_type rows sheet title_lines pid_files out = Ok out')
   <-> exists dict_rel dict_review dict_title,
         read_clef_rel qrel_type rows = Ok dict_rel
         /\ read_ovid_search_file int_text sheet = Ok dict_review
         /\ read_title title_lines = Ok dict_title
         /\ Forall (fun p => is_Some (dict_review !! p.1) /\ is_Some (dict_title !! p.1))
              pid_files)
  /\ (forall e,
        make_release_file int_text qrel_type rows sheet title_lines pid_files out = Raise e ->
        (read_clef_rel qrel_type rows = Raise e
         /\ (e = KeyError \/ e = TypeError \/ e = IndexError \/ e = AttributeError))
        \/ ((exists dict_rel, read_clef_rel qrel_type rows = Ok dict_rel)
            /\ read_ovid_search_file int_text sheet = Raise e
            /\ (e = AttributeError \/ e = TypeError \/ e = ValueError \/ e = IndexError))
        \/ ((exists dict_rel, read_clef_rel qrel_type rows = Ok dict_rel)
            /\ (exists dict_review, read_ovid_search_file int_text sheet = Ok dict_review)
            /\ read_title title_lines = Raise e /\ e = ValueError)
        \/ (exists dict_rel dict_review dict_title pre topic_id lines post,
              read_clef_rel qrel_type rows = Ok dict_rel
              /\ read_ovid_search_file int_text sheet = Ok dict_review
              /\ read_title title_lines = Ok dict_title
              /\ pid_files = pre ++ (topic_id, lines) :: post
              /\ Forall (fun p => is_Some (dict_review !! p.1)
                                  /\ is_Some (dict_title !! p.1)) pre
              /\ ((e = AssertionError /\ dict_review !! topic_id = None)
                  \/ (e = KeyError /\ is_Some (dict_review !! topic_id)
                      /\ dict_title !! topic_id = None)))).
Proof.
  split.
  - split.
    + intros [out' (dict_rel & dict_review & dict_title & Hrel & Hreview & Htitle & Hrun)
                     %make_release_file_Ok].
      exists dict_rel, dict_review, dict_title. split_and!; [done..|].
      eapply for_each_release_Ok. by eexists.
    + intros (dict_rel & dict_review & dict_title & Hrel & Hreview & Htitle & Hall).
      apply (for_each_release_Ok qrel_type dict_rel _ _ _ out) in Hall as [out' Hrun].
      exists out'. apply make_release_file_Ok. by exists dict_rel, dict_review, dict_title.
  - intros e. unfold make_release_file.
    destruct (read_clef_rel qrel_type rows) as [dict_rel|e'] eqn:Hrel;
      cbn [mbind result_bind].
    2: { intros [= <-]. left. split; [done|]. apply read_rows_raise in Hrel. tauto. }
    destruct (read_ovid_search_file int_text sheet) as [dict_review|e'] eqn:Hreview;
      cbn [mbind result_bind].
    2: { intros [= <-]. right. left. split; [by eexists|]. split; [done|].
         by apply read_ovid_search_file_raise in Hreview. }
    destruct (read_title title_lines) as [dict_title|e'] eqn:Htitle;
      cbn [mbind result_bind].
    2: { intros [= <-]. right. right. left. split; [by eexists|]. split; [by eexists|].
         split; [done|]. by apply read_title_raise in Htitle. }
    intros (pre & t & ls & post & -> & Hpre & He)%for_each_release_fails.
    do 3 right. by exists dict_rel, dict_review, dict_title, pre, t, ls, post.
Qed.

(** In topic-description mode the file of a topic holds the review code, the
    title, the query and then every distinct identifier of the topic's
    identifier list once, in the order of first appearance: four header
    writes and one line for each distinct identifier. *)
Theorem topic_file_pids (int_text : string -> option Z) (rows : list csv_row)
    (sheet : Z -> sheet_row) (title_lines : list string)
    (pid_files : list (string * list string)) (out out' : release)
    (topic_id : string) (lines : list string) :
  make_release_file int_text "topic" rows sheet title_lines pid_files out = Ok out' ->
  NoDup pid_files.*1 ->
  (topic_id, lines) ∈ pid_files ->
  exists dict_review dict_title rv title,
    read_ovid_search_file int_text sheet = Ok dict_review
    /\ read_title title_lines = Ok dict_title
    /\ dict_review !! topic_id = Some rv
    /\ dict_title !! topic_id = Some title
    /\ TOPIC_DIR out' !! topic_id
       = Some (topic_lines (review_doi rv) title (query rv)
                 (first_occurrences (Py.ustrip <$> lines)))
    /\ length (topic_lines (review_doi rv) title (query rv)
                 (first_occurrences (Py.ustrip <$> lines)))
       = (4 + size (list_to_set (Py.ustrip <$> lines) : gset string))%nat.
Proof.
  intros (dict_rel & dict_review & dict_title & _ & Hreview & Htitle & Hrun)
           %make_release_file_Ok Hnd Hin.
  pose (val := fun p : string * list string =>
                 match dict_review !! p.1, dict_title !! p.1 with
                 | Some rv, Some title =>
                     topic_lines (review_doi rv) title (query rv) (read_pids p.2)
                 | _, _ => []
                 end).
  assert (forall s p s',
            release_topic "topic" dict_rel dict_review dict_title s p = Ok s' ->
            TOPIC_DIR s' = <[p.1 := val p]> (TOPIC_DIR s)) as Hbody.
  { intros s [t ls] s' (rv & title & Hrv & Ht & _ & _ & Htop)%release_topic_Ok.
    rewrite Htop. subst val. cbn. by rewrite Hrv, Ht. }
  destruct (for_each_written _ TOPIC_DIR val _ _ _ Hbody Hrun) as [_ Hfiles].
  specialize (Hfiles Hnd _ Hin). cbn in Hfiles.
  assert (Forall (fun p => is_Some (dict_review !! p.1) /\ is_Some (dict_title !! p.1))
            pid_files) as Hall by (eapply for_each_release_Ok; by eexists).
  rewrite Forall_forall in Hall. destruct (Hall _ Hin) as [[rv Hrv] [title Ht]].
  cbn in Hrv, Ht. subst val. cbn in Hfiles. rewrite Hrv, Ht in Hfiles.
  exists dict_review, dict_title, rv, title.
  rewrite <- read_pids_first_occurrences. split_and!; try done.
  unfold topic_lines. rewrite length_app, length_map, read_pids_length. done.
Qed.

Lemma topic_file_pids_witness :
  exists dict_review dict_title rv title,
    read_ovid_search_file no_int_text (one_sheet 1 "CD000001" "20170101 20171231")
    = Ok dict_review
    /\ read_title [title_line "1" "A title"] = Ok dict_title
    /\ dict_review !! "1" = Some rv
    /\ dict_title !! "1" = Some title
    /\ TOPIC_DIR
         (mk_release ∅ ∅
            {[ "1" := topic_lines "CD000001" "A title" "query" ["5"; "6"] ]}) !! "1"
       = Some (topic_lines (review_doi rv) title (query rv)
                 (first_occurrences (Py.ustrip <$> ["5" +:+ nl; "6" +:+ nl; "5" +:+ nl])))
    /\ length (topic_lines (review_doi rv) title (query rv)
                 (first_occurrences (Py.ustrip <$> ["5" +:+ nl; "6" +:+ nl; "5" +:+ nl])))
       = (4 + size (list_to_set (Py.ustrip <$> ["5" +:+ nl; "6" +:+ nl; "5" +:+ nl])
                    : gset string))%nat.
Proof.
  apply (topic_file_pids no_int_text [mk_rel_row "CD000001" "5" "excluded"]
           (one_sheet 1 "CD000001" "20170101 20171231") [title_line "1" "A title"]
           [("1", ["5" +:+ nl; "6" +:+ nl; "5" +:+ nl])] no_release).
  - vm_compute. reflexivity.
  - apply NoDup_singleton.
  - left.
Defined.
